(** * nfd_portal: the xdg-desktop-portal (D-Bus) backend of Native File Dialog Extended

    A shallow embedding of [src/nfd_portal.cpp] and the properties of the
    open-file exchange: token generation, callback-path construction,
    request encoding, signal subscription, response decoding, URI
    resolution and the dialog orchestration.

    Conventions of the embedding.
    - A [const char*] is the memory read from the pointer onwards
      ([cptr], a list of characters); cells beyond the list read as NUL.
      The C string stored at a pointer is [c_chars p].
    - D-Bus message bodies are trees of [dval]; a reading [DBusMessageIter]
      is the list of values from the current one onwards.
    - Process globals, the bus connection and the kernel entropy source
      are fields of [State]; what the outside world answers (entropy
      reads, add-match replies, the call reply, incoming traffic) is
      scripted there and consumed in call order.
    - Memory whose content the C code does not determine is read from
      the state as well: [stack_garbage] for stack cells that were never
      written, [released] for the strings of a message that has been
      given back to libdbus. *)

From Stdlib Require Import String Ascii NArith ZArith Arith Bool Lia List.
From Stdlib.Strings Require Import Byte.
Import ListNotations.

Set Implicit Arguments.
Set Warnings "-register-all".

(* ------------------------------------------------------------------ *)
(** ** C strings *)

Definition NUL : ascii := Ascii.zero.

(** Memory from a [char*] onwards. *)
Definition cptr := list ascii.

(** [*p] *)
Definition deref (p : cptr) : ascii := hd NUL p.

(** [p + n] *)
Definition ptr_add (p : cptr) (n : nat) : cptr := skipn n p.

(** The characters of the C string at [p]: everything before the first NUL. *)
Fixpoint c_chars (p : cptr) : list ascii :=
  match p with
  | [] => []
  | c :: p' => if Ascii.eqb c NUL then [] else c :: c_chars p'
  end.

Definition strlen (p : cptr) : nat := length (c_chars p).

(** A string literal: its characters followed by the terminator. *)
Definition cstr (s : string) : cptr := list_ascii_of_string s ++ [NUL].

(** The C string at [p] as a Rocq string. *)
Definition c_string (p : cptr) : string := string_of_list_ascii (c_chars p).

Definition char_code (c : ascii) : Z := Z.of_N (N_of_ascii c).

(** [strcmp]: the difference of the first pair of differing characters
    (as unsigned char), 0 when both strings end together. *)
Fixpoint strcmp (p q : cptr) : Z :=
  match p, q with
  | [], [] => 0
  | [], b :: _ => (0 - char_code b)%Z
  | a :: _, [] => char_code a
  | a :: p', b :: q' =>
      if Ascii.eqb a b
      then (if Ascii.eqb a NUL then 0%Z else strcmp p' q')
      else (char_code a - char_code b)%Z
  end.

(** [copy(begin, end, out)] with [n = end - begin]: the [n] characters
    stored at [out]. *)
Fixpoint copy (begin : cptr) (n : nat) : list ascii :=
  match n with
  | O => []
  | S n' => deref begin :: copy (ptr_add begin 1) n'
  end.

(** [transform(begin, end, out, callback)] with [n = end - begin]. *)
Fixpoint transform (begin : cptr) (n : nat) (callback : ascii -> ascii) : list ascii :=
  match n with
  | O => []
  | S n' => callback (deref begin) :: transform (ptr_add begin 1) n' callback
  end.

(* ------------------------------------------------------------------ *)
(** ** D-Bus values, messages and reading iterators *)

Inductive dbus_type :=
| DBUS_TYPE_INVALID
| DBUS_TYPE_BOOLEAN
| DBUS_TYPE_INT32
| DBUS_TYPE_UINT32
| DBUS_TYPE_STRING
| DBUS_TYPE_OBJECT_PATH
| DBUS_TYPE_ARRAY
| DBUS_TYPE_STRUCT
| DBUS_TYPE_VARIANT
| DBUS_TYPE_DICT_ENTRY.

(** A value of a message body.  Containers keep the list of the values
    appended to them; a well-formed variant holds exactly one value and a
    well-formed dict entry exactly a key and a value. *)
Inductive dval :=
| DBoolean (b : bool)
| DInt32 (z : Z)
| DUInt32 (n : N)
| DString (s : string)
| DObjectPath (s : string)
| DArray (items : list dval)
| DStruct (items : list dval)
| DVariant (items : list dval)
| DDictEntry (items : list dval).

Definition type_of (v : dval) : dbus_type :=
  match v with
  | DBoolean _ => DBUS_TYPE_BOOLEAN
  | DInt32 _ => DBUS_TYPE_INT32
  | DUInt32 _ => DBUS_TYPE_UINT32
  | DString _ => DBUS_TYPE_STRING
  | DObjectPath _ => DBUS_TYPE_OBJECT_PATH
  | DArray _ => DBUS_TYPE_ARRAY
  | DStruct _ => DBUS_TYPE_STRUCT
  | DVariant _ => DBUS_TYPE_VARIANT
  | DDictEntry _ => DBUS_TYPE_DICT_ENTRY
  end.

(** A reading iterator: the current value and those after it; the empty
    list is an iterator past the end. *)
Definition DBusMessageIter := list dval.

Definition dbus_message_iter_get_arg_type (iter : DBusMessageIter) : dbus_type :=
  match iter with
  | [] => DBUS_TYPE_INVALID
  | v :: _ => type_of v
  end.

(** Moves to the next field; the flag is FALSE when there is none. *)
Definition dbus_message_iter_next (iter : DBusMessageIter) : DBusMessageIter * bool :=
  match tl iter with
  | [] => ([], false)
  | rest => (rest, true)
  end.

(** The iterator over the contents of the container under [iter]. *)
Definition dbus_message_iter_recurse (iter : DBusMessageIter) : DBusMessageIter :=
  match iter with
  | DArray items :: _ => items
  | DStruct items :: _ => items
  | DVariant items :: _ => items
  | DDictEntry items :: _ => items
  | _ => []
  end.

(** [dbus_message_iter_get_basic] on a string-like value: a pointer to the
    string owned by the message. *)
Definition dbus_message_iter_get_basic_str (iter : DBusMessageIter) : cptr :=
  match iter with
  | DString s :: _ => cstr s
  | DObjectPath s :: _ => cstr s
  | _ => []
  end.

(** [dbus_message_iter_get_basic] on a uint32. *)
Definition dbus_message_iter_get_basic_u32 (iter : DBusMessageIter) : N :=
  match iter with
  | DUInt32 n :: _ => n
  | _ => 0%N
  end.

Inductive msg_kind := METHOD_CALL | METHOD_RETURN | ERROR_MSG | SIGNAL.

Record DBusMessage := mkMessage {
  msg_type : msg_kind;
  msg_destination : string;
  msg_path : string;
  msg_interface : string;
  msg_member : string;
  msg_body : list dval
}.

Definition dbus_message_is_signal (msg : DBusMessage) (iface member : string) : bool :=
  match msg_type msg with
  | SIGNAL => String.eqb (msg_interface msg) iface && String.eqb (msg_member msg) member
  | _ => false
  end.

(** [dbus_message_iter_init]: FALSE when the message has no arguments. *)
Definition dbus_message_iter_init (msg : DBusMessage) : DBusMessageIter * bool :=
  match msg_body msg with
  | [] => ([], false)
  | body => (body, true)
  end.

(* ------------------------------------------------------------------ *)
(** ** Process state and the outside world *)

Inductive nfdresult_t := NFD_ERROR | NFD_OKAY | NFD_CANCEL.

(** What [err_ptr] points to: nothing, a string literal, or the message
    held by the global [dbus_err]. *)
Inductive ErrPtr :=
| ErrNull
| ErrLiteral (msg : string)
| ErrDBusMessage.

(** One answer of [getrandom(buf, amount, 0)]: -1 with EINTR, -1 with
    another errno, or the bytes the kernel had to offer (at most [amount]
    of them are written). *)
Inductive getrandom_result :=
| GR_EINTR
| GR_FAIL
| GR_READ (bytes : list byte).

(** What [dbus_connection_send_with_reply_and_block] answers. *)
Inductive call_result :=
| CallError (message : string)
| CallReply (reply : DBusMessage).

(** Calls made on the bus connection, in order. *)
Inductive Event :=
| EvAddMatch (rule : string)
| EvRemoveMatch (rule : string)
| EvSend (query : DBusMessage)
| EvPop
| EvReadWrite.

Record State := mkState {
  (* globals of the translation unit *)
  err_ptr : ErrPtr;
  dbus_err : option string;          (* message of the global DBusError, when set *)
  dbus_unique_name : cptr;
  (* the outside world *)
  entropy : list getrandom_result;   (* answers of getrandom; once used up the source fails *)
  add_match_replies : list (option string);     (* error message of each add-match, if any *)
  remove_match_replies : list (option string);  (* error message of each remove-match, if any *)
  call_reply : call_result;
  queue : list DBusMessage;          (* messages queued on the connection *)
  incoming : list (list DBusMessage);(* what each later read_write brings in *)
  hangup : bool;                     (* after [incoming]: connection closed (true) or silent (false) *)
  stack_garbage : cptr;              (* what an uninitialised stack cell and its successors read as *)
  released : option cptr;            (* what the string of a released message reads as; None: as before *)
  trace : list Event
}.

Definition set_err_ptr (e : ErrPtr) (st : State) : State :=
  mkState e (dbus_err st) (dbus_unique_name st) (entropy st) (add_match_replies st)
          (remove_match_replies st) (call_reply st) (queue st) (incoming st) (hangup st)
          (stack_garbage st) (released st) (trace st).

Definition set_dbus_err (d : option string) (st : State) : State :=
  mkState (err_ptr st) d (dbus_unique_name st) (entropy st) (add_match_replies st)
          (remove_match_replies st) (call_reply st) (queue st) (incoming st) (hangup st)
          (stack_garbage st) (released st) (trace st).

Definition set_entropy (e : list getrandom_result) (st : State) : State :=
  mkState (err_ptr st) (dbus_err st) (dbus_unique_name st) e (add_match_replies st)
          (remove_match_replies st) (call_reply st) (queue st) (incoming st) (hangup st)
          (stack_garbage st) (released st) (trace st).

Definition set_add_match_replies (l : list (option string)) (st : State) : State :=
  mkState (err_ptr st) (dbus_err st) (dbus_unique_name st) (entropy st) l
          (remove_match_replies st) (call_reply st) (queue st) (incoming st) (hangup st)
          (stack_garbage st) (released st) (trace st).

Definition set_remove_match_replies (l : list (option string)) (st : State) : State :=
  mkState (err_ptr st) (dbus_err st) (dbus_unique_name st) (entropy st) (add_match_replies st)
          l (call_reply st) (queue st) (incoming st) (hangup st)
          (stack_garbage st) (released st) (trace st).

Definition set_queue (q : list DBusMessage) (st : State) : State :=
  mkState (err_ptr st) (dbus_err st) (dbus_unique_name st) (entropy st) (add_match_replies st)
          (remove_match_replies st) (call_reply st) q (incoming st) (hangup st)
          (stack_garbage st) (released st) (trace st).

Definition set_incoming (i : list (list DBusMessage)) (st : State) : State :=
  mkState (err_ptr st) (dbus_err st) (dbus_unique_name st) (entropy st) (add_match_replies st)
          (remove_match_replies st) (call_reply st) (queue st) i (hangup st)
          (stack_garbage st) (released st) (trace st).

Definition log (e : Event) (st : State) : State :=
  mkState (err_ptr st) (dbus_err st) (dbus_unique_name st) (entropy st) (add_match_replies st)
          (remove_match_replies st) (call_reply st) (queue st) (incoming st) (hangup st)
          (stack_garbage st) (released st) (trace st ++ [e]).

Definition NFDi_SetError (msg : string) (st : State) : State :=
  set_err_ptr (ErrLiteral msg) st.

(** [NFD_GetError]: the message [err_ptr] points to, if any. *)
Definition NFD_GetError (st : State) : option string :=
  match err_ptr st with
  | ErrNull => None
  | ErrLiteral msg => Some msg
  | ErrDBusMessage => dbus_err st
  end.

(** [NFD_ClearError]: [NFDi_SetError(nullptr); dbus_error_free(&dbus_err)]. *)
Definition NFD_ClearError (st : State) : State :=
  set_dbus_err None (set_err_ptr ErrNull st).

(** [dbus_error_free(&dbus_err); dbus_move_error(&err, &dbus_err);
    NFDi_SetError(dbus_err.message)]. *)
Definition set_error_from_dbus (message : string) (st : State) : State :=
  set_err_ptr ErrDBusMessage (set_dbus_err (Some message) st).

(* ------------------------------------------------------------------ *)
(** ** Request encoder *)

(** An appending iterator: the container it fills and the values appended
    through it so far.  A container reaches its parent when it is closed. *)
Record DBusAppendIter := mkAppendIter {
  iter_container : dbus_type;
  iter_items : list dval
}.

(** Modelled from the spec: [DBUS_TYPE_TUPLE] and [DBUS_TYPE_UNSIGNED] are
    used by the filter encoder but declared nowhere under src/ (nor by
    libdbus); the signatures written next to them ("(us)") and the spec's
    wire shapes make them the struct and the uint32 type codes. *)
Definition DBUS_TYPE_TUPLE : dbus_type := DBUS_TYPE_STRUCT.
Definition DBUS_TYPE_UNSIGNED (n : N) : dval := DUInt32 n.

Definition dbus_message_iter_open_container (parent : DBusAppendIter) (type : dbus_type)
    (contained_signature : option string) : DBusAppendIter :=
  mkAppendIter type [].

Definition dbus_message_iter_append_basic (iter : DBusAppendIter) (value : dval) : DBusAppendIter :=
  mkAppendIter (iter_container iter) (iter_items iter ++ [value]).

Definition container_value (sub : DBusAppendIter) : dval :=
  match iter_container sub with
  | DBUS_TYPE_ARRAY => DArray (iter_items sub)
  | DBUS_TYPE_VARIANT => DVariant (iter_items sub)
  | DBUS_TYPE_DICT_ENTRY => DDictEntry (iter_items sub)
  | _ => DStruct (iter_items sub)
  end.

Definition dbus_message_iter_close_container (parent sub : DBusAppendIter) : DBusAppendIter :=
  mkAppendIter (iter_container parent) (iter_items parent ++ [container_value sub]).

Definition STR_EMPTY : cptr := cstr "".
Definition STR_OPEN_FILE : cptr := cstr "Open File".
Definition STR_HANDLE_TOKEN : cptr := cstr "handle_token".
Definition STR_MULTIPLE : cptr := cstr "multiple".
Definition STR_FILTERS : cptr := cstr "filters".

Definition AppendOpenFileQueryDictEntryHandleToken (sub_iter : DBusAppendIter)
    (handle_token : cptr) : DBusAppendIter :=
  let sub_sub_iter := dbus_message_iter_open_container sub_iter DBUS_TYPE_DICT_ENTRY None in
  let sub_sub_iter := dbus_message_iter_append_basic sub_sub_iter (DString (c_string STR_HANDLE_TOKEN)) in
  let variant_iter := dbus_message_iter_open_container sub_sub_iter DBUS_TYPE_VARIANT (Some "s"%string) in
  let variant_iter := dbus_message_iter_append_basic variant_iter (DString (c_string handle_token)) in
  let sub_sub_iter := dbus_message_iter_close_container sub_sub_iter variant_iter in
  dbus_message_iter_close_container sub_iter sub_sub_iter.

(** [dbus_message_iter_append_basic(iter, DBUS_TYPE_BOOLEAN, value)]
    reads a four-byte [dbus_bool_t] at [value]; [cells] are the four bytes
    found there, the lowest first.  libdbus appends the value when it is 0
    or 1; any other value fails its argument check and nothing is
    appended. *)
Definition dbus_message_iter_append_boolean (iter : DBusAppendIter) (cells : list ascii)
    : DBusAppendIter :=
  match map N_of_ascii cells with
  | [0%N; 0%N; 0%N; 0%N] => dbus_message_iter_append_basic iter (DBoolean false)
  | [1%N; 0%N; 0%N; 0%N] => dbus_message_iter_append_basic iter (DBoolean true)
  | _ => iter
  end.

(** The two specialisations of the template on [Multiple].  In the first,
    [b] is a one-byte [bool] holding 1, and the three bytes read after it
    are the stack cells that follow [b]: [garbage]. *)
Definition AppendOpenFileQueryDictEntryMultiple (Multiple : bool) (garbage : cptr)
    (sub_iter : DBusAppendIter) : DBusAppendIter :=
  if Multiple then
    let sub_sub_iter := dbus_message_iter_open_container sub_iter DBUS_TYPE_DICT_ENTRY None in
    let sub_sub_iter := dbus_message_iter_append_basic sub_sub_iter (DString (c_string STR_MULTIPLE)) in
    let variant_iter := dbus_message_iter_open_container sub_sub_iter DBUS_TYPE_VARIANT (Some "b"%string) in
    let b := ascii_of_N 1 in
    let variant_iter := dbus_message_iter_append_boolean variant_iter (b :: copy garbage 3) in
    let sub_sub_iter := dbus_message_iter_close_container sub_sub_iter variant_iter in
    dbus_message_iter_close_container sub_iter sub_sub_iter
  else sub_iter.

Record nfdnfilteritem_t := mkFilterItem {
  name : cptr;
  spec : cptr
}.

Definition is_extn_stop (c : ascii) : bool := Ascii.eqb c ","%char || Ascii.eqb c NUL.

(** The [do { ++extn_end; } while] scan up to the next comma or NUL.
    [p] is the memory at [extn_end] after the increment and [off] the
    distance of [extn_end] to [extn_begin]. *)
Fixpoint scan_extn (p : cptr) (off : nat) : nat :=
  match p with
  | [] => off
  | c :: p' => if is_extn_stop c then off else scan_extn p' (S off)
  end.

(** The [while (true)] loop over one filter spec.  Every pass starts
    with [extn_end == extn_begin].  [fuel] bounds the passes; each pass
    but the last moves [extn_begin] forward.

    Two readings are fixed here, both the most lenient ones.  The cell
    after each [alloca] copy is never written: every copy is taken to be
    followed by the same [garbage].  And libdbus does not define appending
    through an iterator one of whose containers is still open: the append
    is taken to add the value to that iterator's own container. *)
Fixpoint extn_loop (fuel : nat) (garbage : cptr)
    (filter_list_tuple_iter filter_sublist_iter : DBusAppendIter) (extn_begin : cptr)
    : DBusAppendIter * DBusAppendIter :=
  match fuel with
  | O => (filter_list_tuple_iter, filter_sublist_iter)
  | S fuel' =>
      let filter_sublist_tuple_iter :=
        dbus_message_iter_open_container filter_sublist_iter DBUS_TYPE_TUPLE (Some "us"%string) in
      let filter_list_tuple_iter :=
        dbus_message_iter_append_basic filter_list_tuple_iter (DBUS_TYPE_UNSIGNED 0) in
      let extn_end := scan_extn (ptr_add extn_begin 1) 1 in
      if Ascii.eqb (deref (ptr_add extn_begin extn_end)) NUL then
        let filter_list_tuple_iter :=
          dbus_message_iter_append_basic filter_list_tuple_iter (DString (c_string extn_begin)) in
        (filter_list_tuple_iter, filter_sublist_iter)
      else
        (* alloca(extn_end - extn_begin + 1): the copy fills all cells but the last *)
        let buf := copy extn_begin extn_end ++ garbage in
        let filter_list_tuple_iter :=
          dbus_message_iter_append_basic filter_list_tuple_iter (DString (c_string buf)) in
        let extn_begin := ptr_add extn_begin (extn_end + 1) in
        let filter_sublist_iter :=
          dbus_message_iter_close_container filter_sublist_iter filter_sublist_tuple_iter in
        extn_loop fuel' garbage filter_list_tuple_iter filter_sublist_iter extn_begin
  end.

(** The body of the [for] loop over the filter items. *)
Definition append_filter_item (garbage : cptr) (filter_list_iter : DBusAppendIter)
    (item : nfdnfilteritem_t) : DBusAppendIter :=
  let filter_list_tuple_iter :=
    dbus_message_iter_open_container filter_list_iter DBUS_TYPE_TUPLE (Some "sa(us)"%string) in
  let filter_list_tuple_iter :=
    dbus_message_iter_append_basic filter_list_tuple_iter (DString (c_string (name item))) in
  let filter_sublist_iter :=
    dbus_message_iter_open_container filter_list_tuple_iter DBUS_TYPE_ARRAY (Some "(us)"%string) in
  let '(filter_list_tuple_iter, filter_sublist_iter) :=
    extn_loop (S (length (spec item))) garbage filter_list_tuple_iter filter_sublist_iter
              (spec item) in
  let filter_list_tuple_iter :=
    dbus_message_iter_close_container filter_list_tuple_iter filter_sublist_iter in
  dbus_message_iter_close_container filter_list_iter filter_list_tuple_iter.

Definition AppendOpenFileQueryDictEntryFilters (garbage : cptr) (sub_iter : DBusAppendIter)
    (filterList : list nfdnfilteritem_t) : DBusAppendIter :=
  let sub_sub_iter := dbus_message_iter_open_container sub_iter DBUS_TYPE_DICT_ENTRY None in
  let sub_sub_iter := dbus_message_iter_append_basic sub_sub_iter (DString (c_string STR_FILTERS)) in
  let variant_iter :=
    dbus_message_iter_open_container sub_sub_iter DBUS_TYPE_VARIANT (Some "a(sa(us))"%string) in
  let filter_list_iter :=
    dbus_message_iter_open_container variant_iter DBUS_TYPE_ARRAY (Some "(sa(us))"%string) in
  let filter_list_iter := fold_left (append_filter_item garbage) filterList filter_list_iter in
  let variant_iter := dbus_message_iter_close_container variant_iter filter_list_iter in
  let sub_sub_iter := dbus_message_iter_close_container sub_sub_iter variant_iter in
  dbus_message_iter_close_container sub_iter sub_sub_iter.

Definition set_body (body : list dval) (msg : DBusMessage) : DBusMessage :=
  mkMessage (msg_type msg) (msg_destination msg) (msg_path msg) (msg_interface msg)
            (msg_member msg) body.

(** Append OpenFile() portal params to the given query. *)
Definition AppendOpenFileQueryParams (Multiple : bool) (garbage : cptr) (query : DBusMessage)
    (handle_token : cptr) (filterList : list nfdnfilteritem_t) : DBusMessage :=
  let iter := mkAppendIter DBUS_TYPE_INVALID (msg_body query) in
  let iter := dbus_message_iter_append_basic iter (DString (c_string STR_EMPTY)) in
  let iter := dbus_message_iter_append_basic iter (DString (c_string STR_OPEN_FILE)) in
  let sub_iter := dbus_message_iter_open_container iter DBUS_TYPE_ARRAY (Some "{sv}"%string) in
  let sub_iter := AppendOpenFileQueryDictEntryHandleToken sub_iter handle_token in
  let sub_iter := AppendOpenFileQueryDictEntryMultiple Multiple garbage sub_iter in
  let sub_iter :=
    if Nat.eqb (length filterList) 0 then sub_iter
    else AppendOpenFileQueryDictEntryFilters garbage sub_iter filterList in
  let iter := dbus_message_iter_close_container iter sub_iter in
  set_body (iter_items iter) query.

(* ------------------------------------------------------------------ *)
(** ** Token generator and address builder *)

(** ['A' + static_cast<char>(buf[i] & 15)] and ['A' + static_cast<char>(buf[i] >> 4)] *)
Definition low_char (b : byte) : ascii := ascii_of_N (65 + N.land (Byte.to_N b) 15).
Definition high_char (b : byte) : ascii := ascii_of_N (65 + N.shiftr (Byte.to_N b) 4).

(** The [for] loop writing two characters per byte read. *)
Definition encode_bytes (buf : list byte) : list ascii :=
  flat_map (fun b => [low_char b; high_char b]) buf.

(** The [while (amount > 0)] loop: the characters appended and what is
    left of the entropy script.  A script that has run out stands for a
    source that keeps failing. *)
Fixpoint Generate64RandomChars_loop (script : list getrandom_result) (amount : nat)
    {struct script} : list ascii * list getrandom_result :=
  match amount with
  | O => ([], script)
  | S _ =>
      match script with
      | [] => ([], [])
      | GR_EINTR :: script' => Generate64RandomChars_loop script' amount
      | GR_FAIL :: script' => ([], script')
      | GR_READ bytes :: script' =>
          let buf := firstn amount bytes in
          let res := length buf in
          let '(out, rest) := Generate64RandomChars_loop script' (amount - res) in
          (encode_bytes buf ++ out, rest)
      end
  end.

(** Appends up to 64 random chars; returns the appended chars. *)
Definition Generate64RandomChars (st : State) : list ascii * State :=
  let '(out, rest) := Generate64RandomChars_loop (entropy st) 32 in
  (out, set_entropy rest st).

Definition STR_RESPONSE_HANDLE_PREFIX : cptr := cstr "/org/freedesktop/portal/desktop/request/".
Definition STR_RESPONSE_HANDLE_PREFIX_LEN : nat :=
  length STR_RESPONSE_HANDLE_PREFIX - 1.

Definition dot_to_underscore (ch : ascii) : ascii :=
  if negb (Ascii.eqb ch "."%char) then ch else "_"%char.

(** The path, the pointer to its TOKEN part, and the state after the
    entropy reads.  The buffer is given up to its terminator; the cells
    after it are never read. *)
Definition MakeUniqueObjectPath (st : State) : cptr * cptr * State :=
  let sender := dbus_unique_name st in
  let sender := if Ascii.eqb (deref sender) ":"%char then ptr_add sender 1 else sender in
  let sender_len := strlen sender in
  let written := copy STR_RESPONSE_HANDLE_PREFIX STR_RESPONSE_HANDLE_PREFIX_LEN in
  let written := written ++ transform sender sender_len dot_to_underscore in
  let written := written ++ ["/"%char] in
  let token_offset := length written in
  let '(token, st') := Generate64RandomChars st in
  let path := written ++ token ++ [NUL] in
  (path, ptr_add path token_offset, st').

(* ------------------------------------------------------------------ *)
(** ** Subscription manager *)

Record DBusSignalSubscriptionHandler := mkHandler {
  sub_cmd : option cptr
}.

Definition STR_RESPONSE_SUBSCRIPTION_PATH_1 : cptr :=
  cstr "type='signal',sender='org.freedesktop.portal.Desktop',path='".
Definition STR_RESPONSE_SUBSCRIPTION_PATH_1_LEN : nat :=
  length STR_RESPONSE_SUBSCRIPTION_PATH_1 - 1.
Definition STR_RESPONSE_SUBSCRIPTION_PATH_2 : cptr :=
  cstr "',interface='org.freedesktop.portal.Request',member='Response',destination='".
Definition STR_RESPONSE_SUBSCRIPTION_PATH_2_LEN : nat :=
  length STR_RESPONSE_SUBSCRIPTION_PATH_2 - 1.
Definition STR_RESPONSE_SUBSCRIPTION_PATH_3 : cptr := cstr "'".
Definition STR_RESPONSE_SUBSCRIPTION_PATH_3_LEN : nat :=
  length STR_RESPONSE_SUBSCRIPTION_PATH_3 - 1.

Definition MakeResponseSubscriptionPath (handle_path unique_name : cptr) : cptr :=
  let handle_path_len := strlen handle_path in
  let unique_name_len := strlen unique_name in
  copy STR_RESPONSE_SUBSCRIPTION_PATH_1 STR_RESPONSE_SUBSCRIPTION_PATH_1_LEN
  ++ copy handle_path handle_path_len
  ++ copy STR_RESPONSE_SUBSCRIPTION_PATH_2 STR_RESPONSE_SUBSCRIPTION_PATH_2_LEN
  ++ copy unique_name unique_name_len
  ++ copy STR_RESPONSE_SUBSCRIPTION_PATH_3 STR_RESPONSE_SUBSCRIPTION_PATH_3_LEN
  ++ [NUL].

(** [dbus_bus_add_match]: the error the bus answers with, if any. *)
Definition dbus_bus_add_match (rule : cptr) (st : State) : option string * State :=
  let st := log (EvAddMatch (c_string rule)) st in
  match add_match_replies st with
  | [] => (None, st)
  | r :: rs => (r, set_add_match_replies rs st)
  end.

(** [dbus_bus_remove_match]: the error the bus answers with, if any. *)
Definition dbus_bus_remove_match (rule : cptr) (st : State) : option string * State :=
  let st := log (EvRemoveMatch (c_string rule)) st in
  match remove_match_replies st with
  | [] => (None, st)
  | r :: rs => (r, set_remove_match_replies rs st)
  end.

(** Both callers test [sub_cmd] first; on a null [sub_cmd] the C code
    fails the assertion of [NFDi_Free], which the model leaves out. *)
Definition Unsubscribe (self : DBusSignalSubscriptionHandler) (st : State)
    : DBusSignalSubscriptionHandler * State :=
  match sub_cmd self with
  | Some cmd =>
      let '(err, st) := dbus_bus_remove_match cmd st in
      (* NFDi_Free(sub_cmd); sub_cmd = nullptr; dbus_error_free(&err) *)
      (mkHandler None, st)
  | None => (self, st)
  end.

Definition Subscribe (self : DBusSignalSubscriptionHandler) (handle_path : cptr) (st : State)
    : nfdresult_t * DBusSignalSubscriptionHandler * State :=
  let '(self, st) :=
    match sub_cmd self with
    | Some _ => Unsubscribe self st
    | None => (self, st)
    end in
  let cmd := MakeResponseSubscriptionPath handle_path (dbus_unique_name st) in
  let self := mkHandler (Some cmd) in
  let '(err, st) := dbus_bus_add_match cmd st in
  match err with
  | Some message => (NFD_ERROR, self, set_error_from_dbus message st)
  | None => (NFD_OKAY, self, st)
  end.

(** [~DBusSignalSubscriptionHandler] *)
Definition destroy_handler (self : DBusSignalSubscriptionHandler) (st : State) : State :=
  match sub_cmd self with
  | Some _ => snd (Unsubscribe self st)
  | None => st
  end.

(* ------------------------------------------------------------------ *)
(** ** Response decoder *)

Definition ERR_NOT_ARRAY : string := "D-Bus response signal argument is not an array.".
Definition ERR_ENTRY_NOT_STRING : string :=
  "D-Bus response signal dict entry does not start with a string.".
Definition ERR_ENTRY_MISSING : string :=
  "D-Bus response signal dict entry is missing one or more arguments.".
Definition ERR_ENTRY_NOT_VARIANT : string :=
  "D-Bus response signal dict entry value is not a variant.".
Definition ERR_MISSING_ARGS : string :=
  "D-Bus response signal is missing one or more arguments.".
Definition ERR_NOT_UINT32 : string := "D-Bus response signal argument is not a uint32.".
Definition ERR_ABRUPT : string := "D-Bus file dialog interaction was ended abruptly.".
Definition ERR_URI_NOT_ARRAY : string := "D-Bus response signal URI iter is not an array.".
Definition ERR_URI_NOT_STRING : string := "D-Bus response signal URI sub iter is not an string.".
Definition ERR_NOT_FILE_URI : string :=
  "D-Bus freedesktop portal returned a URI that is not a file URI.".
Definition ERR_REPLY_MISSING : string := "D-Bus reply is missing an argument.".
Definition ERR_REPLY_NOT_PATH : string := "D-Bus reply is not an object path.".
Definition ERR_NO_REPLY : string := "D-Bus freedesktop portal did not give us a reply.".

Section Decoder.

(** What the callbacks capture by reference. *)
Variable E : Type.

(** A callback of [ReadDict]: it gets the iterator over the variant's
    content and may update what it captured and the globals. *)
Definition Callback := DBusMessageIter -> E -> State -> nfdresult_t * E * State.

(** The variadic [ReadDictImpl]: [args] are the (key, callback) pairs
    left to try. *)
Fixpoint ReadDictImpl (key : cptr) (iter : DBusMessageIter) (args : list (cptr * Callback))
    (env : E) (st : State) : nfdresult_t * E * State :=
  match args with
  | [] => (NFD_OKAY, env, st)
  | (candidate_key, candidate_callback) :: args' =>
      if Z.eqb (strcmp key candidate_key) 0
      then candidate_callback iter env st
      else ReadDictImpl key iter args' env st
  end.

(** The [while] loop of [ReadDict] over the array's elements.  After an
    entry, [dbus_message_iter_next(&sub_iter)] failing breaks out, which
    is what the loop test does on the empty rest. *)
Fixpoint ReadDict_loop (sub_iter : DBusMessageIter) (args : list (cptr * Callback))
    (env : E) (st : State) : nfdresult_t * E * State :=
  match sub_iter with
  | [] => (NFD_OKAY, env, st)
  | cur :: rest =>
      match type_of cur with
      | DBUS_TYPE_DICT_ENTRY =>
          let de_iter := dbus_message_iter_recurse sub_iter in
          match dbus_message_iter_get_arg_type de_iter with
          | DBUS_TYPE_STRING =>
              let key := dbus_message_iter_get_basic_str de_iter in
              let '(de_iter, has_next) := dbus_message_iter_next de_iter in
              if negb has_next then (NFD_ERROR, env, NFDi_SetError ERR_ENTRY_MISSING st)
              else
                match dbus_message_iter_get_arg_type de_iter with
                | DBUS_TYPE_VARIANT =>
                    let de_variant_iter := dbus_message_iter_recurse de_iter in
                    let '(r, env, st) := ReadDictImpl key de_variant_iter args env st in
                    match r with
                    | NFD_ERROR => (NFD_ERROR, env, st)
                    | _ => ReadDict_loop rest args env st
                    end
                | _ => (NFD_ERROR, env, NFDi_SetError ERR_ENTRY_NOT_VARIANT st)
                end
          | _ => (NFD_ERROR, env, NFDi_SetError ERR_ENTRY_NOT_STRING st)
          end
      | _ => (NFD_OKAY, env, st)
      end
  end.

(** Read a dictionary from the given iterator. *)
Definition ReadDict (iter : DBusMessageIter) (args : list (cptr * Callback))
    (env : E) (st : State) : nfdresult_t * E * State :=
  match dbus_message_iter_get_arg_type iter with
  | DBUS_TYPE_ARRAY => ReadDict_loop (dbus_message_iter_recurse iter) args env st
  | _ => (NFD_ERROR, env, NFDi_SetError ERR_NOT_ARRAY st)
  end.

End Decoder.

(** The lambda given to [ReadDict] for "uris"; it captures [file]. *)
Definition uris_callback : Callback (option cptr) :=
  fun uris_iter file st =>
    match dbus_message_iter_get_arg_type uris_iter with
    | DBUS_TYPE_ARRAY =>
        let uris_sub_iter := dbus_message_iter_recurse uris_iter in
        match dbus_message_iter_get_arg_type uris_sub_iter with
        | DBUS_TYPE_STRING =>
            (NFD_OKAY, Some (dbus_message_iter_get_basic_str uris_sub_iter), st)
        | _ => (NFD_ERROR, file, NFDi_SetError ERR_URI_NOT_STRING st)
        end
    | _ => (NFD_ERROR, file, NFDi_SetError ERR_URI_NOT_ARRAY st)
    end.

(** Read the message; [file] is the caller's variable ([None] is nullptr). *)
Definition ReadResponseParamsSingle (msg : DBusMessage) (file : option cptr) (st : State)
    : nfdresult_t * option cptr * State :=
  let '(iter, ok) := dbus_message_iter_init msg in
  if negb ok then (NFD_ERROR, file, NFDi_SetError ERR_MISSING_ARGS st)
  else
    match dbus_message_iter_get_arg_type iter with
    | DBUS_TYPE_UINT32 =>
        let resp_code := dbus_message_iter_get_basic_u32 iter in
        if negb (N.eqb resp_code 0) then
          if N.eqb resp_code 1 then (NFD_CANCEL, file, st)
          else (NFD_ERROR, file, NFDi_SetError ERR_ABRUPT st)
        else
          let '(iter, has_next) := dbus_message_iter_next iter in
          if negb has_next then (NFD_ERROR, file, NFDi_SetError ERR_MISSING_ARGS st)
          else
            let '(r, file, st) := ReadDict iter [(cstr "uris", uris_callback)] file st in
            match r with
            | NFD_ERROR => (NFD_ERROR, file, st)
            | _ => (NFD_OKAY, file, st)
            end
    | _ => (NFD_ERROR, file, NFDi_SetError ERR_NOT_UINT32 st)
    end.

(* ------------------------------------------------------------------ *)
(** ** Locator resolver *)

Definition FILE_URI_PREFIX : cptr := cstr "file://".
Definition FILE_URI_PREFIX_LEN : nat := length FILE_URI_PREFIX - 1.

(** The [for] loop comparing the prefix; [n] is [prefix_end - prefix_begin].
    [Some] is [fileUri] after the loop, [None] the early return. *)
Fixpoint match_file_prefix (prefix_begin : cptr) (n : nat) (fileUri : cptr) : option cptr :=
  match n with
  | O => Some fileUri
  | S n' =>
      if negb (Ascii.eqb (deref prefix_begin) (deref fileUri)) then None
      else match_file_prefix (ptr_add prefix_begin 1) n' (ptr_add fileUri 1)
  end.

(** [outPath] is the caller's variable; the new buffer holds [len + 1] cells. *)
Definition AllocAndCopyFIlePath (fileUri : cptr) (outPath : option cptr) (st : State)
    : nfdresult_t * option cptr * State :=
  match match_file_prefix FILE_URI_PREFIX FILE_URI_PREFIX_LEN fileUri with
  | None => (NFD_ERROR, outPath, NFDi_SetError ERR_NOT_FILE_URI st)
  | Some fileUri =>
      let len := strlen fileUri in
      let path_without_prefix := copy fileUri (len + 1) in
      (NFD_OKAY, Some path_without_prefix, st)
  end.

(* ------------------------------------------------------------------ *)
(** ** Dialog orchestrator *)

(** How a call of the operation ends: it returns, or it stays blocked in
    [dbus_connection_read_write] on a connection that stays silent. *)
Inductive Outcome :=
| Returns (res : nfdresult_t)
| BlocksForever.

(** [dbus_connection_send_with_reply_and_block] *)
Definition dbus_connection_send_with_reply_and_block (query : DBusMessage) (st : State)
    : call_result * State :=
  (call_reply st, log (EvSend query) st).

Definition dbus_message_new_method_call (destination path iface method : string) : DBusMessage :=
  mkMessage METHOD_CALL destination path iface method [].

(** How the inner [while (true)] loop is left. *)
Inductive drained :=
| DrainReturn (res : nfdresult_t) (file : option cptr) (st : State)
| DrainBreak (file : option cptr) (st : State).

(** The inner loop popping the queued messages [q].  [file] is a pointer
    into the message it was read from, and [msg_guard] gives that message
    back to libdbus when the loop body is left, also through [break]: the
    pointer is handed on as it is, what it then reads as is
    [read_released]. *)
Fixpoint drain_queue (q : list DBusMessage) (file : option cptr) (st : State) : drained :=
  match q with
  | [] => DrainBreak file (log EvPop st)
  | msg :: q' =>
      let st := set_queue q' (log EvPop st) in
      if dbus_message_is_signal msg "org.freedesktop.portal.Request" "Response" then
        let '(res, file, st) := ReadResponseParamsSingle msg file st in
        match res with
        | NFD_OKAY => DrainBreak file st
        | _ => DrainReturn res file st
        end
      else drain_queue q' file st
  end.

(** The [do ... while (dbus_connection_read_write(dbus_conn, -1))] loop;
    [batches] is what the coming [read_write] calls bring in.  [inl] is
    a return from inside the loop or a wait that never ends, [inr] the
    loop left with [file] as given. *)
Fixpoint wait_loop (batches : list (list DBusMessage)) (file : option cptr) (st : State)
    : Outcome * option cptr * State + option cptr * State :=
  match drain_queue (queue st) file st with
  | DrainReturn res file st => inl (Returns res, file, st)
  | DrainBreak file st =>
      match file with
      | Some _ => inr (file, st)
      | None =>
          match batches with
          | batch :: batches' =>
              let st := set_incoming batches' (set_queue (queue st ++ batch) (log EvReadWrite st)) in
              wait_loop batches' file st
          | [] =>
              let st := log EvReadWrite st in
              if hangup st then inr (file, st) else inl (BlocksForever, file, st)
          end
      end
  end.

(** What the string at [p] reads as once the message that owns it has
    been released. *)
Definition read_released (p : cptr) (st : State) : cptr :=
  match released st with
  | Some cells => cells
  | None => p
  end.

(** The part of the function after the reply is checked: wait for the
    response, then resolve the file it names.  By then the message that
    [file] points into has been released. *)
Definition wait_and_read_response (outPath : option cptr) (st : State)
    : Outcome * option cptr * State :=
  match wait_loop (incoming st) None st with
  | inl (out, _, st) => (out, outPath, st)
  | inr (None, st) => (Returns NFD_ERROR, outPath, NFDi_SetError ERR_NO_REPLY st)
  | inr (Some file, st) =>
      let '(res, outPath, st) := AllocAndCopyFIlePath (read_released file st) outPath st in
      (Returns res, outPath, st)
  end.

(** The function body; the handler is returned for its destructor. *)
Definition NFD_OpenDialogN_body (outPath : option cptr) (filterList : list nfdnfilteritem_t)
    (st : State) : Outcome * option cptr * DBusSignalSubscriptionHandler * State :=
  let '(handle_obj_path, handle_token_ptr, st) := MakeUniqueObjectPath st in
  let signal_sub := mkHandler None in
  let '(res, signal_sub, st) := Subscribe signal_sub handle_obj_path st in
  match res with
  | NFD_OKAY =>
      let query := dbus_message_new_method_call "org.freedesktop.portal.Desktop"
                     "/org/freedesktop/portal/desktop" "org.freedesktop.portal.FileChooser"
                     "OpenFile" in
      let query := AppendOpenFileQueryParams false (stack_garbage st) query handle_token_ptr
                     filterList in
      let '(reply, st) := dbus_connection_send_with_reply_and_block query st in
      match reply with
      | CallError message => (Returns NFD_ERROR, outPath, signal_sub, set_error_from_dbus message st)
      | CallReply reply =>
          let '(iter, ok) := dbus_message_iter_init reply in
          if negb ok then
            (Returns NFD_ERROR, outPath, signal_sub, NFDi_SetError ERR_REPLY_MISSING st)
          else
            match dbus_message_iter_get_arg_type iter with
            | DBUS_TYPE_OBJECT_PATH =>
                let path := dbus_message_iter_get_basic_str iter in
                let '(signal_sub, st) :=
                  if negb (Z.eqb (strcmp path handle_obj_path) 0)
                  then let '(_, signal_sub, st) := Subscribe signal_sub path st in (signal_sub, st)
                  else (signal_sub, st) in
                let '(out, outPath, st) := wait_and_read_response outPath st in
                (out, outPath, signal_sub, st)
            | _ => (Returns NFD_ERROR, outPath, signal_sub, NFDi_SetError ERR_REPLY_NOT_PATH st)
            end
      end
  | _ => (Returns res, outPath, signal_sub, st)
  end.

(** The operation: the body, then the destructor of [signal_sub] on return. *)
Definition NFD_OpenDialogN (outPath : option cptr) (filterList : list nfdnfilteritem_t)
    (defaultPath : option cptr) (st : State) : Outcome * option cptr * State :=
  let '(out, outPath, signal_sub, st) := NFD_OpenDialogN_body outPath filterList st in
  match out with
  | Returns _ => (out, outPath, destroy_handler signal_sub st)
  | BlocksForever => (out, outPath, st)
  end.

(* ------------------------------------------------------------------ *)
(** ** Vocabulary of the specification *)

(** [pre] is a prefix of [s]. *)
Fixpoint has_prefix (pre s : list ascii) : bool :=
  match pre, s with
  | [], _ => true
  | _ :: _, [] => false
  | a :: pre', b :: s' => Ascii.eqb a b && has_prefix pre' s'
  end.

(** Two pointers hold the same C string. *)
Definition same_c_string (p q : cptr) : bool :=
  if list_eq_dec ascii_dec (c_chars p) (c_chars q) then true else false.

(** The alphabet [A-Za-z0-9_] of a callback token. *)
Definition is_token_char (c : ascii) : bool :=
  let n := N_of_ascii c in
  ((65 <=? n) && (n <=? 90) || (97 <=? n) && (n <=? 122)
   || (48 <=? n) && (n <=? 57) || (n =? 95))%N.

(** The letters 'A'..'P'. *)
Definition is_A_to_P (c : ascii) : bool :=
  let n := N_of_ascii c in ((65 <=? n) && (n <=? 80))%N.

(** The bytes the entropy source hands out before its first failure
    that is not an interruption. *)
Fixpoint bytes_before_failure (script : list getrandom_result) : list byte :=
  match script with
  | [] => []
  | GR_EINTR :: script' => bytes_before_failure script'
  | GR_FAIL :: _ => []
  | GR_READ bytes :: script' => bytes ++ bytes_before_failure script'
  end.

(** The identity segment of a callback path: a leading ':' dropped, then
    every '.' replaced by '_'. *)
Definition strip_leading_colon (identity : list ascii) : list ascii :=
  match identity with
  | c :: rest => if Ascii.eqb c ":"%char then rest else identity
  | [] => []
  end.

Definition sanitized_identity (identity : list ascii) : list ascii :=
  map dot_to_underscore (strip_leading_colon identity).

Definition FIXED_PREFIX : list ascii :=
  list_ascii_of_string "/org/freedesktop/portal/desktop/request".

(** The match rule the manager registers for a callback address. *)
Definition rule_for (handle_path : cptr) (st : State) : string :=
  c_string (MakeResponseSubscriptionPath handle_path (dbus_unique_name st)).

(** The bus accepts the first add-match of the run. *)
Definition first_add_match_ok (st : State) : bool :=
  match add_match_replies st with
  | Some _ :: _ => false
  | _ => true
  end.

Definition drained_state (d : drained) : State :=
  match d with
  | DrainReturn _ _ st => st
  | DrainBreak _ st => st
  end.

Definition waited_state (w : Outcome * option cptr * State + option cptr * State) : State :=
  match w with
  | inl (_, _, st) => st
  | inr (_, st) => st
  end.

Definition is_wait_event (e : Event) : bool :=
  match e with
  | EvPop | EvReadWrite => true
  | _ => false
  end.

(** A well-formed entry of a results dictionary. *)
Definition dict_entry (kv : string * dval) : dval :=
  DDictEntry [DString (fst kv); DVariant [snd kv]].

(** The unwrap step at which a dict entry has the wrong shape, if any. *)
Definition entry_mismatch (entry : dval) : option string :=
  match entry with
  | DDictEntry (DString _ :: DVariant _ :: _) => None
  | DDictEntry (DString _ :: []) => Some ERR_ENTRY_MISSING
  | DDictEntry (DString _ :: _ :: _) => Some ERR_ENTRY_NOT_VARIANT
  | DDictEntry _ => Some ERR_ENTRY_NOT_STRING
  | _ => None
  end.

(** What the decoder does at an array element that it does not hand to
    the handlers: the result it ends with and the error message it sets.
    An element that is no dict entry ends the decode without an error.
    [None] for a dict entry of a string key and a variant value. *)
Definition element_outcome (element : dval) : option (nfdresult_t * option string) :=
  match element with
  | DDictEntry _ =>
      match entry_mismatch element with
      | Some msg => Some (NFD_ERROR, Some msg)
      | None => None
      end
  | _ => Some (NFD_OKAY, None)
  end.

Section DecoderSpec.

Variable E : Type.

(** The first handler registered under the key. *)
Fixpoint first_handler (key : string) (handlers : list (cptr * Callback E))
    : option (Callback E) :=
  match handlers with
  | [] => None
  | (k, h) :: handlers' =>
      if same_c_string (cstr key) k then Some h else first_handler key handlers'
  end.

(** The decoder as the specification words it: each entry goes to the
    first handler of its key, entries without one are skipped, and the
    first handler failure ends the decode. *)
Fixpoint decode_entries (entries : list (string * dval)) (handlers : list (cptr * Callback E))
    (env : E) (st : State) : nfdresult_t * E * State :=
  match entries with
  | [] => (NFD_OKAY, env, st)
  | (k, v) :: entries' =>
      match first_handler k handlers with
      | None => decode_entries entries' handlers env st
      | Some h =>
          let '(r, env, st) := h [v] env st in
          match r with
          | NFD_ERROR => (NFD_ERROR, env, st)
          | _ => decode_entries entries' handlers env st
          end
      end
  end.

End DecoderSpec.

(** Reading a [filters] value of wire shape a(sa(us)) back into groups of
    (tag, pattern) entries. *)
Definition decode_pattern (v : dval) : option (N * string) :=
  match v with
  | DStruct [DUInt32 tag; DString pattern] => Some (tag, pattern)
  | _ => None
  end.

Fixpoint decode_all {A B : Type} (f : A -> option B) (l : list A) : option (list B) :=
  match l with
  | [] => Some []
  | a :: l' =>
      match f a, decode_all f l' with
      | Some b, Some bs => Some (b :: bs)
      | _, _ => None
      end
  end.

Definition decode_group (v : dval) : option (string * list (N * string)) :=
  match v with
  | DStruct [DString group; DArray patterns] =>
      option_map (pair group) (decode_all decode_pattern patterns)
  | _ => None
  end.

Definition decode_filters (v : dval) : option (list (string * list (N * string))) :=
  match v with
  | DArray groups => decode_all decode_group groups
  | _ => None
  end.

(** The [filters] value of an options dictionary, when it has one. *)
Fixpoint find_filters (options : list dval) : option dval :=
  match options with
  | [] => None
  | DDictEntry [DString key; DVariant [v]] :: options' =>
      if String.eqb key "filters" then Some v else find_filters options'
  | _ :: options' => find_filters options'
  end.

(* ------------------------------------------------------------------ *)
(** ** Sample worlds *)

(** A connected process with nothing scripted and nothing queued. *)
Definition quiet_state : State :=
  mkState ErrNull None (cstr ":1.42") [] [] [] (CallError "no reply scripted") [] [] false [] None [].

Definition set_call_reply (r : call_result) (st : State) : State :=
  mkState (err_ptr st) (dbus_err st) (dbus_unique_name st) (entropy st) (add_match_replies st)
          (remove_match_replies st) r (queue st) (incoming st) (hangup st)
          (stack_garbage st) (released st) (trace st).

Definition response_signal (body : list dval) : DBusMessage :=
  mkMessage SIGNAL ":1.42" "/org/freedesktop/portal/desktop/request/1_42/t"
            "org.freedesktop.portal.Request" "Response" body.

Definition reply_with_path (p : string) : DBusMessage :=
  mkMessage METHOD_RETURN ":1.42" "" "" "" [DObjectPath p].

(** 32 entropy bytes at once. *)
Definition good_entropy : list getrandom_result := [GR_READ (repeat x3a 32)].

(** The service answers with another handle than the guessed one and then
    signals a file. *)
Definition redirected_state : State :=
  set_queue
    [response_signal
       [DUInt32 0; DArray [dict_entry ("uris"%string, DArray [DString "file:///home/u/doc.txt"])]]]
    (set_call_reply (CallReply (reply_with_path "/org/freedesktop/portal/desktop/request/1_42/other"))
       (set_entropy good_entropy quiet_state)).

(** The service signals success with a results dictionary without "uris"
    and then stays silent. *)
Definition no_uris_state : State :=
  set_queue
    [response_signal [DUInt32 0; DArray [dict_entry ("other"%string, DUInt32 5)]]]
    (set_call_reply (CallReply (reply_with_path "/org/freedesktop/portal/desktop/request/1_42/other"))
       (set_entropy good_entropy quiet_state)).

(** As [no_uris_state], but a second Response signal arrives later. *)
Definition no_uris_then_uri_state : State :=
  set_incoming
    [[response_signal
        [DUInt32 0; DArray [dict_entry ("uris"%string, DArray [DString "file:///tmp/late.txt"])]]]]
    no_uris_state.

(** As [no_uris_state], but the connection is closed after the signal. *)
Definition no_uris_hangup_state : State :=
  mkState (err_ptr no_uris_state) (dbus_err no_uris_state) (dbus_unique_name no_uris_state)
          (entropy no_uris_state) (add_match_replies no_uris_state)
          (remove_match_replies no_uris_state) (call_reply no_uris_state) (queue no_uris_state)
          (incoming no_uris_state) true (stack_garbage no_uris_state) (released no_uris_state)
          (trace no_uris_state).

Definition images_filter : list nfdnfilteritem_t :=
  [mkFilterItem (cstr "Images") (cstr "png,jpg,jpeg")].

(* ------------------------------------------------------------------ *)
(** ** Further vocabulary *)

(** Reading a token back into the bytes it was made from: a pair of
    letters gives the low and the high nibble of a byte. *)
Definition nibble (c : ascii) : N := N_of_ascii c - 65.

Definition byte_of_chars (lo hi : ascii) : byte :=
  match Byte.of_N (nibble lo + 16 * nibble hi) with
  | Some b => b
  | None => x00
  end.

Fixpoint decode_chars (l : list ascii) : list byte :=
  match l with
  | lo :: hi :: l' => byte_of_chars lo hi :: decode_chars l'
  | _ => []
  end.

(** The [sz] that [MakeUniqueObjectPath] computes; it allocates [sz + 1]
    cells. *)
Definition MakeUniqueObjectPath_sz (st : State) : nat :=
  let sender := dbus_unique_name st in
  let sender := if Ascii.eqb (deref sender) ":"%char then ptr_add sender 1 else sender in
  let sender_len := strlen sender in
  STR_RESPONSE_HANDLE_PREFIX_LEN + sender_len + 1 + 64.

(** The [sz] that [MakeResponseSubscriptionPath] computes; it allocates
    [sz + 1] cells. *)
Definition MakeResponseSubscriptionPath_sz (handle_path unique_name : cptr) : nat :=
  STR_RESPONSE_SUBSCRIPTION_PATH_1_LEN + strlen handle_path
  + STR_RESPONSE_SUBSCRIPTION_PATH_2_LEN + strlen unique_name
  + STR_RESPONSE_SUBSCRIPTION_PATH_3_LEN.

(** A manager subscribed to one address after the other. *)
Fixpoint subscribe_all (paths : list cptr) (self : DBusSignalSubscriptionHandler) (st : State)
    : DBusSignalSubscriptionHandler * State :=
  match paths with
  | [] => (self, st)
  | handle_path :: paths' =>
      let '(_, self, st) := Subscribe self handle_path st in
      subscribe_all paths' self st
  end.

(** The state after an optional [NFDi_SetError]. *)
Definition apply_error (e : option string) (st : State) : State :=
  match e with
  | Some msg => NFDi_SetError msg st
  | None => st
  end.

(** An error message goes with NFD_ERROR and with no other result. *)
Definition error_matches_result (r : nfdresult_t) (e : option string) : Prop :=
  match r, e with
  | NFD_ERROR, Some _ => True
  | NFD_ERROR, None => False
  | _, Some _ => False
  | _, None => True
  end.

(** A callback whose result does not depend on the globals and that
    touches them only to set the message of the error it returns. *)
Definition reports_errors {E : Type} (h : Callback E) : Prop :=
  forall iter env, exists r env' e,
    (forall st, h iter env st = (r, env', apply_error e st))
    /\ error_matches_result r e.

(** The entries of a results dictionary that the "uris" handler skips. *)
Definition without_uris (entries : list (string * dval)) : list (string * dval) :=
  filter (fun kv => match first_handler (fst kv) [(cstr "uris", uris_callback)] with
                    | Some _ => false
                    | None => true
                    end) entries.

(** The error of the "uris" handler on a value that is not an array of
    strings with a first element; [None] for a value it reads a URI from. *)
Definition uris_failure (value : dval) : option string :=
  match value with
  | DArray (DString _ :: _) => None
  | DArray _ => Some ERR_URI_NOT_STRING
  | _ => Some ERR_URI_NOT_ARRAY
  end.

(** A Response signal, whoever sent it and whatever its path. *)
Definition Response (sender path : string) (body : list dval) : DBusMessage :=
  mkMessage SIGNAL sender path "org.freedesktop.portal.Request" "Response" body.

Definition is_Response (msg : DBusMessage) : bool :=
  dbus_message_is_signal msg "org.freedesktop.portal.Request" "Response".

(** The queued messages that are not Response signals. *)
Definition other_messages (msgs : list DBusMessage) : list DBusMessage :=
  filter (fun msg => negb (is_Response msg)) msgs.

Definition is_match_event (e : Event) : bool :=
  match e with
  | EvAddMatch _ | EvRemoveMatch _ => true
  | _ => false
  end.

(** The query that [NFD_OpenDialogN] builds for the token it generates. *)
Definition OpenFile_query (filterList : list nfdnfilteritem_t) (st : State) : DBusMessage :=
  AppendOpenFileQueryParams false (stack_garbage st)
    (dbus_message_new_method_call "org.freedesktop.portal.Desktop"
       "/org/freedesktop/portal/desktop" "org.freedesktop.portal.FileChooser" "OpenFile")
    (snd (fst (MakeUniqueObjectPath st))) filterList.

(** A call reply whose first argument is the object path [p]. *)
Definition path_reply (p : string) (more : list dval) : DBusMessage :=
  mkMessage METHOD_RETURN "" "" "" "" (DObjectPath p :: more).

(** The two literals of a match rule around the callback address. *)
Definition RULE_1 : list ascii :=
  list_ascii_of_string "type='signal',sender='org.freedesktop.portal.Desktop',path='".
Definition RULE_2 : list ascii :=
  list_ascii_of_string
    "',interface='org.freedesktop.portal.Request',member='Response',destination='".

(** The state after [k] messages were popped off the queue, [q] being
    what is left queued. *)
Definition popped (k : nat) (q : list DBusMessage) (st : State) : State :=
  match k with
  | O => st
  | S _ =>
      mkState (err_ptr st) (dbus_err st) (dbus_unique_name st) (entropy st)
              (add_match_replies st) (remove_match_replies st) (call_reply st) q
              (incoming st) (hangup st) (stack_garbage st) (released st)
              (trace st ++ repeat EvPop k)
  end.

(** What the inner loop hands on: the result and the file. *)
Definition drained_result (d : drained) : nfdresult_t * option cptr :=
  match d with
  | DrainReturn r file _ => (r, file)
  | DrainBreak file _ => (NFD_OKAY, file)
  end.

(** The stages of [NFD_OpenDialogN]: the address guessed, the first
    subscription, the call sent, the subscription after the reply, and the
    destructor run on the way out. *)
Definition guessed_path (st : State) : cptr := fst (fst (MakeUniqueObjectPath st)).

Definition subscribed (st : State) : nfdresult_t * DBusSignalSubscriptionHandler * State :=
  Subscribe (mkHandler None) (guessed_path st) (snd (MakeUniqueObjectPath st)).

Definition call_sent (filterList : list nfdnfilteritem_t) (st : State) : State :=
  log (EvSend (OpenFile_query filterList st)) (snd (subscribed st)).

Definition resubscribed (filterList : list nfdnfilteritem_t) (st : State) (p : string)
    : DBusSignalSubscriptionHandler * State :=
  if same_c_string (cstr p) (guessed_path st)
  then (snd (fst (subscribed st)), call_sent filterList st)
  else (snd (fst (Subscribe (snd (fst (subscribed st))) (cstr p) (call_sent filterList st))),
        snd (Subscribe (snd (fst (subscribed st))) (cstr p) (call_sent filterList st))).

Definition leave (r : Outcome * option cptr * State) (signal_sub : DBusSignalSubscriptionHandler)
    : Outcome * option cptr * State :=
  match fst (fst r) with
  | Returns _ => (fst (fst r), snd (fst r), destroy_handler signal_sub (snd r))
  | BlocksForever => r
  end.

(** What [err_ptr] points to when [NFD_OpenDialogN] gives up on what the
    call answered; [None] for a reply that starts with an object path. *)
Definition reply_failure (answer : call_result) : option ErrPtr :=
  match answer with
  | CallError _ => Some ErrDBusMessage
  | CallReply reply =>
      match msg_body reply with
      | [] => Some (ErrLiteral ERR_REPLY_MISSING)
      | DObjectPath _ :: _ => None
      | _ :: _ => Some (ErrLiteral ERR_REPLY_NOT_PATH)
      end
  end.

(* ================================================================== *)
(** * Properties *)

(* ------------------------------------------------------------------ *)
(** ** C strings: basic facts *)

Lemma char_code_zero (c : ascii) : char_code c = 0%Z <-> c = NUL.
Proof.
  unfold char_code, NUL. split; intro H.
  - rewrite <- (ascii_N_embedding c).
    replace (N_of_ascii c) with 0%N by lia. reflexivity.
  - subst c. reflexivity.
Qed.

Lemma char_code_inj (a b : ascii) : char_code a = char_code b -> a = b.
Proof.
  unfold char_code. intro H.
  rewrite <- (ascii_N_embedding a), <- (ascii_N_embedding b).
  f_equal. lia.
Qed.

Lemma c_chars_no_NUL (p : cptr) : ~ In NUL (c_chars p).
Proof.
  induction p as [|c p IH]; simpl; [tauto|].
  destruct (Ascii.eqb_spec c NUL) as [->|Hc]; simpl; [tauto|].
  intros [H|H]; [contradiction | exact (IH H)].
Qed.

Lemma c_chars_app_NUL (l : list ascii) (r : cptr) :
  ~ In NUL l -> c_chars (l ++ NUL :: r) = l.
Proof.
  induction l as [|c l IH]; simpl; intro H; [reflexivity|].
  destruct (Ascii.eqb_spec c NUL) as [->|Hc]; [tauto|].
  f_equal. apply IH. tauto.
Qed.

Lemma strcmp_zero (p q : cptr) : strcmp p q = 0%Z <-> c_chars p = c_chars q.
Proof.
  revert q. induction p as [|a p IH]; intros [|b q]; simpl.
  - tauto.
  - destruct (Ascii.eqb_spec b NUL) as [->|Hb].
    + split; [reflexivity | intros _; reflexivity].
    + split; [|discriminate]. intro H. exfalso. apply Hb, char_code_zero. lia.
  - destruct (Ascii.eqb_spec a NUL) as [->|Ha].
    + split; reflexivity.
    + split; [|discriminate]. intro H. exfalso. apply Ha, char_code_zero. exact H.
  - destruct (Ascii.eqb_spec a b) as [->|Hab].
    + destruct (Ascii.eqb_spec b NUL) as [_|Hb]; [tauto|].
      rewrite IH. split; [intros ->; reflexivity | intro H; now inversion H].
    + split.
      * intro H. exfalso. apply Hab, char_code_inj. lia.
      * destruct (Ascii.eqb_spec a NUL), (Ascii.eqb_spec b NUL); subst;
          try discriminate; try congruence.
  Qed.

Lemma same_c_string_strcmp (p q : cptr) :
  Z.eqb (strcmp p q) 0 = same_c_string p q.
Proof.
  unfold same_c_string.
  destruct (list_eq_dec ascii_dec (c_chars p) (c_chars q)) as [H|H].
  - apply Z.eqb_eq, strcmp_zero, H.
  - apply Z.eqb_neq. intro H0. apply H, strcmp_zero, H0.
Qed.

Lemma copy_strlen (p : cptr) : copy p (strlen p) = c_chars p.
Proof.
  unfold strlen. induction p as [|c p IH]; simpl; [reflexivity|].
  destruct (Ascii.eqb_spec c NUL); simpl; [reflexivity|].
  f_equal. exact IH.
Qed.

Lemma copy_strlen_terminator (p : cptr) : copy p (strlen p + 1) = c_chars p ++ [NUL].
Proof.
  unfold strlen. induction p as [|c p IH]; simpl; [reflexivity|].
  destruct (Ascii.eqb_spec c NUL) as [->|Hc]; simpl; [reflexivity|].
  f_equal. exact IH.
Qed.

Lemma transform_map (p : cptr) (n : nat) (f : ascii -> ascii) :
  transform p n f = map f (copy p n).
Proof.
  revert p. induction n as [|n IH]; intro p; simpl; [reflexivity|].
  f_equal. apply IH.
Qed.

(* ------------------------------------------------------------------ *)
(** ** Token generator *)

Lemma low_char_code (b : byte) :
  N_of_ascii (low_char b) = (65 + Byte.to_N b mod 16)%N.
Proof. destruct b; reflexivity. Qed.

Lemma high_char_code (b : byte) :
  N_of_ascii (high_char b) = (65 + Byte.to_N b / 16)%N.
Proof. destruct b; reflexivity. Qed.

Lemma low_char_range (b : byte) : is_A_to_P (low_char b) = true.
Proof. destruct b; reflexivity. Qed.

Lemma high_char_range (b : byte) : is_A_to_P (high_char b) = true.
Proof. destruct b; reflexivity. Qed.

Lemma A_to_P_is_token_char (c : ascii) : is_A_to_P c = true -> is_token_char c = true.
Proof.
  unfold is_A_to_P, is_token_char. cbv zeta.
  intro H. apply andb_true_iff in H as [H1 H2].
  rewrite H1. apply N.leb_le in H2.
  replace (N_of_ascii c <=? 90)%N with true by (symmetry; apply N.leb_le; lia).
  reflexivity.
Qed.

Lemma encode_bytes_app (l1 l2 : list byte) :
  encode_bytes (l1 ++ l2) = encode_bytes l1 ++ encode_bytes l2.
Proof. unfold encode_bytes. apply flat_map_app. Qed.

Lemma encode_bytes_length (l : list byte) : length (encode_bytes l) = 2 * length l.
Proof.
  induction l as [|b l IH]; simpl; [reflexivity|].
  simpl in IH. rewrite IH. lia.
Qed.

Lemma encode_bytes_range (l : list byte) :
  Forall (fun c => is_A_to_P c = true) (encode_bytes l).
Proof.
  induction l as [|b l IH]; simpl; [constructor|].
  constructor; [apply low_char_range|].
  constructor; [apply high_char_range | exact IH].
Qed.

(** The loop hands out the encoding of the first [amount] bytes the
    source delivers before failing. *)
Lemma Generate64RandomChars_loop_out (script : list getrandom_result) (amount : nat) :
  fst (Generate64RandomChars_loop script amount)
  = encode_bytes (firstn amount (bytes_before_failure script)).
Proof.
  revert amount. induction script as [|r script IH]; intros [|amount]; try reflexivity.
  destruct r as [| |bytes].
  - apply (IH (S amount)).
  - reflexivity.
  - cbn [Generate64RandomChars_loop bytes_before_failure].
    specialize (IH (S amount - length (firstn (S amount) bytes))).
    destruct (Generate64RandomChars_loop script
                (S amount - length (firstn (S amount) bytes))) as [out rest].
    cbn [fst] in *. rewrite IH, firstn_app, encode_bytes_app.
    do 3 f_equal. rewrite length_firstn. lia.
Qed.

Lemma Generate64RandomChars_out (st : State) :
  fst (Generate64RandomChars st)
  = encode_bytes (firstn 32 (bytes_before_failure (entropy st))).
Proof.
  unfold Generate64RandomChars.
  rewrite <- Generate64RandomChars_loop_out.
  destruct (Generate64RandomChars_loop (entropy st) 32); reflexivity.
Qed.

Lemma bytes_before_failure_stop (pre rest : list getrandom_result) :
  bytes_before_failure (pre ++ GR_FAIL :: rest) = bytes_before_failure pre.
Proof.
  induction pre as [|r pre IH]; simpl; [reflexivity|].
  destruct r; [exact IH | reflexivity | now rewrite IH].
Qed.

Lemma entropy_set_entropy (script : list getrandom_result) (st : State) :
  entropy (set_entropy script st) = script.
Proof. reflexivity. Qed.

(** C10: every character of a generated token is one of the sixteen
    letters 'A'..'P': each entropy byte gives 'A' plus its low nibble and
    then 'A' plus its high nibble.  So a token holds no digit, no
    lowercase letter, no underscore and no letter after 'P'. *)
Theorem token_chars_A_to_P :
  (forall st, Forall (fun c => is_A_to_P c = true) (fst (Generate64RandomChars st)))
  /\ (forall b, encode_bytes [b] = [low_char b; high_char b]
                /\ N_of_ascii (low_char b) = (65 + Byte.to_N b mod 16)%N
                /\ N_of_ascii (high_char b) = (65 + Byte.to_N b / 16)%N
                /\ (Byte.to_N b mod 16 < 16)%N /\ (Byte.to_N b / 16 < 16)%N)
  /\ (forall st,
        Forall (fun c =>
                  (N_of_ascii "A" <= N_of_ascii c <= N_of_ascii "P")%N
                  /\ ~ (N_of_ascii "0" <= N_of_ascii c <= N_of_ascii "9")%N
                  /\ ~ (N_of_ascii "a" <= N_of_ascii c <= N_of_ascii "z")%N
                  /\ c <> "_"%char
                  /\ ~ (N_of_ascii "P" < N_of_ascii c)%N)
               (fst (Generate64RandomChars st))).
Proof.
  assert (Hall : forall st, Forall (fun c => is_A_to_P c = true) (fst (Generate64RandomChars st))).
  { intro st. rewrite Generate64RandomChars_out. apply encode_bytes_range. }
  split; [exact Hall|]. split.
  - intro b. repeat split.
    + apply low_char_code.
    + apply high_char_code.
    + apply N.mod_lt. discriminate.
    + destruct b; reflexivity.
  - intro st. eapply Forall_impl; [|apply Hall].
    intros c Hc.
    unfold is_A_to_P in Hc. cbv zeta in Hc.
    apply andb_true_iff in Hc as [H1 H2].
    apply N.leb_le in H1, H2.
    change (N_of_ascii "A") with 65%N. change (N_of_ascii "P") with 80%N.
    change (N_of_ascii "0") with 48%N. change (N_of_ascii "9") with 57%N.
    change (N_of_ascii "a") with 97%N. change (N_of_ascii "z") with 122%N.
    repeat split; try lia.
    intros ->. cbn in H2. lia.
Qed.

(** C8 (amended): the token is the two-letter encoding of the first 32
    bytes the entropy source delivers before its first failure that is
    not an interruption.  Its length is twice the number of those bytes:
    at most 64, and exactly 64 when the source delivers 32 bytes.  Every
    character is in [A-Za-z0-9_].  An interrupted read is retried; at the
    first other failure the generator stops with what it has. *)
Theorem Generate64RandomChars_spec (st : State) :
  let gen := fun script => fst (Generate64RandomChars (set_entropy script st)) in
  (forall script, gen script = encode_bytes (firstn 32 (bytes_before_failure script)))
  /\ (forall script, length (gen script) = 2 * Nat.min 32 (length (bytes_before_failure script)))
  /\ (forall script, length (gen script) <= 64)
  /\ (forall script, Forall (fun c => is_token_char c = true) (gen script))
  /\ (forall script, gen (GR_EINTR :: script) = gen script)
  /\ (forall pre rest, gen (pre ++ GR_FAIL :: rest) = gen pre).
Proof.
  intro gen.
  assert (Hgen : forall script,
            gen script = encode_bytes (firstn 32 (bytes_before_failure script))).
  { intro script. unfold gen. now rewrite Generate64RandomChars_out, entropy_set_entropy. }
  assert (Hlen : forall script,
            length (gen script) = 2 * Nat.min 32 (length (bytes_before_failure script))).
  { intro script. now rewrite Hgen, encode_bytes_length, length_firstn. }
  split; [exact Hgen|]. split; [exact Hlen|]. split; [|split; [|split]].
  - intro script. rewrite Hlen. lia.
  - intro script. rewrite Hgen.
    eapply Forall_impl; [|apply encode_bytes_range].
    intros c. apply A_to_P_is_token_char.
  - intro script. now rewrite !Hgen.
  - intros pre rest. now rewrite !Hgen, bytes_before_failure_stop.
Qed.

(** C8, as stated, fails: when the first entropy read fails the token is
    empty, and when the source fails after 16 bytes it has 32 characters. *)
Lemma Generate64RandomChars_short :
  length (fst (Generate64RandomChars (set_entropy [GR_FAIL] quiet_state))) <> 64
  /\ length (fst (Generate64RandomChars
                    (set_entropy [GR_READ (repeat x3a 16); GR_FAIL] quiet_state))) = 32.
Proof. split; [discriminate | reflexivity]. Qed.

(* ------------------------------------------------------------------ *)
(** ** Address builder *)

Lemma dot_to_underscore_no_dot (l : list ascii) : ~ In "."%char (map dot_to_underscore l).
Proof.
  induction l as [|c l IH]; simpl; [tauto|].
  intros [H|H]; [|exact (IH H)].
  unfold dot_to_underscore in H.
  destruct (Ascii.eqb_spec c "."%char) as [->|Hc]; simpl in H; [discriminate | congruence].
Qed.

Lemma dot_to_underscore_no_NUL (l : list ascii) :
  ~ In NUL l -> ~ In NUL (map dot_to_underscore l).
Proof.
  induction l as [|c l IH]; simpl; [tauto|].
  intros Hl [H|H]; [|apply IH; tauto].
  unfold dot_to_underscore in H.
  destruct (Ascii.eqb_spec c "."%char) as [->|Hc]; simpl in H; [discriminate | tauto].
Qed.

(** Skipping a leading ':' at the pointer is dropping it from the string. *)
Lemma skip_colon_chars (sender : cptr) :
  c_chars (if Ascii.eqb (deref sender) ":"%char then ptr_add sender 1 else sender)
  = strip_leading_colon (c_chars sender).
Proof.
  destruct sender as [|c p]; [reflexivity|].
  cbn [deref hd ptr_add skipn].
  destruct (Ascii.eqb_spec c ":"%char) as [->|Hc].
  - reflexivity.
  - simpl. destruct (Ascii.eqb_spec c NUL); [reflexivity|].
    simpl. destruct (Ascii.eqb_spec c ":"%char); [contradiction | reflexivity].
Qed.

Lemma strip_leading_colon_no_NUL (l : list ascii) :
  ~ In NUL l -> ~ In NUL (strip_leading_colon l).
Proof.
  destruct l as [|c l]; simpl; [tauto|].
  destruct (Ascii.eqb c ":"%char); simpl; tauto.
Qed.

Lemma A_to_P_no_NUL (l : list ascii) :
  Forall (fun c => is_A_to_P c = true) l -> ~ In NUL l.
Proof.
  intros H Hin. apply (proj1 (Forall_forall _ _) H) in Hin. discriminate.
Qed.

(** Position by position, [dot_to_underscore] turns '.' into '_' and keeps
    every other character. *)
Lemma dot_to_underscore_pointwise (l : list ascii) :
  Forall2 (fun a b => (a = "."%char /\ b = "_"%char) \/ (a <> "."%char /\ b = a))
          l (map dot_to_underscore l).
Proof.
  induction l as [|c l IH]; [constructor|].
  cbn [map]. constructor; [|exact IH].
  unfold dot_to_underscore.
  destruct (Ascii.eqb_spec c "."%char) as [->|Hc]; cbn [negb]; [left | right]; split;
    trivial.
Qed.

Lemma strip_leading_colon_cases (identity : list ascii) :
  identity = ":"%char :: strip_leading_colon identity
  \/ (hd NUL identity <> ":"%char /\ identity = strip_leading_colon identity).
Proof.
  destruct identity as [|c l]; cbn [strip_leading_colon hd].
  - right. split; [discriminate | reflexivity].
  - destruct (Ascii.eqb_spec c ":"%char) as [->|Hc]; [left | right; split]; trivial.
Qed.

(** The buffer that [MakeUniqueObjectPath] fills, the pointer to its
    token and the state it leaves. *)
Lemma MakeUniqueObjectPath_buffer (st : State) :
  let segment := sanitized_identity (c_chars (dbus_unique_name st)) in
  let token := fst (Generate64RandomChars st) in
  let body := FIXED_PREFIX ++ "/"%char :: segment ++ "/"%char :: token in
  fst (fst (MakeUniqueObjectPath st)) = body ++ [NUL]
  /\ c_chars (fst (fst (MakeUniqueObjectPath st))) = body
  /\ snd (fst (MakeUniqueObjectPath st)) = token ++ [NUL]
  /\ snd (MakeUniqueObjectPath st) = snd (Generate64RandomChars st).
Proof.
  intros identity token body.
  assert (Hpath : fst (fst (MakeUniqueObjectPath st)) = body ++ [NUL]
                  /\ snd (fst (MakeUniqueObjectPath st)) = token ++ [NUL]
                  /\ snd (MakeUniqueObjectPath st) = snd (Generate64RandomChars st)).
  { unfold MakeUniqueObjectPath, body, token, identity, sanitized_identity.
    cbv zeta. rewrite transform_map, !copy_strlen, skip_colon_chars.
    destruct (Generate64RandomChars st) as [tok st']. cbn [fst snd].
    set (idn := map dot_to_underscore (strip_leading_colon (c_chars (dbus_unique_name st)))).
    change (c_chars STR_RESPONSE_HANDLE_PREFIX) with (FIXED_PREFIX ++ ["/"%char]).
    split; [|split; [|reflexivity]].
    - rewrite <- !app_assoc. cbn [app]. rewrite <- !app_assoc. reflexivity.
    - unfold ptr_add.
      replace ((((FIXED_PREFIX ++ ["/"%char]) ++ idn) ++ ["/"%char]) ++ tok ++ [NUL])
        with ((((FIXED_PREFIX ++ ["/"%char]) ++ idn) ++ ["/"%char]) ++ (tok ++ [NUL]))
        by reflexivity.
      rewrite skipn_app, skipn_all, Nat.sub_diag. reflexivity. }
  destruct Hpath as (H1 & H2 & H3).
  split; [exact H1|]. split; [|split; [exact H2|exact H3]].
  rewrite H1.
  replace (body ++ [NUL]) with (body ++ NUL :: []) by reflexivity.
  apply c_chars_app_NUL.
  unfold body. intro Hin.
  apply in_app_or in Hin as [Hin|Hin].
  { revert Hin. unfold FIXED_PREFIX. simpl. intuition discriminate. }
  destruct Hin as [Hin|Hin]; [discriminate|].
  apply in_app_or in Hin as [Hin|Hin].
  { revert Hin. apply dot_to_underscore_no_NUL, strip_leading_colon_no_NUL, c_chars_no_NUL. }
  destruct Hin as [Hin|Hin]; [discriminate|].
  revert Hin. apply A_to_P_no_NUL. unfold token.
  rewrite Generate64RandomChars_out. apply encode_bytes_range.
Qed.

(** C9: the callback path is the fixed prefix, '/', the identity segment,
    '/', the token and the terminator, and the token pointer points at the
    token inside the path.  The identity segment is made from the
    connection identity by dropping its leading ':', when it has one, and
    then, position by position, writing '_' for every '.' and keeping
    every other character; so it holds no '.'.  For the identity ":1.42"
    the path is the fixed prefix, "/1_42/" and the token. *)
Theorem MakeUniqueObjectPath_form (st : State) :
  let identity := c_chars (dbus_unique_name st) in
  let token := fst (Generate64RandomChars st) in
  (exists stripped segment,
     (identity = ":"%char :: stripped \/ (hd NUL identity <> ":"%char /\ identity = stripped))
     /\ Forall2 (fun a b => (a = "."%char /\ b = "_"%char) \/ (a <> "."%char /\ b = a))
                stripped segment
     /\ ~ In "."%char segment
     /\ fst (fst (MakeUniqueObjectPath st))
        = FIXED_PREFIX ++ "/"%char :: segment ++ "/"%char :: token ++ [NUL]
     /\ c_chars (fst (fst (MakeUniqueObjectPath st)))
        = FIXED_PREFIX ++ "/"%char :: segment ++ "/"%char :: token
     /\ segment = sanitized_identity identity)
  /\ snd (fst (MakeUniqueObjectPath st)) = token ++ [NUL]
  /\ snd (MakeUniqueObjectPath st) = snd (Generate64RandomChars st)
  /\ (forall script,
        c_string (fst (fst (MakeUniqueObjectPath (set_entropy script quiet_state))))
        = ("/org/freedesktop/portal/desktop/request/1_42/"
           ++ string_of_list_ascii
                (fst (Generate64RandomChars (set_entropy script quiet_state))))%string).
Proof.
  intros identity token.
  destruct (MakeUniqueObjectPath_buffer st) as (H1 & H2 & H3 & H4).
  split; [|split; [exact H3|split; [exact H4|]]].
  - exists (strip_leading_colon identity), (sanitized_identity identity).
    split; [apply strip_leading_colon_cases|].
    split; [apply dot_to_underscore_pointwise|].
    split; [apply dot_to_underscore_no_dot|].
    split; [|split; [exact H2 | reflexivity]].
    rewrite H1. rewrite <- !app_assoc. cbn [app]. rewrite <- !app_assoc. reflexivity.
  - intro script.
    destruct (MakeUniqueObjectPath_buffer (set_entropy script quiet_state)) as (_ & Hc & _).
    unfold c_string. rewrite Hc.
    generalize (fst (Generate64RandomChars (set_entropy script quiet_state))).
    intro tok. reflexivity.
Qed.

(* ------------------------------------------------------------------ *)
(** ** Locator resolver *)

(** The comparison loop over a NUL-free prefix [l] accepts exactly the
    strings that start with [l] and leaves the pointer behind it. *)
Lemma match_file_prefix_spec (l : list ascii) (r fileUri : cptr) :
  ~ In NUL l ->
  match_file_prefix (l ++ r) (length l) fileUri
  = if has_prefix l (c_chars fileUri) then Some (skipn (length l) fileUri) else None.
Proof.
  revert fileUri. induction l as [|a l IH]; intros fileUri Hl; [reflexivity|].
  assert (Ha : a <> NUL) by (intro; subst; apply Hl; now left).
  assert (Hl' : ~ In NUL l) by (intro; apply Hl; now right).
  destruct fileUri as [|c p];
    cbn [length match_file_prefix app deref hd ptr_add skipn c_chars has_prefix].
  - destruct (Ascii.eqb_spec a NUL); [contradiction | reflexivity].
  - destruct (Ascii.eqb_spec a c) as [<-|Hac]; cbn [negb].
    + destruct (Ascii.eqb_spec a NUL); [contradiction|].
      cbn [has_prefix]. rewrite Ascii.eqb_refl, (IH p Hl'). reflexivity.
    + destruct (Ascii.eqb_spec c NUL); [reflexivity|].
      cbn [has_prefix]. destruct (Ascii.eqb_spec a c); [contradiction | reflexivity].
Qed.

Lemma c_chars_skip_prefix (l : list ascii) (p : cptr) :
  has_prefix l (c_chars p) = true ->
  c_chars (skipn (length l) p) = skipn (length l) (c_chars p).
Proof.
  revert p. induction l as [|a l IH]; intros p H; [reflexivity|].
  destruct p as [|c p]; [discriminate|].
  cbn [c_chars] in *. destruct (Ascii.eqb c NUL); [discriminate|].
  cbn [has_prefix] in H. apply andb_true_iff in H as [_ H].
  cbn [length skipn]. now apply IH.
Qed.

(** C2: the resolver succeeds exactly on the strings that start with
    "file://".  Then the output path is a new buffer holding the rest of
    the string and its terminator, and no error is set; otherwise the
    result is an error, the "not a file URI" message is set and the output
    path is left as it was.  "file:///tmp/a.txt" gives "/tmp/a.txt";
    "http://example.com/a.txt" fails. *)
Theorem AllocAndCopyFIlePath_spec :
  (forall fileUri outPath st,
     AllocAndCopyFIlePath fileUri outPath st
     = if has_prefix (list_ascii_of_string "file://") (c_chars fileUri)
       then (NFD_OKAY, Some (skipn 7 (c_chars fileUri) ++ [NUL]), st)
       else (NFD_ERROR, outPath, NFDi_SetError ERR_NOT_FILE_URI st))
  /\ (forall outPath st,
        AllocAndCopyFIlePath (cstr "file:///tmp/a.txt") outPath st
        = (NFD_OKAY, Some (cstr "/tmp/a.txt"), st))
  /\ (forall outPath st,
        AllocAndCopyFIlePath (cstr "http://example.com/a.txt") outPath st
        = (NFD_ERROR, outPath, NFDi_SetError ERR_NOT_FILE_URI st))
  /\ (forall st, NFD_GetError (NFDi_SetError ERR_NOT_FILE_URI st)
                 = Some "D-Bus freedesktop portal returned a URI that is not a file URI."%string).
Proof.
  split; [|split; [|split]]; try reflexivity.
  intros fileUri outPath st. unfold AllocAndCopyFIlePath.
  change FILE_URI_PREFIX with (list_ascii_of_string "file://" ++ [NUL]).
  change FILE_URI_PREFIX_LEN with (length (list_ascii_of_string "file://")).
  rewrite match_file_prefix_spec by (simpl; intuition discriminate).
  destruct (has_prefix (list_ascii_of_string "file://") (c_chars fileUri)) eqn:Hp;
    [|reflexivity].
  rewrite copy_strlen_terminator, (c_chars_skip_prefix _ _ Hp). reflexivity.
Qed.

(* ------------------------------------------------------------------ *)
(** ** Response decoder *)

Section DecoderFacts.

Variable E : Type.
Implicit Types (handlers : list (cptr * Callback E)) (env : E) (st : State).

Lemma ReadDictImpl_first_handler (key : string) (iter : DBusMessageIter) handlers env st :
  ReadDictImpl (cstr key) iter handlers env st
  = match first_handler key handlers with
    | Some h => h iter env st
    | None => (NFD_OKAY, env, st)
    end.
Proof.
  induction handlers as [|[k h] handlers IH]; simpl; [reflexivity|].
  rewrite same_c_string_strcmp.
  destruct (same_c_string (cstr key) k); [reflexivity | exact IH].
Qed.

(** Over a run of well-formed entries the loop does what
    [decode_entries] says and then goes on with the rest of the array. *)
Lemma ReadDict_loop_entries (entries : list (string * dval)) (rest : DBusMessageIter)
    handlers env st :
  ReadDict_loop (map dict_entry entries ++ rest) handlers env st
  = let '(r, env', st') := decode_entries entries handlers env st in
    match r with
    | NFD_ERROR => (NFD_ERROR, env', st')
    | _ => ReadDict_loop rest handlers env' st'
    end.
Proof.
  revert env st. induction entries as [|[k v] entries IH]; intros env st.
  - reflexivity.
  - cbn [map app ReadDict_loop dict_entry type_of dbus_message_iter_recurse
         dbus_message_iter_get_arg_type dbus_message_iter_get_basic_str
         dbus_message_iter_next tl negb fst snd decode_entries].
    rewrite ReadDictImpl_first_handler.
    destruct (first_handler k handlers) as [h|].
    + destruct (h [v] env st) as [[r env1] st1].
      destruct r; [reflexivity | apply IH | apply IH].
    + apply IH.
Qed.

Lemma decode_entries_result (entries : list (string * dval)) handlers env st :
  let '(r, env', st') := decode_entries entries handlers env st in
  match r with
  | NFD_ERROR => (NFD_ERROR, env', st')
  | _ => (NFD_OKAY, env', st')
  end = decode_entries entries handlers env st.
Proof.
  revert env st. induction entries as [|[k v] entries IH]; intros env st; simpl.
  - reflexivity.
  - destruct (first_handler k handlers) as [h|]; [|apply IH].
    destruct (h [v] env st) as [[r env1] st1].
    destruct r; [reflexivity | apply IH | apply IH].
Qed.

Lemma ReadDict_loop_mismatch (bad : dval) (rest : DBusMessageIter) (msg : string)
    handlers env st :
  entry_mismatch bad = Some msg ->
  ReadDict_loop (bad :: rest) handlers env st = (NFD_ERROR, env, NFDi_SetError msg st).
Proof.
  intro H. destruct bad as [| | | | | | | |items]; try discriminate.
  destruct items as [|key items].
  { injection H as <-. reflexivity. }
  destruct key; try (injection H as <-; reflexivity).
  destruct items as [|value items].
  { injection H as <-. reflexivity. }
  destruct value; try discriminate; injection H as <-; reflexivity.
Qed.

Lemma ReadDict_loop_element (v : dval) (rest : DBusMessageIter) (r : nfdresult_t)
    (e : option string) handlers env st :
  element_outcome v = Some (r, e) ->
  ReadDict_loop (v :: rest) handlers env st = (r, env, apply_error e st).
Proof.
  unfold element_outcome. intro H.
  destruct (entry_mismatch v) as [msg|] eqn:Hv.
  - rewrite (ReadDict_loop_mismatch v rest handlers env st Hv).
    destruct v; try discriminate. injection H as <- <-. reflexivity.
  - destruct v; try discriminate; injection H as <- <-; reflexivity.
Qed.

(** A dictionary of well-formed entries is decoded entry by entry. *)
Lemma ReadDict_well_formed (entries : list (string * dval)) (more : DBusMessageIter)
    handlers env st :
  ReadDict (DArray (map dict_entry entries) :: more) handlers env st
  = decode_entries entries handlers env st.
Proof.
  unfold ReadDict. cbn [dbus_message_iter_get_arg_type type_of dbus_message_iter_recurse].
  rewrite <- (app_nil_r (map dict_entry entries)), ReadDict_loop_entries.
  pose proof (decode_entries_result entries handlers env st) as H.
  destruct (decode_entries entries handlers env st) as [[r env'] st'].
  destruct r; exact H.
Qed.

End DecoderFacts.

(** C6, as amended: on a dictionary of well-formed entries the generic
    decoder hands each entry's unwrapped value to the first handler
    registered under the entry's key, skips the entries without a handler,
    and stops with an error at the first handler that fails.  Once the
    entries before it are handled, a dict entry of the wrong shape (key
    not a string, value missing, value not a variant) ends the decode with
    an error, whereas an array element that is no dict entry ends it with
    NFD_OKAY and no error, that element and those after it unread; at a
    dict entry of a string key and a variant value the decode goes on.  An
    argument that is not an array is an error at once.  With a handler for
    "uris" only, the dictionary with the entries "uris" and "other" decodes
    to the URI. *)
Theorem ReadDict_dispatch :
  (forall (E : Type) entries more (handlers : list (cptr * Callback E)) env st,
     ReadDict (DArray (map dict_entry entries) :: more) handlers env st
     = decode_entries entries handlers env st)
  /\ (forall (E : Type) key iter (handlers : list (cptr * Callback E)) env st,
        ReadDictImpl (cstr key) iter handlers env st
        = match first_handler key handlers with
          | Some h => h iter env st
          | None => (NFD_OKAY, env, st)
          end)
  /\ (forall (E : Type) entries element rest more (handlers : list (cptr * Callback E)) env st,
        ReadDict (DArray (map dict_entry entries ++ element :: rest) :: more) handlers env st
        = let '(r, env', st') := decode_entries entries handlers env st in
          match r with
          | NFD_ERROR => (NFD_ERROR, env', st')
          | _ =>
              match element_outcome element with
              | Some (result, error) => (result, env', apply_error error st')
              | None => ReadDict (DArray (element :: rest) :: more) handlers env' st'
              end
          end)
  /\ (forall element,
        element_outcome element
        = match element with
          | DDictEntry (DString _ :: DVariant _ :: _) => None
          | DDictEntry (DString _ :: []) => Some (NFD_ERROR, Some ERR_ENTRY_MISSING)
          | DDictEntry (DString _ :: _ :: _) => Some (NFD_ERROR, Some ERR_ENTRY_NOT_VARIANT)
          | DDictEntry _ => Some (NFD_ERROR, Some ERR_ENTRY_NOT_STRING)
          | _ => Some (NFD_OKAY, None)
          end)
  /\ (forall (E : Type) iter (handlers : list (cptr * Callback E)) env st,
        match dbus_message_iter_get_arg_type iter with
        | DBUS_TYPE_ARRAY => True
        | _ => ReadDict iter handlers env st = (NFD_ERROR, env, NFDi_SetError ERR_NOT_ARRAY st)
        end)
  /\ (forall file st,
        ReadDict [DArray [dict_entry ("uris"%string, DArray [DString "file:///home/u/doc.txt"]);
                          dict_entry ("other"%string, DUInt32 5)]]
                 [(cstr "uris", uris_callback)] file st
        = (NFD_OKAY, Some (cstr "file:///home/u/doc.txt"), st)).
Proof.
  split; [|split; [|split; [|split; [|split]]]].
  - intros. apply ReadDict_well_formed.
  - intros. apply ReadDictImpl_first_handler.
  - intros E entries element rest more handlers env st.
    unfold ReadDict. cbn [dbus_message_iter_get_arg_type type_of dbus_message_iter_recurse].
    rewrite ReadDict_loop_entries.
    destruct (decode_entries entries handlers env st) as [[r env'] st'].
    destruct (element_outcome element) as [[result error]|] eqn:He;
      destruct r; try reflexivity; apply ReadDict_loop_element, He.
  - intro element. destruct element as [| | | | | | | |items]; try reflexivity.
    destruct items as [|key items]; [reflexivity|].
    destruct key; try reflexivity.
    destruct items as [|value items]; [reflexivity|].
    destruct value; reflexivity.
  - intros E iter handlers env st.
    destruct iter as [|v iter]; [reflexivity|]. destruct v; try exact I; reflexivity.
  - reflexivity.
Qed.

(** C6, as the claim words it, fails on an array whose elements are not
    dict entries: such an argument has the wrong wire shape at the step
    from the array to its entries, yet the decode returns NFD_OKAY, sets no
    error and never calls the handler. *)
Lemma ReadDict_accepts_array_of_strings :
  ReadDict [DArray [DString "file:///home/u/doc.txt"]] [(cstr "uris", uris_callback)]
           None quiet_state
  = (NFD_OKAY, None, quiet_state)
  /\ NFD_GetError quiet_state = None.
Proof. split; reflexivity. Qed.

(** C1: after the status at the head of a Response body the outcome is
    fixed.  Status 0 goes on to decode the dictionary that follows (an
    error if nothing follows); status 1 is NFD_CANCEL with the file and
    the error state untouched, whatever follows; any other status is
    NFD_ERROR with the "ended abruptly" message, the file untouched,
    whatever follows.  That message is none of the decoder's other
    messages. *)
Theorem ReadResponseParamsSingle_status :
  (forall msg code rest file st,
     ReadResponseParamsSingle (set_body (DUInt32 code :: rest) msg) file st
     = match code with
       | 0%N =>
           match rest with
           | [] => (NFD_ERROR, file, NFDi_SetError ERR_MISSING_ARGS st)
           | _ =>
               let '(r, file', st') :=
                 ReadDict rest [(cstr "uris", uris_callback)] file st in
               (match r with NFD_ERROR => NFD_ERROR | _ => NFD_OKAY end, file', st')
           end
       | 1%N => (NFD_CANCEL, file, st)
       | _ => (NFD_ERROR, file, NFDi_SetError ERR_ABRUPT st)
       end)
  /\ (forall st, NFD_GetError (NFDi_SetError ERR_ABRUPT st)
                 = Some "D-Bus file dialog interaction was ended abruptly."%string)
  /\ ~ In ERR_ABRUPT [ERR_MISSING_ARGS; ERR_NOT_UINT32; ERR_NOT_ARRAY; ERR_ENTRY_NOT_STRING;
                      ERR_ENTRY_MISSING; ERR_ENTRY_NOT_VARIANT; ERR_URI_NOT_ARRAY;
                      ERR_URI_NOT_STRING; ERR_NOT_FILE_URI; ERR_REPLY_MISSING;
                      ERR_REPLY_NOT_PATH; ERR_NO_REPLY].
Proof.
  split; [|split].
  - intros msg code rest file st.
    unfold ReadResponseParamsSingle, dbus_message_iter_init.
    cbn [msg_body set_body negb dbus_message_iter_get_arg_type type_of
         dbus_message_iter_get_basic_u32].
    destruct code as [|p]; cbn [N.eqb negb].
    + destruct rest as [|v rest]; [reflexivity|].
      cbn [dbus_message_iter_next tl negb].
      destruct (ReadDict (v :: rest) [(cstr "uris", uris_callback)] file st) as [[r f] s].
      destruct r; reflexivity.
    + destruct p; reflexivity.
  - reflexivity.
  - simpl. intuition discriminate.
Qed.

(* ------------------------------------------------------------------ *)
(** ** Subscription manager *)

(** What one [Subscribe] call does: the rule of a former subscription is
    removed, the new rule is stored and sent, and the call succeeds unless
    the bus answers the add-match with an error. *)
Lemma Subscribe_effect (self : DBusSignalSubscriptionHandler) (handle_path : cptr) (st : State) :
  let cmd := MakeResponseSubscriptionPath handle_path (dbus_unique_name st) in
  let '(res, self', st') := Subscribe self handle_path st in
  sub_cmd self' = Some cmd
  /\ trace st' = trace st
                 ++ match sub_cmd self with
                    | Some old => [EvRemoveMatch (c_string old)]
                    | None => []
                    end
                 ++ [EvAddMatch (c_string cmd)]
  /\ dbus_unique_name st' = dbus_unique_name st
  /\ call_reply st' = call_reply st
  /\ incoming st' = incoming st
  /\ res = match add_match_replies st with
           | Some _ :: _ => NFD_ERROR
           | _ => NFD_OKAY
           end.
Proof.
  destruct st as [e d u en am rm cr q inc h sg rl tr].
  destruct self as [[old|]]; unfold Subscribe, Unsubscribe, dbus_bus_remove_match,
    dbus_bus_add_match.
  - destruct rm as [|r rs]; destruct am as [|[m|] rs'];
      cbn -[MakeResponseSubscriptionPath c_string];
      rewrite <- ?app_assoc; repeat split; reflexivity.
  - destruct am as [|[m|] rs'];
      cbn -[MakeResponseSubscriptionPath c_string]; repeat split; reflexivity.
Qed.

(** C5 (amended): when the bus answers the add-match with an error,
    [Subscribe] returns NFD_ERROR at once with the bus message as the
    current error, and the manager keeps the rule it tried to register
    ([sub_cmd] is set, not null), which its destructor then asks the bus
    to remove.  A [Subscribe] on a manager that holds a
    rule first removes that rule from the bus, and whatever the bus
    answers to the removal changes nothing of the result. *)
Theorem Subscribe_failure_and_replacement :
  (forall self handle_path st message replies,
     let cmd := MakeResponseSubscriptionPath handle_path (dbus_unique_name st) in
     let run := Subscribe self handle_path (set_add_match_replies (Some message :: replies) st) in
     fst (fst run) = NFD_ERROR
     /\ NFD_GetError (snd run) = Some message
     /\ sub_cmd (snd (fst run)) = Some cmd
     /\ trace (snd run) = trace st
                          ++ match sub_cmd self with
                             | Some old => [EvRemoveMatch (c_string old)]
                             | None => []
                             end
                          ++ [EvAddMatch (c_string cmd)]
     /\ trace (destroy_handler (snd (fst run)) (snd run))
        = trace (snd run) ++ [EvRemoveMatch (c_string cmd)])
  /\ (forall old handle_path st,
        let cmd := MakeResponseSubscriptionPath handle_path (dbus_unique_name st) in
        let run := Subscribe (mkHandler (Some old)) handle_path st in
        sub_cmd (snd (fst run)) = Some cmd
        /\ trace (snd run) = trace st ++ [EvRemoveMatch (c_string old); EvAddMatch (c_string cmd)])
  /\ (forall old handle_path st answer replies,
        Subscribe (mkHandler (Some old)) handle_path
                  (set_remove_match_replies (answer :: replies) st)
        = Subscribe (mkHandler (Some old)) handle_path
                    (set_remove_match_replies (None :: replies) st)).
Proof.
  split; [|split].
  - intros self handle_path st message replies cmd run.
    pose proof (Subscribe_effect self handle_path
                  (set_add_match_replies (Some message :: replies) st)) as H.
    cbv zeta in H. fold run in H.
    destruct run as [[res self'] st'] eqn:Hrun. cbn [fst snd].
    destruct H as (Hcmd & Htrace & _ & _ & _ & Hres).
    split; [exact Hres|]. split; [|split; [exact Hcmd|split; [exact Htrace|]]].
    2:{ unfold destroy_handler, Unsubscribe, dbus_bus_remove_match. rewrite Hcmd.
        destruct (remove_match_replies (log _ st')); reflexivity. }
    revert Hrun. unfold run, Subscribe, Unsubscribe, dbus_bus_remove_match, dbus_bus_add_match.
    destruct st as [e d u en am rm cr q inc h sg rl tr].
    destruct self as [[old|]]; [destruct rm as [|r rs]|];
      cbn -[MakeResponseSubscriptionPath c_string];
      intro Hrun; injection Hrun as _ _ <-; reflexivity.
  - intros old handle_path st cmd run.
    pose proof (Subscribe_effect (mkHandler (Some old)) handle_path st) as H.
    cbv zeta in H. fold run in H.
    destruct run as [[res self'] st']. cbn [fst snd sub_cmd] in *.
    destruct H as (Hcmd & Htrace & _). split; [exact Hcmd | exact Htrace].
  - intros old handle_path st answer replies. reflexivity.
Qed.

(** C5, as stated, fails: after a failed [Subscribe] on a fresh manager
    the manager is not back in its unsubscribed state: [sub_cmd] is set,
    and its destructor sends a remove-match for the rule that was never
    registered. *)
Lemma Subscribe_failure_keeps_sub_cmd :
  let st := set_add_match_replies [Some "Match rule rejected"%string] quiet_state in
  let handle_path := cstr "/org/freedesktop/portal/desktop/request/1_42/t" in
  let run := Subscribe (mkHandler None) handle_path st in
  fst (fst run) = NFD_ERROR
  /\ sub_cmd (snd (fst run)) <> None
  /\ trace (destroy_handler (snd (fst run)) (snd run))
     = [EvAddMatch (rule_for handle_path st); EvRemoveMatch (rule_for handle_path st)].
Proof. split; [reflexivity | split; [discriminate | reflexivity]]. Qed.

(* ------------------------------------------------------------------ *)
(** ** Dialog orchestrator *)

Section DecoderTrace.

Variable E : Type.
Variable handlers : list (cptr * Callback E).
Hypothesis handlers_quiet :
  forall k h, In (k, h) handlers ->
  forall iter env st, trace (snd (h iter env st)) = trace st.

Lemma ReadDictImpl_trace (key : cptr) (iter : DBusMessageIter) (env : E) (st : State) :
  trace (snd (ReadDictImpl key iter handlers env st)) = trace st.
Proof.
  revert handlers_quiet. generalize handlers as hs.
  induction hs as [|[k h] hs IH]; intro Hq; simpl; [reflexivity|].
  destruct (Z.eqb (strcmp key k) 0).
  - apply (Hq k h). now left.
  - apply IH. intros k' h' Hin. apply (Hq k' h'). now right.
Qed.

Lemma ReadDict_loop_trace (sub_iter : DBusMessageIter) (env : E) (st : State) :
  trace (snd (ReadDict_loop sub_iter handlers env st)) = trace st.
Proof.
  revert env st. induction sub_iter as [|cur rest IH]; intros env st; [reflexivity|].
  destruct cur as [| | | | | | | |items]; try reflexivity.
  destruct items as [|key items]; [reflexivity|].
  destruct key; try reflexivity.
  destruct items as [|value items]; [reflexivity|].
  destruct value as [| | | | | | |content|]; try reflexivity.
  cbn [ReadDict_loop type_of dbus_message_iter_recurse dbus_message_iter_get_arg_type
       dbus_message_iter_get_basic_str dbus_message_iter_next tl negb].
  pose proof (ReadDictImpl_trace (cstr s) content env st) as Hh.
  destruct (ReadDictImpl (cstr s) content handlers env st) as [[r env'] st'].
  cbn [snd] in Hh.
  destruct r; [exact Hh | |]; rewrite IH; exact Hh.
Qed.

Lemma ReadDict_trace (iter : DBusMessageIter) (env : E) (st : State) :
  trace (snd (ReadDict iter handlers env st)) = trace st.
Proof.
  unfold ReadDict. destruct (dbus_message_iter_get_arg_type iter); try reflexivity.
  apply ReadDict_loop_trace.
Qed.

End DecoderTrace.

Lemma uris_callback_trace (iter : DBusMessageIter) (file : option cptr) (st : State) :
  trace (snd (uris_callback iter file st)) = trace st.
Proof.
  unfold uris_callback.
  destruct (dbus_message_iter_get_arg_type iter); try reflexivity.
  destruct (dbus_message_iter_get_arg_type (dbus_message_iter_recurse iter)); reflexivity.
Qed.

Lemma ReadResponseParamsSingle_trace (msg : DBusMessage) (file : option cptr) (st : State) :
  trace (snd (ReadResponseParamsSingle msg file st)) = trace st.
Proof.
  unfold ReadResponseParamsSingle.
  destruct (dbus_message_iter_init msg) as [iter ok].
  destruct ok; [|reflexivity]. cbn [negb].
  destruct (dbus_message_iter_get_arg_type iter); try reflexivity.
  destruct (N.eqb (dbus_message_iter_get_basic_u32 iter) 0); cbn [negb].
  - destruct (dbus_message_iter_next iter) as [iter' has_next].
    destruct has_next; [|reflexivity]. cbn [negb].
    assert (Hq : forall k h, In (k, h) [(cstr "uris", uris_callback)] ->
                 forall i f s, trace (snd (h i f s)) = trace s).
    { intros k h [Heq|[]]. injection Heq as _ <-. apply uris_callback_trace. }
    pose proof (ReadDict_trace _ Hq iter' file st) as H.
    destruct (ReadDict iter' [(cstr "uris", uris_callback)] file st) as [[r f] s].
    destruct r; exact H.
  - destruct (N.eqb (dbus_message_iter_get_basic_u32 iter) 1); reflexivity.
Qed.

Lemma drain_queue_trace (q : list DBusMessage) (file : option cptr) (st : State) :
  exists evs, forallb is_wait_event evs = true
              /\ trace (drained_state (drain_queue q file st)) = trace st ++ evs.
Proof.
  revert file st. induction q as [|msg q IH]; intros file st.
  - exists [EvPop]. split; reflexivity.
  - cbn [drain_queue].
    destruct (dbus_message_is_signal msg _ _).
    + pose proof (ReadResponseParamsSingle_trace msg file (set_queue q (log EvPop st))) as H.
      destruct (ReadResponseParamsSingle msg file (set_queue q (log EvPop st)))
        as [[res file'] st'].
      cbn [snd] in H. exists [EvPop].
      split; [reflexivity|]. destruct res; exact H.
    + destruct (IH file (set_queue q (log EvPop st))) as (evs & Hevs & Htr).
      exists (EvPop :: evs). split; [exact Hevs|].
      rewrite Htr. cbn [trace set_queue log]. now rewrite <- app_assoc.
Qed.

Lemma wait_loop_trace (batches : list (list DBusMessage)) (file : option cptr) (st : State) :
  exists evs, forallb is_wait_event evs = true
              /\ trace (waited_state (wait_loop batches file st)) = trace st ++ evs.
Proof.
  revert file st. induction batches as [|batch batches IH]; intros file st;
    cbn [wait_loop];
    destruct (drain_queue_trace (queue st) file st) as (evs & Hevs & Htr);
    destruct (drain_queue (queue st) file st) as [res f s|f s]; cbn [drained_state] in Htr.
  - exists evs. split; [exact Hevs | exact Htr].
  - destruct f as [p|].
    + exists evs. split; [exact Hevs | exact Htr].
    + exists (evs ++ [EvReadWrite]). split.
      * rewrite forallb_app, Hevs. reflexivity.
      * cbn [hangup log]. destruct (hangup s); cbn [waited_state trace log];
          rewrite Htr; now rewrite app_assoc.
  - exists evs. split; [exact Hevs | exact Htr].
  - destruct f as [p|].
    + exists evs. split; [exact Hevs | exact Htr].
    + destruct (IH None (set_incoming batches (set_queue (queue s ++ batch) (log EvReadWrite s))))
        as (evs' & Hevs' & Htr').
      exists (evs ++ EvReadWrite :: evs'). split.
      * rewrite forallb_app, Hevs. exact Hevs'.
      * rewrite Htr'. cbn [trace set_incoming set_queue log].
        rewrite Htr, <- !app_assoc. reflexivity.
Qed.

Lemma AllocAndCopyFIlePath_trace (fileUri : cptr) (outPath : option cptr) (st : State) :
  trace (snd (AllocAndCopyFIlePath fileUri outPath st)) = trace st.
Proof.
  unfold AllocAndCopyFIlePath.
  destruct (match_file_prefix FILE_URI_PREFIX FILE_URI_PREFIX_LEN fileUri); reflexivity.
Qed.

Lemma wait_and_read_response_trace (outPath : option cptr) (st : State) :
  exists evs, forallb is_wait_event evs = true
              /\ trace (snd (wait_and_read_response outPath st)) = trace st ++ evs.
Proof.
  unfold wait_and_read_response.
  destruct (wait_loop_trace (incoming st) None st) as (evs & Hevs & Htr).
  exists evs. split; [exact Hevs|].
  destruct (wait_loop (incoming st) None st) as [[[out f] s]|[[file|] s]];
    cbn [waited_state] in Htr; cbn [snd]; try exact Htr.
  pose proof (AllocAndCopyFIlePath_trace (read_released file s) outPath s) as Ha.
  destruct (AllocAndCopyFIlePath (read_released file s) outPath s) as [[res o] s'].
  cbn [snd] in *. now rewrite Ha.
Qed.

Lemma MakeUniqueObjectPath_state (st : State) :
  snd (MakeUniqueObjectPath st)
  = set_entropy (snd (Generate64RandomChars_loop (entropy st) 32)) st.
Proof.
  unfold MakeUniqueObjectPath, Generate64RandomChars.
  destruct (Generate64RandomChars_loop (entropy st) 32); reflexivity.
Qed.

(** C7: in a run whose first subscription is accepted and whose call
    reply carries an object path, the bus calls are: the add-match for the
    guessed address, the call, then nothing more if the returned path is
    the guessed one, else the removal of the guessed rule and one
    add-match for the returned address; only after that the pops and
    read_write calls of the signal wait; and on return the removal of the
    rule then held. *)
Theorem resubscription_trace (outPath : option cptr) (filterList : list nfdnfilteritem_t)
    (defaultPath : option cptr) (st : State) (reply : DBusMessage) (p : string)
    (more : list dval) :
  first_add_match_ok st = true ->
  call_reply st = CallReply reply ->
  msg_body reply = DObjectPath p :: more ->
  let guess := fst (fst (MakeUniqueObjectPath st)) in
  let actual := cstr p in
  let run := NFD_OpenDialogN outPath filterList defaultPath st in
  exists query wait_events,
    forallb is_wait_event wait_events = true
    /\ trace (snd run)
       = trace st
         ++ [EvAddMatch (rule_for guess st); EvSend query]
         ++ (if same_c_string actual guess then []
             else [EvRemoveMatch (rule_for guess st); EvAddMatch (rule_for actual st)])
         ++ wait_events
         ++ match fst (fst run) with
            | Returns _ =>
                [EvRemoveMatch
                   (rule_for (if same_c_string actual guess then guess else actual) st)]
            | BlocksForever => []
            end.
Proof.
  intros Hadd Hreply Hbody guess actual run.
  unfold run, NFD_OpenDialogN, NFD_OpenDialogN_body.
  pose proof (MakeUniqueObjectPath_state st) as Hst1. fold guess.
  unfold guess in *. clear guess.
  destruct (MakeUniqueObjectPath st) as [[guess tok] st1]. cbn [fst snd] in *.
  pose proof (Subscribe_effect (mkHandler None) guess st1) as H1. cbv zeta in H1.
  destruct (Subscribe (mkHandler None) guess st1) as [[res sub1] st2].
  destruct H1 as (Hcmd1 & Htr1 & Hun1 & Hcr1 & _ & Hres1).
  assert (Hun : dbus_unique_name st1 = dbus_unique_name st) by (subst st1; reflexivity).
  assert (res = NFD_OKAY) as ->.
  { rewrite Hres1. subst st1. cbn [add_match_replies set_entropy].
    unfold first_add_match_ok in Hadd.
    destruct (add_match_replies st) as [|[m|] rs]; [reflexivity | discriminate | reflexivity]. }
  unfold dbus_connection_send_with_reply_and_block.
  rewrite Hcr1. replace (call_reply st1) with (call_reply st) by (subst st1; reflexivity).
  rewrite Hreply. unfold dbus_message_iter_init. rewrite Hbody.
  cbn [negb dbus_message_iter_get_arg_type type_of dbus_message_iter_get_basic_str].
  rewrite same_c_string_strcmp. fold actual.
  match goal with |- context [EvSend ?q] => set (query := q) end.
  exists query.
  assert (Htr2 : trace (log (EvSend query) st2)
                 = trace st ++ [EvAddMatch (rule_for guess st); EvSend query]).
  { cbn [trace log]. rewrite Htr1. cbn [sub_cmd app]. subst st1.
    cbn [trace set_entropy dbus_unique_name]. unfold rule_for.
    rewrite <- app_assoc. reflexivity. }
  destruct (same_c_string actual guess); cbn [negb].
  - destruct (wait_and_read_response_trace outPath (log (EvSend query) st2))
      as (evs & Hevs & Htr).
    exists evs. split; [exact Hevs|].
    destruct (wait_and_read_response outPath (log (EvSend query) st2)) as [[out o] s].
    cbn [snd fst] in *.
    destruct out as [r|]; cbn [snd fst].
    + unfold destroy_handler, Unsubscribe, dbus_bus_remove_match. rewrite Hcmd1.
      destruct (remove_match_replies (log (EvRemoveMatch _) s));
        cbn [snd trace log set_remove_match_replies];
        rewrite Htr, Htr2, Hun; unfold rule_for; cbn [app];
        rewrite <- !app_assoc; reflexivity.
    + rewrite Htr, Htr2. cbn [app]. rewrite app_nil_r, <- !app_assoc. reflexivity.
  - pose proof (Subscribe_effect sub1 actual (log (EvSend query) st2)) as H2. cbv zeta in H2.
    destruct (Subscribe sub1 actual (log (EvSend query) st2)) as [[res2 sub2] st3].
    destruct H2 as (Hcmd2 & Htr3 & Hun3 & _).
    rewrite Hcmd1 in Htr3.
    cbn [dbus_unique_name log] in Hcmd2, Htr3.
    rewrite Hun1, Hun in Hcmd2, Htr3.
    destruct (wait_and_read_response_trace outPath st3) as (evs & Hevs & Htr).
    exists evs. split; [exact Hevs|].
    destruct (wait_and_read_response outPath st3) as [[out o] s].
    cbn [snd fst] in *.
    destruct out as [r|]; cbn [snd fst].
    + unfold destroy_handler, Unsubscribe, dbus_bus_remove_match. rewrite Hcmd2.
      destruct (remove_match_replies (log (EvRemoveMatch _) s));
        cbn [snd trace log set_remove_match_replies];
        rewrite Htr, Htr3, Htr2; unfold rule_for; cbn [app];
        rewrite <- !app_assoc; reflexivity.
    + rewrite Htr, Htr3, Htr2. unfold rule_for. cbn [app].
      rewrite app_nil_r, <- !app_assoc. reflexivity.
Qed.

(** C7 at a run where the service answers with another handle than the
    guessed one. *)
Lemma resubscription_trace_redirected :
  let st := redirected_state in
  let guess := fst (fst (MakeUniqueObjectPath st)) in
  let actual := cstr "/org/freedesktop/portal/desktop/request/1_42/other" in
  let run := NFD_OpenDialogN None [] None st in
  exists query wait_events,
    forallb is_wait_event wait_events = true
    /\ trace (snd run)
       = trace st
         ++ [EvAddMatch (rule_for guess st); EvSend query]
         ++ (if same_c_string actual guess then []
             else [EvRemoveMatch (rule_for guess st); EvAddMatch (rule_for actual st)])
         ++ wait_events
         ++ match fst (fst run) with
            | Returns _ =>
                [EvRemoveMatch
                   (rule_for (if same_c_string actual guess then guess else actual) st)]
            | BlocksForever => []
            end.
Proof.
  exact (@resubscription_trace None [] None redirected_state
           (reply_with_path "/org/freedesktop/portal/desktop/request/1_42/other")
           "/org/freedesktop/portal/desktop/request/1_42/other"%string []
           eq_refl eq_refl eq_refl).
Defined.

Lemma decode_entries_no_handler (E : Type) (entries : list (string * dval))
    (handlers : list (cptr * Callback E)) (env : E) (st : State) :
  decode_entries
    (filter (fun kv => match first_handler (fst kv) handlers with
                       | Some _ => false
                       | None => true
                       end) entries)
    handlers env st
  = (NFD_OKAY, env, st).
Proof.
  induction entries as [|[k v] entries IH]; [reflexivity|].
  cbn [filter fst].
  destruct (first_handler k handlers) eqn:Hk; [exact IH|].
  cbn [decode_entries]. rewrite Hk. exact IH.
Qed.

(** C3: what the code does on a successful Response without a "uris"
    entry.  [ReadResponseParamsSingle] returns NFD_OKAY with the file
    still null and no error set, whatever entries under other keys the
    dictionary holds; so the operation goes back to waiting: it stays
    blocked when the connection stays silent, hands out the file of a
    later Response when one comes, and reports that the portal gave no
    reply only when the connection closes.  An empty "uris" array is an
    error, with the message of the string check. *)
Theorem open_dialog_without_uris :
  (forall entries st,
     ReadResponseParamsSingle
       (response_signal
          [DUInt32 0;
           DArray (map dict_entry
                     (filter (fun kv => match first_handler (fst kv)
                                                [(cstr "uris", uris_callback)] with
                                        | Some _ => false
                                        | None => true
                                        end) entries))])
       None st
     = (NFD_OKAY, None, st))
  /\ (let run := NFD_OpenDialogN None [] None no_uris_state in
      fst (fst run) = BlocksForever /\ snd (fst run) = None /\ NFD_GetError (snd run) = None)
  /\ (let run := NFD_OpenDialogN None [] None no_uris_then_uri_state in
      fst (fst run) = Returns NFD_OKAY /\ snd (fst run) = Some (cstr "/tmp/late.txt"))
  /\ (let run := NFD_OpenDialogN None [] None no_uris_hangup_state in
      fst (fst run) = Returns NFD_ERROR /\ NFD_GetError (snd run) = Some ERR_NO_REPLY)
  /\ (forall st,
        ReadResponseParamsSingle
          (response_signal [DUInt32 0; DArray [dict_entry ("uris"%string, DArray [])]]) None st
        = (NFD_ERROR, None, NFDi_SetError ERR_URI_NOT_STRING st)).
Proof.
  split; [|split; [|split; [|split]]].
  - intros entries st.
    unfold ReadResponseParamsSingle, response_signal, dbus_message_iter_init.
    cbn [msg_body negb dbus_message_iter_get_arg_type type_of dbus_message_iter_get_basic_u32
         N.eqb dbus_message_iter_next tl].
    rewrite ReadDict_well_formed, decode_entries_no_handler. reflexivity.
  - vm_compute. repeat split.
  - vm_compute. repeat split.
  - vm_compute. repeat split.
  - reflexivity.
Qed.

(* ------------------------------------------------------------------ *)
(** ** Request encoder *)

(** The passes of the extension loop are bounded by the length of the
    spec: any two fuels above it give the same result. *)
Lemma extn_loop_fuel (fuel fuel' : nat) (garbage : cptr)
    (filter_list_tuple_iter filter_sublist_iter : DBusAppendIter) (extn_begin : cptr) :
  length extn_begin < fuel -> length extn_begin < fuel' ->
  extn_loop fuel garbage filter_list_tuple_iter filter_sublist_iter extn_begin
  = extn_loop fuel' garbage filter_list_tuple_iter filter_sublist_iter extn_begin.
Proof.
  revert fuel' filter_list_tuple_iter filter_sublist_iter extn_begin.
  induction fuel as [|fuel IH]; intros fuel' t s p Hf Hf'; [lia|].
  destruct fuel' as [|fuel']; [lia|].
  cbn [extn_loop].
  set (n := scan_extn (ptr_add p 1) 1).
  destruct (Ascii.eqb_spec (deref (ptr_add p n)) NUL) as [_|Hc]; [reflexivity|].
  assert (Hn : n < length p).
  { destruct (Nat.lt_ge_cases n (length p)) as [H|H]; [exact H|].
    exfalso. apply Hc. unfold deref, ptr_add. now rewrite skipn_all2. }
  apply IH; unfold ptr_add; rewrite length_skipn; lia.
Qed.

(** C4: what the encoder makes of the filter list [("Images",
    "png,jpg,jpeg")], whatever the uninitialised last cell of each copied
    extension reads as: the group tuple holds the name, then the tags and
    patterns one after the other (the copied patterns run on into the
    uninitialised cells), then an array of two empty tuples.  That value
    is not of shape a(sa(us)): it does not read back as groups of
    (tag, pattern) entries, unlike the value of that shape with the three
    entries. *)
Theorem filters_encoding_Images (garbage : cptr) :
  let query := AppendOpenFileQueryParams false garbage
                 (dbus_message_new_method_call "org.freedesktop.portal.Desktop"
                    "/org/freedesktop/portal/desktop" "org.freedesktop.portal.FileChooser"
                    "OpenFile")
                 (cstr "TOKEN") images_filter in
  msg_body query
  = [DString ""; DString "Open File";
     DArray
       [DDictEntry [DString "handle_token"; DVariant [DString "TOKEN"]];
        DDictEntry
          [DString "filters";
           DVariant
             [DArray
                [DStruct
                   [DString "Images";
                    DUInt32 0; DString ("png" ++ c_string garbage);
                    DUInt32 0; DString ("jpg" ++ c_string garbage);
                    DUInt32 0; DString "jpeg";
                    DArray [DStruct []; DStruct []]]]]]]]
  /\ option_map decode_filters
       (find_filters (dbus_message_iter_recurse (skipn 2 (msg_body query))))
     = Some None
  /\ decode_filters
       (DArray [DStruct [DString "Images";
                         DArray [DStruct [DUInt32 0; DString "png"];
                                 DStruct [DUInt32 0; DString "jpg"];
                                 DStruct [DUInt32 0; DString "jpeg"]]]])
     = Some [("Images"%string, [(0%N, "png"%string); (0%N, "jpg"%string); (0%N, "jpeg"%string)])].
Proof. repeat split. Qed.

(* ================================================================== *)
(** * Further properties *)

(* ------------------------------------------------------------------ *)
(** ** Token encoding and buffer sizes *)

Lemma byte_of_chars_encode (b : byte) : byte_of_chars (low_char b) (high_char b) = b.
Proof. destruct b; reflexivity. Qed.

Lemma decode_encode_bytes (l : list byte) : decode_chars (encode_bytes l) = l.
Proof.
  induction l as [|b l IH]; [reflexivity|].
  cbn [encode_bytes flat_map app decode_chars].
  rewrite byte_of_chars_encode. f_equal. exact IH.
Qed.

(** X1: the two-letter encoding loses nothing: reading a token back pair
    by pair gives the entropy bytes it was made from, the first 32 the
    source delivered before failing. *)
Theorem token_decodes_to_entropy :
  (forall l, decode_chars (encode_bytes l) = l)
  /\ (forall st, decode_chars (fst (Generate64RandomChars st))
                 = firstn 32 (bytes_before_failure (entropy st))).
Proof.
  split; [exact decode_encode_bytes|].
  intro st. rewrite Generate64RandomChars_out. apply decode_encode_bytes.
Qed.

Lemma copy_length (p : cptr) (n : nat) : length (copy p n) = n.
Proof.
  revert p. induction n as [|n IH]; intro p; simpl; [reflexivity|]. now rewrite IH.
Qed.

(** X2: the callback path never overruns its buffer: the characters
    written, terminator included, and the part of the 64 token cells the
    generator left unused add up to the [sz + 1] cells allocated. *)
Theorem MakeUniqueObjectPath_fits (st : State) :
  length (fst (fst (MakeUniqueObjectPath st)))
  + (64 - length (fst (Generate64RandomChars st)))
  = MakeUniqueObjectPath_sz st + 1
  /\ length (fst (fst (MakeUniqueObjectPath st))) <= MakeUniqueObjectPath_sz st + 1.
Proof.
  assert (Htok : length (fst (Generate64RandomChars st)) <= 64).
  { rewrite Generate64RandomChars_out, encode_bytes_length, length_firstn. lia. }
  unfold MakeUniqueObjectPath, MakeUniqueObjectPath_sz. cbv zeta.
  destruct (Generate64RandomChars st) as [tok st']. cbn [fst snd] in *.
  rewrite !length_app, transform_map, length_map, !copy_length. cbn [length]. lia.
Qed.

Lemma literal_no_NUL_chars (l : list ascii) (r : cptr) :
  forallb (fun c => negb (Ascii.eqb c NUL)) l = true ->
  c_chars (l ++ r) = l ++ c_chars r.
Proof.
  induction l as [|c l IH]; intro H; [reflexivity|].
  cbn [forallb] in H. apply andb_true_iff in H as [Hc Hl].
  cbn [app c_chars]. destruct (Ascii.eqb c NUL); [discriminate|].
  f_equal. now apply IH.
Qed.

Lemma c_chars_idem_app (p r : cptr) : c_chars (c_chars p ++ r) = c_chars p ++ c_chars r.
Proof.
  induction p as [|c p IH]; [reflexivity|].
  cbn [c_chars]. destruct (Ascii.eqb c NUL) eqn:Hc; [reflexivity|].
  cbn [app c_chars]. rewrite Hc. f_equal. exact IH.
Qed.

(* ------------------------------------------------------------------ *)
(** ** Match rules and the subscription life cycle *)

Lemma MakeResponseSubscriptionPath_chars (handle_path unique_name : cptr) :
  MakeResponseSubscriptionPath handle_path unique_name
  = RULE_1 ++ c_chars handle_path ++ RULE_2 ++ c_chars unique_name ++ ["'"%char; NUL].
Proof.
  unfold MakeResponseSubscriptionPath. cbv zeta. rewrite !copy_strlen.
  change (copy STR_RESPONSE_SUBSCRIPTION_PATH_1 STR_RESPONSE_SUBSCRIPTION_PATH_1_LEN)
    with RULE_1.
  change (copy STR_RESPONSE_SUBSCRIPTION_PATH_2 STR_RESPONSE_SUBSCRIPTION_PATH_2_LEN)
    with RULE_2.
  reflexivity.
Qed.

Lemma rule_chars (handle_path unique_name : cptr) :
  c_chars (MakeResponseSubscriptionPath handle_path unique_name)
  = RULE_1 ++ c_chars handle_path ++ RULE_2 ++ c_chars unique_name ++ ["'"%char].
Proof.
  rewrite MakeResponseSubscriptionPath_chars.
  rewrite (literal_no_NUL_chars RULE_1) by reflexivity.
  rewrite c_chars_idem_app.
  rewrite (literal_no_NUL_chars RULE_2) by reflexivity.
  rewrite c_chars_idem_app. reflexivity.
Qed.

(** X3: a match rule is the first literal, the callback address, the
    second literal, the connection name and a closing quote, copied
    without change; with its terminator it fills the [sz + 1] cells
    allocated exactly, and it is a C string without an inner NUL. *)
Theorem MakeResponseSubscriptionPath_form (handle_path unique_name : cptr) :
  MakeResponseSubscriptionPath handle_path unique_name
  = RULE_1 ++ c_chars handle_path ++ RULE_2 ++ c_chars unique_name ++ ["'"%char; NUL]
  /\ length (MakeResponseSubscriptionPath handle_path unique_name)
     = MakeResponseSubscriptionPath_sz handle_path unique_name + 1
  /\ c_chars (MakeResponseSubscriptionPath handle_path unique_name) ++ [NUL]
     = MakeResponseSubscriptionPath handle_path unique_name.
Proof.
  split; [apply MakeResponseSubscriptionPath_chars|]. split.
  - rewrite MakeResponseSubscriptionPath_chars, !length_app.
    unfold MakeResponseSubscriptionPath_sz, strlen. cbn. lia.
  - rewrite rule_chars, MakeResponseSubscriptionPath_chars.
    rewrite <- !app_assoc. reflexivity.
Qed.

Lemma string_of_list_ascii_inj (l1 l2 : list ascii) :
  string_of_list_ascii l1 = string_of_list_ascii l2 -> l1 = l2.
Proof.
  intro H. rewrite <- (list_ascii_of_string_of_list_ascii l1),
             <- (list_ascii_of_string_of_list_ascii l2).
  now rewrite H.
Qed.

(** X4: two callback addresses get the same match rule only when they
    are the same string: a re-subscription to another address always
    changes the rule. *)
Theorem rule_for_distinguishes (p q : cptr) (st : State) :
  String.eqb (rule_for p st) (rule_for q st) = same_c_string p q.
Proof.
  unfold rule_for, c_string, same_c_string.
  destruct (list_eq_dec ascii_dec (c_chars p) (c_chars q)) as [Heq|Hne].
  - apply String.eqb_eq. rewrite !rule_chars, Heq. reflexivity.
  - apply String.eqb_neq. intro H. apply Hne.
    apply string_of_list_ascii_inj in H. rewrite !rule_chars in H.
    apply app_inv_head in H. apply app_inv_tail in H. exact H.
Qed.

Lemma Subscribe_trace (self : DBusSignalSubscriptionHandler) (handle_path : cptr) (st : State) :
  sub_cmd (snd (fst (Subscribe self handle_path st)))
  = Some (MakeResponseSubscriptionPath handle_path (dbus_unique_name st))
  /\ trace (snd (Subscribe self handle_path st))
     = trace st
       ++ match sub_cmd self with
          | Some old => [EvRemoveMatch (c_string old)]
          | None => []
          end
       ++ [EvAddMatch (rule_for handle_path st)]
  /\ dbus_unique_name (snd (Subscribe self handle_path st)) = dbus_unique_name st.
Proof.
  pose proof (Subscribe_effect self handle_path st) as H. cbv zeta in H.
  destruct (Subscribe self handle_path st) as [[res self'] st'].
  destruct H as (H1 & H2 & H3 & _). repeat split; assumption.
Qed.

Lemma subscribe_all_trace (paths : list cptr) (self : DBusSignalSubscriptionHandler)
    (st : State) :
  trace (destroy_handler (fst (subscribe_all paths self st)) (snd (subscribe_all paths self st)))
  = trace st
    ++ match sub_cmd self, paths with
       | Some old, _ :: _ => [EvRemoveMatch (c_string old)]
       | _, _ => []
       end
    ++ concat (map (fun p => [EvAddMatch (rule_for p st); EvRemoveMatch (rule_for p st)]) paths)
    ++ match sub_cmd self, paths with
       | Some old, [] => [EvRemoveMatch (c_string old)]
       | _, _ => []
       end.
Proof.
  revert self st. induction paths as [|p paths IH]; intros self st.
  - cbn [subscribe_all fst snd map concat app].
    unfold destroy_handler, Unsubscribe, dbus_bus_remove_match.
    destruct (sub_cmd self) as [old|]; [|now rewrite app_nil_r].
    destruct (remove_match_replies (log _ st)); reflexivity.
  - cbn [subscribe_all].
    destruct (Subscribe_trace self p st) as (Hcmd & Htr & Hun).
    destruct (Subscribe self p st) as [[res self'] st']. cbn [fst snd] in *.
    rewrite IH, Hcmd, Htr. unfold rule_for at 1 2 3. rewrite Hun.
    cbn [map concat]. fold (rule_for p st).
    replace (map (fun p0 => [EvAddMatch (rule_for p0 st'); EvRemoveMatch (rule_for p0 st')]) paths)
      with (map (fun p0 => [EvAddMatch (rule_for p0 st); EvRemoveMatch (rule_for p0 st)]) paths)
      by (apply map_ext; intro a; unfold rule_for; now rewrite Hun).
    destruct paths as [|p' paths]; destruct (sub_cmd self);
      cbn [app concat map]; rewrite <- ?app_assoc; cbn [app]; rewrite ?app_nil_r;
      reflexivity.
Qed.

(** X5: a manager leaks no subscription and removes none twice: after any
    sequence of subscriptions of a fresh manager and its destruction, the
    bus has seen, for each address in turn, the add-match of its rule and
    then the remove-match of the same rule, whatever the bus answered to
    any of them. *)
Theorem subscriptions_are_balanced (paths : list cptr) (st : State) :
  trace (destroy_handler (fst (subscribe_all paths (mkHandler None) st))
                         (snd (subscribe_all paths (mkHandler None) st)))
  = trace st
    ++ concat (map (fun p => [EvAddMatch (rule_for p st); EvRemoveMatch (rule_for p st)]) paths).
Proof.
  rewrite subscribe_all_trace. cbn [sub_cmd]. now rewrite app_nil_r.
Qed.

(* ------------------------------------------------------------------ *)
(** ** Response decoder: results and state *)

Section DecoderResults.

Variable E : Type.
Implicit Types (handlers : list (cptr * Callback E)) (env : E) (st : State).

Lemma ReadDict_loop_not_cancel (sub_iter : DBusMessageIter) handlers env st :
  match fst (fst (ReadDict_loop sub_iter handlers env st)) with
  | NFD_CANCEL => False
  | _ => True
  end.
Proof.
  revert env st. induction sub_iter as [|cur rest IH]; intros env st; [exact I|].
  destruct cur as [| | | | | | | |items]; try exact I.
  destruct items as [|key items]; [exact I|].
  destruct key; try exact I.
  destruct items as [|value items]; [exact I|].
  destruct value as [| | | | | | |content|]; try exact I.
  cbn [ReadDict_loop type_of dbus_message_iter_recurse dbus_message_iter_get_arg_type
       dbus_message_iter_get_basic_str dbus_message_iter_next tl negb].
  destruct (ReadDictImpl (cstr s) content handlers env st) as [[r env'] st'].
  destruct r; [exact I | apply IH | apply IH].
Qed.

Lemma ReadDict_loop_stops (entries : list (string * dval)) (v : dval) (rest : DBusMessageIter)
    handlers env st :
  match type_of v with
  | DBUS_TYPE_DICT_ENTRY => True
  | _ => ReadDict_loop (map dict_entry entries ++ v :: rest) handlers env st
         = decode_entries entries handlers env st
  end.
Proof.
  destruct (type_of v) eqn:Hv; try exact I;
    rewrite ReadDict_loop_entries;
    pose proof (decode_entries_result entries handlers env st) as H;
    destruct (decode_entries entries handlers env st) as [[r env'] st'];
    (destruct r; [exact H | |]; destruct v; try discriminate Hv; exact H).
Qed.

Lemma ReadDictImpl_reports (key : cptr) (iter : DBusMessageIter) handlers env :
  (forall k h, In (k, h) handlers -> reports_errors h) ->
  exists r env' e,
    (forall st, ReadDictImpl key iter handlers env st = (r, env', apply_error e st))
    /\ error_matches_result r e.
Proof.
  induction handlers as [|[k h] handlers IH]; intro Hh; cbn [ReadDictImpl].
  - exists NFD_OKAY, env, None. split; [reflexivity | exact I].
  - destruct (Z.eqb (strcmp key k) 0).
    + apply (Hh k h). now left.
    + apply IH. intros k' h' Hin. apply (Hh k' h'). now right.
Qed.

Lemma ReadDict_loop_reports (sub_iter : DBusMessageIter) handlers env :
  (forall k h, In (k, h) handlers -> reports_errors h) ->
  exists r env' e,
    (forall st, ReadDict_loop sub_iter handlers env st = (r, env', apply_error e st))
    /\ error_matches_result r e.
Proof.
  intro Hh. revert env.
  assert (Hok : forall env, exists r env' e,
            (forall st, (NFD_OKAY, env, st) = (r, env', apply_error e st))
            /\ error_matches_result r e).
  { intro env. exists NFD_OKAY, env, None. split; [reflexivity | exact I]. }
  assert (Herr : forall env msg, exists r env' e,
            (forall st, (NFD_ERROR, env, NFDi_SetError msg st) = (r, env', apply_error e st))
            /\ error_matches_result r e).
  { intros env msg. exists NFD_ERROR, env, (Some msg). split; [reflexivity | exact I]. }
  induction sub_iter as [|cur rest IH]; intro env; [apply Hok|].
  destruct cur as [| | | | | | | |items]; try apply Hok.
  destruct items as [|key items]; [apply Herr|].
  destruct key; try apply Herr.
  destruct items as [|value items]; [apply Herr|].
  destruct value as [| | | | | | |content|]; try apply Herr.
  cbn [ReadDict_loop type_of dbus_message_iter_recurse dbus_message_iter_get_arg_type
       dbus_message_iter_get_basic_str dbus_message_iter_next tl negb].
  destruct (@ReadDictImpl_reports (cstr s) content handlers env Hh) as (r & env1 & e & Hrun & Hre).
  destruct r.
  - exists NFD_ERROR, env1, e. split; [|exact Hre]. intro st. now rewrite Hrun.
  - destruct e; [contradiction|].
    destruct (IH env1) as (r2 & env2 & e2 & Hrun2 & Hre2).
    exists r2, env2, e2. split; [|exact Hre2]. intro st. rewrite Hrun. apply Hrun2.
  - destruct e; [contradiction|].
    destruct (IH env1) as (r2 & env2 & e2 & Hrun2 & Hre2).
    exists r2, env2, e2. split; [|exact Hre2]. intro st. rewrite Hrun. apply Hrun2.
Qed.

End DecoderResults.

Lemma uris_callback_reports : reports_errors uris_callback.
Proof.
  intros iter file. unfold uris_callback.
  destruct (dbus_message_iter_get_arg_type iter);
    try (exists NFD_ERROR, file, (Some ERR_URI_NOT_ARRAY); split; [reflexivity | exact I]).
  destruct (dbus_message_iter_get_arg_type (dbus_message_iter_recurse iter));
    try (exists NFD_ERROR, file, (Some ERR_URI_NOT_STRING); split; [reflexivity | exact I]).
  exists NFD_OKAY, (Some (dbus_message_iter_get_basic_str (dbus_message_iter_recurse iter))), None.
  split; [reflexivity | exact I].
Qed.

Lemma uris_handlers_report (k : cptr) (h : Callback (option cptr)) :
  In (k, h) [(cstr "uris", uris_callback)] -> reports_errors h.
Proof. intros [Heq|[]]. injection Heq as _ <-. exact uris_callback_reports. Qed.

Lemma ReadDict_reports (E : Type) (iter : DBusMessageIter) (handlers : list (cptr * Callback E))
    (env : E) :
  (forall k h, In (k, h) handlers -> reports_errors h) ->
  exists r env' e,
    (forall st, ReadDict iter handlers env st = (r, env', apply_error e st))
    /\ error_matches_result r e.
Proof.
  intro Hh. unfold ReadDict.
  destruct (dbus_message_iter_get_arg_type iter);
    try (exists NFD_ERROR, env, (Some ERR_NOT_ARRAY); split; [reflexivity | exact I]).
  now apply ReadDict_loop_reports.
Qed.

Lemma ReadResponseParamsSingle_reports (msg : DBusMessage) (file : option cptr) :
  exists r file' e,
    (forall st, ReadResponseParamsSingle msg file st = (r, file', apply_error e st))
    /\ error_matches_result r e.
Proof.
  unfold ReadResponseParamsSingle.
  destruct (dbus_message_iter_init msg) as [iter ok].
  destruct ok; cbn [negb];
    [|exists NFD_ERROR, file, (Some ERR_MISSING_ARGS); split; [reflexivity | exact I]].
  destruct (dbus_message_iter_get_arg_type iter);
    try (exists NFD_ERROR, file, (Some ERR_NOT_UINT32); split; [reflexivity | exact I]).
  destruct (N.eqb (dbus_message_iter_get_basic_u32 iter) 0); cbn [negb].
  - destruct (dbus_message_iter_next iter) as [iter' has_next].
    destruct has_next; cbn [negb];
      [|exists NFD_ERROR, file, (Some ERR_MISSING_ARGS); split; [reflexivity | exact I]].
    destruct (@ReadDict_reports _ iter' [(cstr "uris", uris_callback)] file
                uris_handlers_report) as (r & f & e & Hrun & Hre).
    destruct r.
    + exists NFD_ERROR, f, e. split; [|exact Hre]. intro st. now rewrite Hrun.
    + exists NFD_OKAY, f, e. split; [|exact Hre]. intro st. now rewrite Hrun.
    + exists NFD_OKAY, f, e. split; [|destruct e; [contradiction | exact I]].
      intro st. now rewrite Hrun.
  - destruct (N.eqb (dbus_message_iter_get_basic_u32 iter) 1).
    + exists NFD_CANCEL, file, None. split; [reflexivity | exact I].
    + exists NFD_ERROR, file, (Some ERR_ABRUPT). split; [reflexivity | exact I].
Qed.

(** X6: the generic decoder never answers NFD_CANCEL, whatever its
    handlers return: a handler's NFD_CANCEL is not passed on, the decode
    goes on with the next entry. *)
Theorem ReadDict_never_cancels (E : Type) (iter : DBusMessageIter)
    (handlers : list (cptr * Callback E)) (env : E) (st : State) :
  match fst (fst (ReadDict iter handlers env st)) with
  | NFD_CANCEL => False
  | _ => True
  end.
Proof.
  unfold ReadDict. destruct (dbus_message_iter_get_arg_type iter); try exact I.
  apply ReadDict_loop_not_cancel.
Qed.

(** X7: an array element that is not a dict entry ends the decode
    without an error: the entries before it are decoded, the element and
    everything after it are left unread. *)
Theorem ReadDict_stops_at_other_element (E : Type) (entries : list (string * dval)) (v : dval)
    (rest more : DBusMessageIter) (handlers : list (cptr * Callback E)) (env : E) (st : State) :
  match type_of v with
  | DBUS_TYPE_DICT_ENTRY => True
  | _ => ReadDict (DArray (map dict_entry entries ++ v :: rest) :: more) handlers env st
         = decode_entries entries handlers env st
  end.
Proof.
  pose proof (ReadDict_loop_stops entries v rest handlers env st) as H.
  destruct (type_of v); exact H.
Qed.

(** X8: reading a Response depends on the message and on the file given
    only: the result and the file read are the same in every state, and
    the state is changed only by setting an error message, which happens
    exactly when the result is NFD_ERROR. *)
Theorem ReadResponseParamsSingle_state (msg : DBusMessage) (file : option cptr) :
  exists r file' e,
    (forall st, ReadResponseParamsSingle msg file st = (r, file', apply_error e st))
    /\ error_matches_result r e.
Proof. apply ReadResponseParamsSingle_reports. Qed.

Lemma decode_without_uris (entries : list (string * dval)) (file : option cptr) (st : State) :
  decode_entries (without_uris entries) [(cstr "uris", uris_callback)] file st
  = (NFD_OKAY, file, st).
Proof. apply decode_entries_no_handler. Qed.

Lemma decode_entries_app (E : Type) (l1 l2 : list (string * dval))
    (handlers : list (cptr * Callback E)) (env : E) (st : State) :
  decode_entries (l1 ++ l2) handlers env st
  = let '(r, env', st') := decode_entries l1 handlers env st in
    match r with
    | NFD_ERROR => (NFD_ERROR, env', st')
    | _ => decode_entries l2 handlers env' st'
    end.
Proof.
  revert env st. induction l1 as [|[k v] l1 IH]; intros env st; [reflexivity|].
  cbn [app decode_entries].
  destruct (first_handler k handlers) as [h|]; [|apply IH].
  destruct (h [v] env st) as [[r env1] st1].
  destruct r; [reflexivity | apply IH | apply IH].
Qed.

(** X9: of a successful Response only the first string of the "uris"
    array is taken: the strings after it, the entries under other keys
    before and after, and the arguments after the dictionary change
    nothing, and no error is set. *)
Theorem ReadResponseParamsSingle_first_uri (sender path u : string) (others : list dval)
    (before after : list (string * dval)) (more : list dval) (file : option cptr) (st : State) :
  ReadResponseParamsSingle
    (Response sender path
       (DUInt32 0
        :: DArray (map dict_entry
                     (without_uris before
                      ++ ("uris"%string, DArray (DString u :: others)) :: without_uris after))
        :: more))
    file st
  = (NFD_OKAY, Some (cstr u), st).
Proof.
  unfold ReadResponseParamsSingle, Response, dbus_message_iter_init.
  cbn [msg_body negb dbus_message_iter_get_arg_type type_of dbus_message_iter_get_basic_u32
       N.eqb dbus_message_iter_next tl].
  rewrite ReadDict_well_formed, decode_entries_app, decode_without_uris.
  change (decode_entries (("uris"%string, DArray (DString u :: others)) :: without_uris after)
            [(cstr "uris", uris_callback)] file st)
    with (decode_entries (without_uris after) [(cstr "uris", uris_callback)]
            (Some (cstr u)) st).
  rewrite decode_without_uris. reflexivity.
Qed.

(** X10: a Response can fail after its file was read.  In a results
    dictionary with two "uris" entries the later one counts: when its
    value is not an array, or an array that does not start with a string,
    the result is NFD_ERROR with that handler's message while the caller's
    file variable already holds the URI of the earlier entry; when its
    value is an array starting with a string, the earlier entry has no
    effect. *)
Theorem ReadResponseParamsSingle_error_after_uri (sender path u : string) (others : list dval)
    (between : list (string * dval)) (value : dval) (after : list (string * dval))
    (more : list dval) (file : option cptr) (st : State) :
  ReadResponseParamsSingle
    (Response sender path
       (DUInt32 0
        :: DArray (map dict_entry
                     (("uris"%string, DArray (DString u :: others))
                      :: without_uris between ++ ("uris"%string, value) :: after))
        :: more))
    file st
  = match uris_failure value with
    | Some msg => (NFD_ERROR, Some (cstr u), NFDi_SetError msg st)
    | None =>
        ReadResponseParamsSingle
          (Response sender path
             (DUInt32 0 :: DArray (map dict_entry (("uris"%string, value) :: after)) :: more))
          file st
    end.
Proof.
  unfold ReadResponseParamsSingle, Response, dbus_message_iter_init.
  cbn [msg_body negb dbus_message_iter_get_arg_type type_of dbus_message_iter_get_basic_u32
       N.eqb dbus_message_iter_next tl].
  rewrite !ReadDict_well_formed.
  change (decode_entries
            (("uris"%string, DArray (DString u :: others))
             :: without_uris between ++ ("uris"%string, value) :: after)
            [(cstr "uris", uris_callback)] file st)
    with (decode_entries (without_uris between ++ ("uris"%string, value) :: after)
            [(cstr "uris", uris_callback)] (Some (cstr u)) st).
  rewrite decode_entries_app, decode_without_uris.
  cbn [decode_entries].
  change (first_handler "uris" [(cstr "uris", uris_callback)]) with (Some uris_callback).
  cbv iota beta.
  destruct value as [| | | | |items| | |]; try reflexivity.
  destruct items as [|first items]; [reflexivity|].
  destruct first; reflexivity.
Qed.

(* ------------------------------------------------------------------ *)
(** ** Dialog orchestrator: stages *)

Lemma Subscribe_frame (self : DBusSignalSubscriptionHandler) (handle_path : cptr) (st : State) :
  let '(res, self', st') := Subscribe self handle_path st in
  queue st' = queue st /\ incoming st' = incoming st /\ hangup st' = hangup st
  /\ call_reply st' = call_reply st /\ stack_garbage st' = stack_garbage st
  /\ match res with
     | NFD_OKAY => err_ptr st' = err_ptr st /\ dbus_err st' = dbus_err st
     | NFD_ERROR => exists m, NFD_GetError st' = Some m
     | NFD_CANCEL => False
     end.
Proof.
  destruct st as [e d u en am rm cr q inc h sg rl tr].
  destruct self as [[old|]]; unfold Subscribe, Unsubscribe, dbus_bus_remove_match,
    dbus_bus_add_match.
  - destruct rm as [|r rs]; destruct am as [|[m|] rs'];
      cbn -[MakeResponseSubscriptionPath c_string];
      repeat split; try reflexivity; eexists; reflexivity.
  - destruct am as [|[m|] rs'];
      cbn -[MakeResponseSubscriptionPath c_string];
      repeat split; try reflexivity; eexists; reflexivity.
Qed.

Lemma destroy_handler_frame (self : DBusSignalSubscriptionHandler) (st : State) :
  err_ptr (destroy_handler self st) = err_ptr st
  /\ dbus_err (destroy_handler self st) = dbus_err st
  /\ trace (destroy_handler self st)
     = trace st ++ match sub_cmd self with
                   | Some cmd => [EvRemoveMatch (c_string cmd)]
                   | None => []
                   end.
Proof.
  unfold destroy_handler, Unsubscribe, dbus_bus_remove_match.
  destruct (sub_cmd self) as [cmd|]; [|now rewrite app_nil_r].
  destruct (remove_match_replies (log _ st)); repeat split; reflexivity.
Qed.

(** The first subscription: what it leaves and when it succeeds. *)
Lemma subscribed_facts (st : State) :
  let '(res, sub1, st2) := subscribed st in
  sub_cmd sub1 = Some (MakeResponseSubscriptionPath (guessed_path st) (dbus_unique_name st))
  /\ trace st2 = trace st ++ [EvAddMatch (rule_for (guessed_path st) st)]
  /\ dbus_unique_name st2 = dbus_unique_name st
  /\ queue st2 = queue st /\ incoming st2 = incoming st /\ hangup st2 = hangup st
  /\ call_reply st2 = call_reply st /\ stack_garbage st2 = stack_garbage st
  /\ res = (if first_add_match_ok st then NFD_OKAY else NFD_ERROR)
  /\ match res with
     | NFD_OKAY => err_ptr st2 = err_ptr st /\ dbus_err st2 = dbus_err st
     | NFD_ERROR => exists m, NFD_GetError st2 = Some m
     | NFD_CANCEL => False
     end.
Proof.
  unfold subscribed.
  pose proof (MakeUniqueObjectPath_state st) as Hst1.
  set (st1 := snd (MakeUniqueObjectPath st)) in *.
  pose proof (Subscribe_effect (mkHandler None) (guessed_path st) st1) as H1.
  pose proof (Subscribe_frame (mkHandler None) (guessed_path st) st1) as H2.
  cbv zeta in H1.
  destruct (Subscribe (mkHandler None) (guessed_path st) st1) as [[res sub1] st2].
  destruct H1 as (Hcmd & Htr & Hun & _ & _ & Hres).
  destruct H2 as (Hq & Hin & Hh & Hcr & Hsg & Herr).
  rewrite Hst1 in *. cbn [dbus_unique_name trace queue incoming hangup call_reply
                          stack_garbage add_match_replies err_ptr dbus_err set_entropy
                          sub_cmd app] in *.
  repeat split; try assumption.
  unfold first_add_match_ok. rewrite Hres.
  destruct (add_match_replies st) as [|[m|] rs]; reflexivity.
Qed.

(** [NFD_OpenDialogN] by its stages. *)
Lemma NFD_OpenDialogN_stages (outPath : option cptr) (filterList : list nfdnfilteritem_t)
    (defaultPath : option cptr) (st : State) :
  NFD_OpenDialogN outPath filterList defaultPath st
  = match fst (fst (subscribed st)) with
    | NFD_OKAY =>
        match call_reply st with
        | CallError message =>
            leave (Returns NFD_ERROR, outPath,
                   set_error_from_dbus message (call_sent filterList st))
                  (snd (fst (subscribed st)))
        | CallReply reply =>
            match msg_body reply with
            | [] =>
                leave (Returns NFD_ERROR, outPath,
                       NFDi_SetError ERR_REPLY_MISSING (call_sent filterList st))
                      (snd (fst (subscribed st)))
            | DObjectPath p :: _ =>
                leave (wait_and_read_response outPath (snd (resubscribed filterList st p)))
                      (fst (resubscribed filterList st p))
            | _ :: _ =>
                leave (Returns NFD_ERROR, outPath,
                       NFDi_SetError ERR_REPLY_NOT_PATH (call_sent filterList st))
                      (snd (fst (subscribed st)))
            end
        end
    | res => leave (Returns res, outPath, snd (subscribed st)) (snd (fst (subscribed st)))
    end.
Proof.
  pose proof (subscribed_facts st) as Hs.
  unfold NFD_OpenDialogN, NFD_OpenDialogN_body, resubscribed, call_sent, OpenFile_query.
  unfold subscribed, guessed_path in *.
  destruct (MakeUniqueObjectPath st) as [[guess tok] st1]. cbn [fst snd] in *.
  destruct (Subscribe (mkHandler None) guess st1) as [[res sub1] st2]. cbn [fst snd] in *.
  destruct Hs as (_ & _ & _ & _ & _ & _ & Hcr & Hsg & _).
  destruct res; try reflexivity.
  unfold dbus_connection_send_with_reply_and_block. rewrite Hcr, Hsg.
  destruct (call_reply st) as [message|reply]; [reflexivity|].
  unfold dbus_message_iter_init.
  destruct (msg_body reply) as [|v more]; [reflexivity|].
  cbn [negb dbus_message_iter_get_arg_type].
  destruct v; try reflexivity.
  cbn [type_of dbus_message_iter_get_basic_str]. rewrite same_c_string_strcmp.
  destruct (same_c_string (cstr s) guess); cbn [negb fst snd].
  - destruct (wait_and_read_response outPath _) as [[out o] s']. reflexivity.
  - destruct (Subscribe sub1 (cstr s) _) as [[r2 sub2] st4]. cbn [fst snd].
    destruct (wait_and_read_response outPath st4) as [[out o] s']. reflexivity.
Qed.

(* ------------------------------------------------------------------ *)
(** ** Dialog orchestrator: the wait for the Response *)

Lemma popped_step (k : nat) (q q' : list DBusMessage) (st : State) :
  popped k q (set_queue q' (log EvPop st)) = popped (S k) q st
  \/ (k = 0 /\ popped k q (set_queue q' (log EvPop st)) = set_queue q' (log EvPop st)).
Proof.
  destruct k as [|k]; [right; split; reflexivity|]. left.
  unfold popped, set_queue, log. cbn [err_ptr dbus_err dbus_unique_name entropy
    add_match_replies remove_match_replies call_reply queue incoming hangup stack_garbage trace].
  f_equal. rewrite <- app_assoc. reflexivity.
Qed.

(** The messages that are not Response signals are popped and dropped. *)
Lemma drain_queue_others (msgs q : list DBusMessage) (file : option cptr) (st : State) :
  drain_queue (other_messages msgs ++ q) file st
  = drain_queue q file (popped (length (other_messages msgs)) q st).
Proof.
  revert st. induction msgs as [|m msgs IH]; intro st; [reflexivity|].
  unfold other_messages in *. cbn [filter].
  destruct (is_Response m) eqn:Hm; cbn [negb]; [apply IH|].
  cbn [app drain_queue length]. unfold is_Response in Hm. rewrite Hm, IH.
  destruct (popped_step (length (filter (fun msg => negb (is_Response msg)) msgs)) q
              (filter (fun msg => negb (is_Response msg)) msgs ++ q) st) as [H|[Hk H]].
  - now rewrite H.
  - rewrite H. apply length_zero_iff_nil in Hk. rewrite Hk. reflexivity.
Qed.

Lemma drain_queue_Response (sender path : string) (body : list dval) (rest : list DBusMessage)
    (file : option cptr) (st : State) :
  drain_queue (Response sender path body :: rest) file st
  = let '(res, file', st') :=
      ReadResponseParamsSingle (Response sender path body) file (set_queue rest (log EvPop st)) in
    match res with
    | NFD_OKAY => DrainBreak file' st'
    | _ => DrainReturn res file' st'
    end.
Proof. reflexivity. Qed.

Lemma popped_fields (k : nat) (q : list DBusMessage) (st : State) :
  trace (popped k q st) = trace st ++ repeat EvPop k
  /\ err_ptr (popped k q st) = err_ptr st /\ dbus_err (popped k q st) = dbus_err st.
Proof. destruct k; cbn; rewrite ?app_nil_r; repeat split; reflexivity. Qed.

Lemma apply_error_fields (e : option string) (st : State) :
  queue (apply_error e st) = queue st /\ trace (apply_error e st) = trace st
  /\ incoming (apply_error e st) = incoming st /\ hangup (apply_error e st) = hangup st.
Proof. destruct e; repeat split; reflexivity. Qed.

(** X11: the inner loop consumes the queue up to the first Response
    signal and no further: the messages before it that are not Response
    signals are popped and dropped, the Response is read, and what was
    queued behind it stays queued.  What it hands on is what reading that
    Response gives. *)
Theorem drain_queue_first_Response (msgs : list DBusMessage) (sender path : string)
    (body : list dval) (rest : list DBusMessage) (file : option cptr) (st : State) :
  let d := drain_queue (other_messages msgs ++ Response sender path body :: rest) file st in
  queue (drained_state d) = rest
  /\ trace (drained_state d) = trace st ++ repeat EvPop (length (other_messages msgs) + 1)
  /\ drained_result d = fst (ReadResponseParamsSingle (Response sender path body) file st).
Proof.
  intro d. unfold d. rewrite drain_queue_others, drain_queue_Response.
  destruct (ReadResponseParamsSingle_reports (Response sender path body) file)
    as (r & f & e & Hrun & Hre).
  rewrite !Hrun. cbn [fst].
  destruct (apply_error_fields e
              (set_queue rest
                 (log EvPop (popped (length (other_messages msgs))
                               (Response sender path body :: rest) st))))
    as (Hq & Htr & _).
  destruct (popped_fields (length (other_messages msgs)) (Response sender path body :: rest) st)
    as (Hp & _).
  assert (Htrace : trace st ++ repeat EvPop (length (other_messages msgs) + 1)
                   = (trace st ++ repeat EvPop (length (other_messages msgs))) ++ [EvPop]).
  { rewrite repeat_app, app_assoc. reflexivity. }
  destruct r; cbn [drained_state drained_result]; rewrite Hq, Htr, Htrace;
    cbn [queue trace set_queue log]; rewrite Hp; repeat split; reflexivity.
Qed.

Lemma wait_loop_unfold (batches : list (list DBusMessage)) (file : option cptr) (st : State) :
  wait_loop batches file st
  = match drain_queue (queue st) file st with
    | DrainReturn res file st => inl (Returns res, file, st)
    | DrainBreak file st =>
        match file with
        | Some _ => inr (file, st)
        | None =>
            match batches with
            | batch :: batches' =>
                wait_loop batches' file
                  (set_incoming batches' (set_queue (queue st ++ batch) (log EvReadWrite st)))
            | [] =>
                if hangup (log EvReadWrite st) then inr (file, log EvReadWrite st)
                else inl (BlocksForever, file, log EvReadWrite st)
            end
        end
    end.
Proof. destruct batches; reflexivity. Qed.

Lemma AllocAndCopyFIlePath_reports (fileUri : cptr) (outPath : option cptr) :
  exists r o e,
    (forall st, AllocAndCopyFIlePath fileUri outPath st = (r, o, apply_error e st))
    /\ match r with
       | NFD_OKAY => e = None /\ exists p, o = Some p
       | NFD_ERROR => o = outPath /\ e = Some ERR_NOT_FILE_URI
       | NFD_CANCEL => False
       end.
Proof.
  unfold AllocAndCopyFIlePath.
  destruct (match_file_prefix FILE_URI_PREFIX FILE_URI_PREFIX_LEN fileUri) as [p|].
  - exists NFD_OKAY, (Some (copy p (strlen p + 1))), None.
    split; [reflexivity|]. split; [reflexivity|]. eexists. reflexivity.
  - exists NFD_ERROR, outPath, (Some ERR_NOT_FILE_URI). repeat split.
Qed.

(** What a return from inside the inner loop looks like. *)
Lemma drain_queue_return (q : list DBusMessage) (file : option cptr) (st : State) :
  match drain_queue q file st with
  | DrainReturn NFD_OKAY _ _ => False
  | DrainReturn NFD_ERROR _ st' => exists m, err_ptr st' = ErrLiteral m
  | _ => True
  end.
Proof.
  revert st. induction q as [|msg q IH]; intro st; [exact I|].
  cbn [drain_queue]. destruct (dbus_message_is_signal msg _ _); [|apply IH].
  destruct (ReadResponseParamsSingle_reports msg file) as (r & f & e & Hrun & Hre).
  rewrite Hrun. destruct r; try exact I.
  destruct e as [m|]; [|contradiction]. exists m. reflexivity.
Qed.

Lemma wait_loop_return (batches : list (list DBusMessage)) (file : option cptr) (st : State) :
  match wait_loop batches file st with
  | inl (Returns NFD_OKAY, _, _) => False
  | inl (Returns NFD_ERROR, _, st') => exists m, err_ptr st' = ErrLiteral m
  | _ => True
  end.
Proof.
  revert file st. induction batches as [|batch batches IH]; intros file st;
    rewrite wait_loop_unfold;
    pose proof (drain_queue_return (queue st) file st) as Hd;
    destruct (drain_queue (queue st) file st) as [res f s|f s].
  - destruct res; exact Hd.
  - destruct f; [exact I|]. destruct (hangup (log EvReadWrite s)); exact I.
  - destruct res; exact Hd.
  - destruct f; [exact I|]. apply IH.
Qed.

Lemma wait_and_read_response_result (outPath : option cptr) (st : State) :
  let '(out, o, st') := wait_and_read_response outPath st in
  match out with
  | Returns NFD_OKAY => exists p, o = Some p
  | Returns NFD_ERROR => o = outPath /\ exists m, err_ptr st' = ErrLiteral m
  | _ => o = outPath
  end.
Proof.
  unfold wait_and_read_response.
  pose proof (wait_loop_return (incoming st) None st) as Hw.
  destruct (wait_loop (incoming st) None st) as [[[out f] s]|[[file|] s]].
  - destruct out as [[| |]|]; try contradiction; try reflexivity. split; [reflexivity | exact Hw].
  - destruct (AllocAndCopyFIlePath_reports (read_released file s) outPath)
      as (r & o & e & Hrun & Hre).
    rewrite Hrun. destruct r; [|exact (proj2 Hre)|contradiction].
    destruct Hre as [-> ->]. split; [reflexivity|]. eexists. reflexivity.
  - split; [reflexivity|]. eexists. reflexivity.
Qed.

Lemma leave_result (r : Outcome * option cptr * State) (sub : DBusSignalSubscriptionHandler) :
  fst (leave r sub) = fst r
  /\ err_ptr (snd (leave r sub)) = err_ptr (snd r)
  /\ dbus_err (snd (leave r sub)) = dbus_err (snd r).
Proof.
  destruct r as [[out o] s]. unfold leave. cbn [fst snd].
  destruct out; cbn [fst snd]; [|repeat split; reflexivity].
  destruct (destroy_handler_frame sub s) as (H1 & H2 & _). repeat split; assumption.
Qed.

Lemma GetError_literal (st : State) (m : string) :
  err_ptr st = ErrLiteral m -> NFD_GetError st = Some m.
Proof. unfold NFD_GetError. now intros ->. Qed.

Lemma GetError_same (st st' : State) :
  err_ptr st' = err_ptr st -> dbus_err st' = dbus_err st -> NFD_GetError st' = NFD_GetError st.
Proof. unfold NFD_GetError. now intros -> ->. Qed.

(** Unless the result is NFD_OKAY the output path is as the caller left
    it, and after NFD_ERROR [NFD_GetError] has a message. *)
Lemma NFD_OpenDialogN_outcomes (outPath : option cptr) (filterList : list nfdnfilteritem_t)
    (defaultPath : option cptr) (st : State) :
  let run := NFD_OpenDialogN outPath filterList defaultPath st in
  match fst (fst run) with
  | Returns NFD_OKAY => exists p, snd (fst run) = Some p
  | Returns NFD_ERROR => snd (fst run) = outPath /\ exists m, NFD_GetError (snd run) = Some m
  | _ => snd (fst run) = outPath
  end.
Proof.
  intro run. unfold run. rewrite NFD_OpenDialogN_stages.
  pose proof (subscribed_facts st) as Hs.
  destruct (subscribed st) as [[res sub1] st2]. cbn [fst snd].
  destruct Hs as (_ & _ & _ & _ & _ & _ & _ & _ & _ & Herr).
  assert (Hlit : forall m s sub,
            let r := leave (Returns NFD_ERROR, outPath, NFDi_SetError m s) sub in
            snd (fst r) = outPath /\ exists m', NFD_GetError (snd r) = Some m').
  { intros m s sub r. unfold r.
    destruct (leave_result (Returns NFD_ERROR, outPath, NFDi_SetError m s) sub)
      as (H1 & H2 & H3).
    cbn [leave fst snd]. split; [reflexivity|]. exists m.
    cbn [leave fst snd] in H2. apply GetError_literal. now rewrite H2. }
  destruct res.
  - destruct Herr as [m Hm].
    destruct (leave_result (Returns NFD_ERROR, outPath, st2) sub1) as (H1 & H2 & H3).
    cbn [leave fst snd] in *. split; [reflexivity|]. exists m.
    rewrite <- Hm. now apply GetError_same.
  - destruct (call_reply st) as [message|reply].
    + destruct (leave_result (Returns NFD_ERROR, outPath,
                              set_error_from_dbus message (call_sent filterList st)) sub1)
        as (H1 & H2 & H3).
      cbn [leave fst snd] in *. split; [reflexivity|]. exists message.
      unfold NFD_GetError. rewrite H2, H3. reflexivity.
    + destruct (msg_body reply) as [|v more]; [apply Hlit|].
      destruct v; try apply Hlit.
      pose proof (wait_and_read_response_result outPath (snd (resubscribed filterList st s)))
        as Hw.
      destruct (leave_result (wait_and_read_response outPath (snd (resubscribed filterList st s)))
                  (fst (resubscribed filterList st s))) as (H1 & H2 & H3).
      destruct (wait_and_read_response outPath (snd (resubscribed filterList st s)))
        as [[out o] s'].
      rewrite H1. cbn [fst snd] in *.
      destruct out as [[| |]|]; try exact Hw.
      destruct Hw as [Ho [m Hm]]. split; [exact Ho|]. exists m.
      apply GetError_literal. now rewrite H2.
  - contradiction.
Qed.

Lemma leave_parts (r : Outcome * option cptr * State) (sub : DBusSignalSubscriptionHandler) :
  leave r sub
  = (fst (fst r), snd (fst r),
     match fst (fst r) with
     | Returns _ => destroy_handler sub (snd r)
     | BlocksForever => snd r
     end).
Proof. destruct r as [[out o] s]. unfold leave. cbn [fst snd]. destruct out; reflexivity. Qed.

(** The caller's output path plays no part in the wait: the outcome and
    the state are the same whatever it holds, and so is the path written
    on NFD_OKAY, which is a NUL-terminated string. *)
Lemma wait_and_read_response_written (outPath outPath' : option cptr) (st : State) :
  let w := wait_and_read_response outPath st in
  let w' := wait_and_read_response outPath' st in
  fst (fst w') = fst (fst w) /\ snd w' = snd w
  /\ match fst (fst w) with
     | Returns NFD_OKAY =>
         snd (fst w') = snd (fst w)
         /\ exists chars, snd (fst w) = Some (chars ++ [NUL]) /\ ~ In NUL chars
     | _ => True
     end.
Proof.
  unfold wait_and_read_response.
  pose proof (wait_loop_return (incoming st) None st) as Hw.
  destruct (wait_loop (incoming st) None st) as [[[out f] s]|[[file|] s]]; cbn [fst snd].
  - destruct out as [[| |]|]; try contradiction; repeat split.
  - unfold AllocAndCopyFIlePath.
    destruct (match_file_prefix FILE_URI_PREFIX FILE_URI_PREFIX_LEN (read_released file s))
      as [rest|]; cbn [fst snd]; [|repeat split].
    repeat split. exists (c_chars rest). rewrite copy_strlen_terminator.
    split; [reflexivity | apply c_chars_no_NUL].
  - repeat split.
Qed.

(** The caller's output path plays no part in the operation either. *)
Lemma NFD_OpenDialogN_written (outPath outPath' : option cptr)
    (filterList : list nfdnfilteritem_t) (defaultPath : option cptr) (st : State) :
  let run := NFD_OpenDialogN outPath filterList defaultPath st in
  let run' := NFD_OpenDialogN outPath' filterList defaultPath st in
  fst (fst run') = fst (fst run) /\ snd run' = snd run
  /\ match fst (fst run) with
     | Returns NFD_OKAY =>
         snd (fst run') = snd (fst run)
         /\ exists chars, snd (fst run) = Some (chars ++ [NUL]) /\ ~ In NUL chars
     | _ => True
     end.
Proof.
  intros run run'. unfold run, run'. rewrite !NFD_OpenDialogN_stages.
  pose proof (subscribed_facts st) as Hs.
  destruct (subscribed st) as [[res sub1] st2]. cbn [fst snd].
  destruct Hs as (_ & _ & _ & _ & _ & _ & _ & _ & _ & Herr).
  destruct res; [rewrite !leave_parts; repeat split | | contradiction].
  destruct (call_reply st) as [message|reply]; [rewrite !leave_parts; repeat split|].
  destruct (msg_body reply) as [|v more]; [rewrite !leave_parts; repeat split|].
  destruct v; try solve [rewrite !leave_parts; repeat split].
  rewrite !leave_parts.
  destruct (wait_and_read_response_written outPath outPath' (snd (resubscribed filterList st s)))
    as (Hout & Hst & Hpath).
  cbn [fst snd]. rewrite Hout, Hst. split; [reflexivity|]. split; [reflexivity|].
  exact Hpath.
Qed.

(** X12: what a caller can rely on after [NFD_OpenDialogN].  What the
    output path holds on entry is never used: the outcome and the final
    state do not depend on it.  On NFD_OKAY the output path has been
    overwritten, with a NUL-terminated string that does not depend on what
    it held before; on NFD_CANCEL, on NFD_ERROR and while the call is
    blocked it is as the caller left it; and after NFD_ERROR
    [NFD_GetError] has a message. *)
Theorem NFD_OpenDialogN_contract (outPath outPath' : option cptr)
    (filterList : list nfdnfilteritem_t) (defaultPath : option cptr) (st : State) :
  let run := NFD_OpenDialogN outPath filterList defaultPath st in
  let run' := NFD_OpenDialogN outPath' filterList defaultPath st in
  fst (fst run') = fst (fst run) /\ snd run' = snd run
  /\ match fst (fst run) with
     | Returns NFD_OKAY =>
         snd (fst run') = snd (fst run)
         /\ exists chars, snd (fst run) = Some (chars ++ [NUL]) /\ ~ In NUL chars
     | Returns NFD_ERROR => snd (fst run) = outPath /\ exists m, NFD_GetError (snd run) = Some m
     | _ => snd (fst run) = outPath
     end.
Proof.
  intros run run'.
  destruct (NFD_OpenDialogN_written outPath outPath' filterList defaultPath st)
    as (Hout & Hst & Hpath).
  pose proof (NFD_OpenDialogN_outcomes outPath filterList defaultPath st) as Hres.
  cbv zeta in Hres, Hpath. fold run in Hres, Hpath.
  split; [exact Hout|]. split; [exact Hst|].
  destruct (fst (fst run)) as [[| |]|]; assumption.
Qed.

(** The subscription held when the wait starts, after a first
    subscription that succeeded. *)
Lemma resubscribed_facts (filterList : list nfdnfilteritem_t) (st : State) (p : string) :
  let same := same_c_string (cstr p) (guessed_path st) in
  sub_cmd (fst (resubscribed filterList st p))
  = Some (MakeResponseSubscriptionPath (if same then guessed_path st else cstr p)
            (dbus_unique_name st))
  /\ trace (snd (resubscribed filterList st p))
     = trace st
       ++ [EvAddMatch (rule_for (guessed_path st) st); EvSend (OpenFile_query filterList st)]
       ++ (if same then []
           else [EvRemoveMatch (rule_for (guessed_path st) st);
                 EvAddMatch (rule_for (cstr p) st)])
  /\ queue (snd (resubscribed filterList st p)) = queue st
  /\ incoming (snd (resubscribed filterList st p)) = incoming st
  /\ hangup (snd (resubscribed filterList st p)) = hangup st.
Proof.
  intro same. unfold same, resubscribed, call_sent.
  pose proof (subscribed_facts st) as Hs.
  destruct (subscribed st) as [[res sub1] st2]. cbn [fst snd].
  destruct Hs as (Hcmd & Htr & Hun & Hq & Hin & Hh & _).
  destruct (same_c_string (cstr p) (guessed_path st)); cbn [fst snd].
  - repeat split; try assumption.
    cbn [trace log]. rewrite Htr, <- app_assoc. reflexivity.
  - destruct (Subscribe_trace sub1 (cstr p) (log (EvSend (OpenFile_query filterList st)) st2))
      as (Hcmd2 & Htr2 & _).
    pose proof (Subscribe_frame sub1 (cstr p) (log (EvSend (OpenFile_query filterList st)) st2))
      as Hf.
    destruct (Subscribe sub1 (cstr p) (log (EvSend (OpenFile_query filterList st)) st2))
      as [[r2 sub2] st4].
    cbn [fst snd] in *. destruct Hf as (Hq2 & Hin2 & Hh2 & _).
    cbn [dbus_unique_name log] in Hcmd2. rewrite Hun in Hcmd2.
    repeat split; [| | | |now rewrite Hh2].
    + exact Hcmd2.
    + rewrite Htr2, Hcmd. cbn [trace log]. rewrite Htr.
      unfold rule_for. cbn [dbus_unique_name log]. rewrite Hun.
      rewrite <- !app_assoc. reflexivity.
    + now rewrite Hq2.
    + now rewrite Hin2.
Qed.

(** Nothing touches what released memory reads as. *)
Lemma Subscribe_released (self : DBusSignalSubscriptionHandler) (handle_path : cptr)
    (st : State) :
  released (snd (Subscribe self handle_path st)) = released st.
Proof.
  destruct st as [e d u en am rm cr q inc h sg rl tr].
  destruct self as [[old|]]; unfold Subscribe, Unsubscribe, dbus_bus_remove_match,
    dbus_bus_add_match.
  - destruct rm as [|r rs]; destruct am as [|[m|] rs']; reflexivity.
  - destruct am as [|[m|] rs']; reflexivity.
Qed.

Lemma resubscribed_released (filterList : list nfdnfilteritem_t) (st : State) (p : string) :
  released (snd (resubscribed filterList st p)) = released st.
Proof.
  assert (Hsub : released (snd (subscribed st)) = released st).
  { unfold subscribed. rewrite Subscribe_released, MakeUniqueObjectPath_state. reflexivity. }
  unfold resubscribed, call_sent.
  destruct (same_c_string (cstr p) (guessed_path st)); cbn [fst snd].
  - exact Hsub.
  - rewrite Subscribe_released. exact Hsub.
Qed.

(** The inner loop on a queue whose first Response signal is [msg]. *)
Lemma drain_queue_decides (msgs : list DBusMessage) (sender path : string) (body : list dval)
    (rest : list DBusMessage) (file : option cptr) (st st0 : State) :
  exists st',
    drain_queue (other_messages msgs ++ Response sender path body :: rest) file st
    = match fst (fst (ReadResponseParamsSingle (Response sender path body) file st0)) with
      | NFD_OKAY =>
          DrainBreak (snd (fst (ReadResponseParamsSingle (Response sender path body) file st0)))
                     st'
      | r =>
          DrainReturn r
            (snd (fst (ReadResponseParamsSingle (Response sender path body) file st0))) st'
      end
    /\ queue st' = rest /\ incoming st' = incoming st /\ hangup st' = hangup st
    /\ released st' = released st.
Proof.
  rewrite drain_queue_others, drain_queue_Response.
  destruct (ReadResponseParamsSingle_reports (Response sender path body) file)
    as (r & f & e & Hrun & _).
  rewrite !Hrun. cbn [fst snd]. eexists. split; [destruct r; reflexivity|].
  destruct e, (length (other_messages msgs)); repeat split; reflexivity.
Qed.

(** What the inner loop hands on depends on the queue and on the file
    given only. *)
Lemma drain_queue_world (q : list DBusMessage) (file : option cptr) :
  exists (returns : bool) r f q',
    forall st, queue st = q ->
      exists st',
        drain_queue q file st = (if returns then DrainReturn r f st' else DrainBreak f st')
        /\ queue st' = q' /\ incoming st' = incoming st /\ hangup st' = hangup st
        /\ released st' = released st.
Proof.
  induction q as [|msg q IH].
  - exists false, NFD_OKAY, file, []. intros st Hq. exists (log EvPop st).
    cbn [drain_queue queue log]. repeat split; assumption.
  - cbn [drain_queue].
    destruct (dbus_message_is_signal msg "org.freedesktop.portal.Request" "Response").
    + destruct (ReadResponseParamsSingle_reports msg file) as (r & f & e & Hrun & _).
      exists (match r with NFD_OKAY => false | _ => true end), r, f, q.
      intros st _. rewrite Hrun. eexists. split; [destruct r; reflexivity|].
      destruct e; repeat split; reflexivity.
    + destruct IH as (returns & r & f & q' & H). exists returns, r, f, q'.
      intros st _. destruct (H (set_queue q (log EvPop st)) eq_refl) as (st' & Hd & Hrest).
      exists st'. split; [exact Hd | exact Hrest].
Qed.

(** So does the wait, together with the traffic to come and with whether
    the connection closes. *)
Lemma wait_loop_world (batches : list (list DBusMessage)) (file : option cptr)
    (s1 s2 : State) :
  queue s1 = queue s2 -> hangup s1 = hangup s2 -> released s1 = released s2 ->
  match wait_loop batches file s1, wait_loop batches file s2 with
  | inl (out1, f1, _), inl (out2, f2, _) => out1 = out2 /\ f1 = f2
  | inr (f1, t1), inr (f2, t2) => f1 = f2 /\ released t1 = released t2
  | _, _ => False
  end.
Proof.
  revert file s1 s2. induction batches as [|batch batches IH]; intros file s1 s2 Hq Hh Hr;
    rewrite !wait_loop_unfold;
    destruct (drain_queue_world (queue s1) file) as (returns & r & f & q' & H);
    destruct (H s1 eq_refl) as (t1 & Hd1 & Hq1 & _ & Hh1 & Hr1);
    destruct (H s2 (eq_sym Hq)) as (t2 & Hd2 & Hq2 & _ & Hh2 & Hr2);
    rewrite <- Hq, Hd1, Hd2; destruct returns; try (split; reflexivity);
    destruct f as [name|]; try (split; [reflexivity | congruence]).
  - cbn [hangup log]. rewrite Hh1, Hh2, <- Hh.
    destruct (hangup s1); split; try reflexivity. cbn [released log]. congruence.
  - apply IH; cbn [queue hangup released set_incoming set_queue log]; congruence.
Qed.

Lemma wait_and_read_response_world (outPath : option cptr) (s1 s2 : State) :
  queue s1 = queue s2 -> incoming s1 = incoming s2 -> hangup s1 = hangup s2 ->
  released s1 = released s2 ->
  fst (wait_and_read_response outPath s1) = fst (wait_and_read_response outPath s2).
Proof.
  intros Hq Hin Hh Hr. unfold wait_and_read_response. rewrite <- Hin.
  pose proof (wait_loop_world (incoming s1) None s1 s2 Hq Hh Hr) as Hw.
  destruct (wait_loop (incoming s1) None s1) as [[[out1 f1] t1]|[f1 t1]];
    destruct (wait_loop (incoming s1) None s2) as [[[out2 f2] t2]|[f2 t2]];
    try contradiction; destruct Hw as [Ha Hb]; subst.
  - reflexivity.
  - destruct f2 as [file|]; [|reflexivity].
    unfold read_released. rewrite Hb.
    destruct (AllocAndCopyFIlePath_reports
                match released t2 with Some cells => cells | None => file end outPath)
      as (r & o & e & Hrun & _).
    rewrite !Hrun. reflexivity.
Qed.

(** X13: when the first add-match is accepted and the call reply starts
    with an object path, the first Response signal in the queue is the
    first message to count, whatever path the reply names and whatever the
    bus answers to a re-subscription; the other messages queued before it
    play no part.  A Response that fails or cancels is the result of the
    operation, with the output path left alone.  A Response that names a
    file ends the wait, and the result and the output path are those of
    resolving what that file pointer reads as by then, a pointer into a
    message that has been released.  A Response that succeeds without
    naming a file is passed over: the operation goes on as a wait that
    starts with what was queued behind that Response and the next batch of
    traffic; with no more traffic it blocks, or fails when the connection
    closes. *)
Theorem NFD_OpenDialogN_first_Response (outPath : option cptr)
    (filterList : list nfdnfilteritem_t) (defaultPath : option cptr) (st : State)
    (replies : list (option string)) (p : string) (more : list dval)
    (msgs : list DBusMessage) (sender path : string) (body : list dval)
    (rest : list DBusMessage) :
  let msg := Response sender path body in
  let st1 := set_add_match_replies (None :: replies)
               (set_call_reply (CallReply (path_reply p more))
                  (set_queue (other_messages msgs ++ msg :: rest) st)) in
  let run := NFD_OpenDialogN outPath filterList defaultPath st1 in
  match fst (ReadResponseParamsSingle msg None st) with
  | (NFD_OKAY, Some file) =>
      let resolved := AllocAndCopyFIlePath (read_released file st) outPath st in
      fst run = (Returns (fst (fst resolved)), snd (fst resolved))
  | (NFD_OKAY, None) =>
      match incoming st with
      | [] => fst run = (if hangup st then Returns NFD_ERROR else BlocksForever, outPath)
      | batch :: batches =>
          fst run = fst (wait_and_read_response outPath
                           (set_incoming batches (set_queue (rest ++ batch) st)))
      end
  | (r, _) => fst run = (Returns r, outPath)
  end.
Proof.
  intros msg st1 run. unfold run. rewrite NFD_OpenDialogN_stages.
  pose proof (subscribed_facts st1) as Hs.
  destruct (subscribed st1) as [[res sub1] st2] eqn:Hsub. cbn [fst snd].
  destruct Hs as (_ & _ & _ & _ & _ & _ & _ & _ & Hres & _).
  change (first_add_match_ok st1) with true in Hres. subst res.
  change (call_reply st1) with (CallReply (path_reply p more)).
  cbn [msg_body path_reply].
  destruct (leave_result (wait_and_read_response outPath (snd (resubscribed filterList st1 p)))
              (fst (resubscribed filterList st1 p))) as (H1 & _).
  rewrite (surjective_pairing (leave _ _)) in *. cbn [fst] in H1 |- *. rewrite H1.
  destruct (resubscribed_facts filterList st1 p) as (_ & _ & Hq & Hin & Hh).
  pose proof (resubscribed_released filterList st1 p) as Hrl.
  set (sw := snd (resubscribed filterList st1 p)) in *.
  change (queue st1) with (other_messages msgs ++ Response sender path body :: rest) in Hq.
  change (incoming st1) with (incoming st) in Hin.
  change (hangup st1) with (hangup st) in Hh.
  change (released st1) with (released st) in Hrl.
  destruct (drain_queue_decides msgs sender path body rest None sw st)
    as (s' & Hd & Hq' & Hin' & Hh' & Hrl').
  subst msg.
  destruct (ReadResponseParamsSingle (Response sender path body) None st) as [[r f] s0].
  cbn [fst snd] in Hd |- *.
  destruct r; [| |];
    try (unfold wait_and_read_response; rewrite wait_loop_unfold, Hq, Hd; reflexivity).
  destruct f as [file|].
  - cbv zeta. unfold wait_and_read_response. rewrite wait_loop_unfold, Hq, Hd.
    unfold read_released. rewrite Hrl', Hrl.
    destruct (AllocAndCopyFIlePath_reports
                match released st with Some cells => cells | None => file end outPath)
      as (r & o & e & Hrun & _).
    rewrite !Hrun. reflexivity.
  - destruct (incoming st) as [|batch batches] eqn:Hinc.
    + unfold wait_and_read_response. rewrite wait_loop_unfold, Hq, Hd, Hin.
      cbn [hangup log]. rewrite Hh', Hh. destruct (hangup st); reflexivity.
    + unfold wait_and_read_response at 1. rewrite wait_loop_unfold, Hq, Hd, Hin.
      unfold wait_and_read_response. cbn [incoming set_incoming].
      pose proof (wait_loop_world batches None
                    (set_incoming batches (set_queue (queue s' ++ batch) (log EvReadWrite s')))
                    (set_incoming batches (set_queue (rest ++ batch) st))) as Hw.
      cbn [queue hangup released set_incoming set_queue log] in Hw.
      rewrite Hq', Hh', Hh, Hrl', Hrl in Hw. specialize (Hw eq_refl eq_refl eq_refl).
      rewrite Hq'.
      destruct (wait_loop batches None
                  (set_incoming batches (set_queue (rest ++ batch) (log EvReadWrite s'))))
        as [[[out1 f1] t1]|[f1 t1]];
        destruct (wait_loop batches None (set_incoming batches (set_queue (rest ++ batch) st)))
          as [[[out2 f2] t2]|[f2 t2]];
        try contradiction; destruct Hw as [Ha Hb]; subst.
      * reflexivity.
      * destruct f2 as [file|]; [|reflexivity].
        unfold read_released. rewrite Hb.
        destruct (AllocAndCopyFIlePath_reports
                    match released t2 with Some cells => cells | None => file end outPath)
          as (r & o & e & Hrun & _).
        rewrite !Hrun. reflexivity.
Qed.

Lemma wait_events_no_match (evs : list Event) :
  forallb is_wait_event evs = true -> filter is_match_event evs = [].
Proof.
  induction evs as [|e evs IH]; [reflexivity|].
  cbn [forallb filter]. intro H. apply andb_true_iff in H as [He Hevs].
  destruct e; try discriminate; cbn [is_match_event]; now apply IH.
Qed.

(** X14: a call of [NFD_OpenDialogN] that returns leaves no subscription
    behind, on any path: of the bus calls it made, the add-match and
    remove-match calls pair up, rule by rule, first for the guessed address
    and then, if there was a re-subscription, for the returned one. *)
Theorem NFD_OpenDialogN_unsubscribes (outPath : option cptr)
    (filterList : list nfdnfilteritem_t) (defaultPath : option cptr) (st : State) :
  let run := NFD_OpenDialogN outPath filterList defaultPath st in
  match fst (fst run) with
  | Returns _ =>
      exists evs rules,
        trace (snd run) = trace st ++ evs
        /\ filter is_match_event evs
           = concat (map (fun r => [EvAddMatch r; EvRemoveMatch r])
                         (rule_for (guessed_path st) st :: rules))
        /\ length rules <= 1
  | BlocksForever => True
  end.
Proof.
  intro run. unfold run. rewrite NFD_OpenDialogN_stages.
  pose proof (subscribed_facts st) as Hs.
  destruct (subscribed st) as [[res sub1] st2] eqn:Hsub. cbn [fst snd].
  destruct Hs as (Hcmd & Htr & _).
  assert (Hfail : forall s,
            trace s = trace st2 ++ [EvSend (OpenFile_query filterList st)] ->
            let r := leave (Returns NFD_ERROR, outPath, s) sub1 in
            match fst (fst r) with
            | Returns _ =>
                exists evs rules,
                  trace (snd r) = trace st ++ evs
                  /\ filter is_match_event evs
                     = concat (map (fun r => [EvAddMatch r; EvRemoveMatch r])
                                   (rule_for (guessed_path st) st :: rules))
                  /\ length rules <= 1
            | BlocksForever => True
            end).
  { intros s Hs r. unfold r, leave. cbn [fst snd].
    destruct (destroy_handler_frame sub1 s) as (_ & _ & Hd). rewrite Hd, Hcmd.
    exists [EvAddMatch (rule_for (guessed_path st) st); EvSend (OpenFile_query filterList st);
            EvRemoveMatch (rule_for (guessed_path st) st)], [].
    split; [|split; [reflexivity | cbn; lia]].
    rewrite Hs, Htr, <- !app_assoc. reflexivity. }
  assert (Hearly : forall res',
            let r := leave (Returns res', outPath, st2) sub1 in
            match fst (fst r) with
            | Returns _ =>
                exists evs rules,
                  trace (snd r) = trace st ++ evs
                  /\ filter is_match_event evs
                     = concat (map (fun r => [EvAddMatch r; EvRemoveMatch r])
                                   (rule_for (guessed_path st) st :: rules))
                  /\ length rules <= 1
            | BlocksForever => True
            end).
  { intros res' r. unfold r, leave. cbn [fst snd].
    destruct (destroy_handler_frame sub1 st2) as (_ & _ & Hd). rewrite Hd, Hcmd.
    exists [EvAddMatch (rule_for (guessed_path st) st);
            EvRemoveMatch (rule_for (guessed_path st) st)], [].
    split; [|split; [reflexivity | cbn; lia]].
    rewrite Htr, <- !app_assoc. reflexivity. }
  destruct res; [apply Hearly | | apply Hearly].
  assert (Hsent : forall e, trace (apply_error e (call_sent filterList st))
                           = trace st2 ++ [EvSend (OpenFile_query filterList st)]).
  { intro e. unfold call_sent. rewrite Hsub. destruct e; reflexivity. }
  destruct (call_reply st) as [message|reply]; [apply Hfail, (Hsent None)|].
  destruct (msg_body reply) as [|v more]; [apply Hfail, (Hsent None)|].
  destruct v; try (apply Hfail, (Hsent None)).
  destruct (resubscribed_facts filterList st s) as (Hcmd2 & Htr2 & _).
  assert (Hsub1 : snd (fst (subscribed st)) = sub1) by now rewrite Hsub.
  destruct (wait_and_read_response_trace outPath (snd (resubscribed filterList st s)))
    as (wevs & Hwevs & Hwtr).
  destruct (wait_and_read_response outPath (snd (resubscribed filterList st s)))
    as [[out o] s'].
  unfold leave. cbn [fst snd] in *. destruct out as [r|]; [|exact I]. cbn [fst snd].
  destruct (destroy_handler_frame (fst (resubscribed filterList st s)) s') as (_ & _ & Hd).
  rewrite Hd, Hcmd2, Hwtr, Htr2. unfold rule_for at 3.
  destruct (same_c_string (cstr s) (guessed_path st)).
  - exists ([EvAddMatch (rule_for (guessed_path st) st); EvSend (OpenFile_query filterList st)]
            ++ wevs ++ [EvRemoveMatch (rule_for (guessed_path st) st)]), [].
    split; [|split; [|cbn; lia]].
    + rewrite app_nil_r, <- !app_assoc. reflexivity.
    + cbn [app filter is_match_event]. rewrite filter_app, (wait_events_no_match _ Hwevs).
      reflexivity.
  - exists ([EvAddMatch (rule_for (guessed_path st) st); EvSend (OpenFile_query filterList st)]
            ++ [EvRemoveMatch (rule_for (guessed_path st) st); EvAddMatch (rule_for (cstr s) st)]
            ++ wevs ++ [EvRemoveMatch (rule_for (cstr s) st)]), [rule_for (cstr s) st].
    split; [|split; [|cbn; lia]].
    + rewrite <- !app_assoc. reflexivity.
    + cbn [app filter is_match_event]. rewrite filter_app, (wait_events_no_match _ Hwevs).
      reflexivity.
Qed.

Lemma guessed_path_ext (st st' : State) :
  dbus_unique_name st' = dbus_unique_name st -> entropy st' = entropy st ->
  guessed_path st' = guessed_path st
  /\ snd (fst (MakeUniqueObjectPath st')) = snd (fst (MakeUniqueObjectPath st)).
Proof.
  intros Hn He. unfold guessed_path, MakeUniqueObjectPath, Generate64RandomChars.
  rewrite Hn, He. destruct (Generate64RandomChars_loop (entropy st) 32). split; reflexivity.
Qed.

Lemma OpenFile_query_ext (filterList : list nfdnfilteritem_t) (st st' : State) :
  dbus_unique_name st' = dbus_unique_name st -> entropy st' = entropy st ->
  stack_garbage st' = stack_garbage st ->
  OpenFile_query filterList st' = OpenFile_query filterList st.
Proof.
  intros Hn He Hg. unfold OpenFile_query.
  now rewrite Hg, (proj2 (guessed_path_ext st st' Hn He)).
Qed.

Lemma Subscribe_refused (self : DBusSignalSubscriptionHandler) (handle_path : cptr)
    (st : State) (message : string) (replies : list (option string)) :
  add_match_replies st = Some message :: replies ->
  NFD_GetError (snd (Subscribe self handle_path st)) = Some message.
Proof.
  destruct st as [e d u en am rm cr q inc h sg rl tr]. cbn [add_match_replies]. intros ->.
  destruct self as [[old|]]; unfold Subscribe, Unsubscribe, dbus_bus_remove_match,
    dbus_bus_add_match; [destruct rm as [|r rs]|];
    cbn -[MakeResponseSubscriptionPath c_string]; reflexivity.
Qed.

(** X15: when the bus refuses the first add-match, the call is never
    sent: the operation returns NFD_ERROR with the bus message as the
    current error and the output path untouched, and its only bus calls
    are that add-match and the remove-match of the cleanup. *)
Theorem NFD_OpenDialogN_subscribe_failure (outPath : option cptr)
    (filterList : list nfdnfilteritem_t) (defaultPath : option cptr) (st : State)
    (message : string) (replies : list (option string)) :
  let st1 := set_add_match_replies (Some message :: replies) st in
  let run := NFD_OpenDialogN outPath filterList defaultPath st1 in
  fst run = (Returns NFD_ERROR, outPath)
  /\ NFD_GetError (snd run) = Some message
  /\ trace (snd run)
     = trace st ++ [EvAddMatch (rule_for (guessed_path st) st);
                    EvRemoveMatch (rule_for (guessed_path st) st)].
Proof.
  intros st1 run. unfold run. rewrite NFD_OpenDialogN_stages.
  pose proof (subscribed_facts st1) as Hs.
  assert (Hget : NFD_GetError (snd (subscribed st1)) = Some message).
  { unfold subscribed. apply (Subscribe_refused _ _ _ (replies := replies)).
    rewrite MakeUniqueObjectPath_state. reflexivity. }
  destruct (guessed_path_ext st st1 eq_refl eq_refl) as [Hg _].
  destruct (subscribed st1) as [[res sub1] st2]. cbn [fst snd] in *.
  destruct Hs as (Hcmd & Htr & _ & _ & _ & _ & _ & _ & Hres & _).
  change (first_add_match_ok st1) with false in Hres. subst res.
  unfold leave. cbn [fst snd].
  destruct (destroy_handler_frame sub1 st2) as (He & Hd & Hdt).
  split; [reflexivity|]. split.
  - rewrite <- Hget. now apply GetError_same.
  - rewrite Hdt, Hcmd, Htr, Hg. unfold rule_for. cbn [trace dbus_unique_name
      set_add_match_replies]. rewrite <- app_assoc. reflexivity.
Qed.

(** X16: when the call fails, or its reply has no argument or does not
    start with an object path, the operation gives up without waiting for
    a signal: it returns NFD_ERROR with the output path untouched and the
    error set (the transport's message, or the message of the reply
    check), and its bus calls are the add-match, the call and the
    remove-match of the cleanup. *)
Theorem NFD_OpenDialogN_call_failure (outPath : option cptr)
    (filterList : list nfdnfilteritem_t) (defaultPath : option cptr) (st : State)
    (answer : call_result) (replies : list (option string)) :
  let st1 := set_add_match_replies (None :: replies) (set_call_reply answer st) in
  let run := NFD_OpenDialogN outPath filterList defaultPath st1 in
  match reply_failure answer with
  | Some err =>
      fst run = (Returns NFD_ERROR, outPath)
      /\ err_ptr (snd run) = err
      /\ NFD_GetError (snd run)
         = match answer with
           | CallError message => Some message
           | CallReply _ => match err with ErrLiteral m => Some m | _ => None end
           end
      /\ trace (snd run)
         = trace st ++ [EvAddMatch (rule_for (guessed_path st) st);
                        EvSend (OpenFile_query filterList st);
                        EvRemoveMatch (rule_for (guessed_path st) st)]
  | None => True
  end.
Proof.
  intros st1 run.
  destruct (reply_failure answer) as [err|] eqn:Hfail; [|exact I].
  unfold run. rewrite NFD_OpenDialogN_stages.
  pose proof (subscribed_facts st1) as Hs.
  destruct (guessed_path_ext st st1 eq_refl eq_refl) as [Hg _].
  pose proof (OpenFile_query_ext filterList st st1 eq_refl eq_refl eq_refl) as Hq.
  unfold call_sent. rewrite Hq.
  destruct (subscribed st1) as [[res sub1] st2]. cbn [fst snd] in *.
  destruct Hs as (Hcmd & Htr & _ & _ & _ & _ & _ & _ & Hres & _).
  change (first_add_match_ok st1) with true in Hres. subst res.
  change (call_reply st1) with answer.
  assert (Htrace : forall s,
            trace s = trace st2 ++ [EvSend (OpenFile_query filterList st)] ->
            trace (destroy_handler sub1 s)
            = trace st ++ [EvAddMatch (rule_for (guessed_path st) st);
                           EvSend (OpenFile_query filterList st);
                           EvRemoveMatch (rule_for (guessed_path st) st)]).
  { intros s Hs. destruct (destroy_handler_frame sub1 s) as (_ & _ & Hdt).
    rewrite Hdt, Hcmd, Hs, Htr, Hg. unfold rule_for.
    cbn [trace dbus_unique_name set_add_match_replies set_call_reply].
    rewrite <- !app_assoc. reflexivity. }
  unfold reply_failure in Hfail.
  destruct answer as [message|reply].
  - injection Hfail as <-. unfold leave. cbn [fst snd].
    destruct (destroy_handler_frame sub1
                (set_error_from_dbus message (log (EvSend (OpenFile_query filterList st)) st2)))
      as (He & Hd & _).
    repeat split; [exact He | | apply Htrace; reflexivity].
    unfold NFD_GetError. now rewrite He, Hd.
  - destruct (msg_body reply) as [|v more].
    + injection Hfail as <-. unfold leave. cbn [fst snd].
      destruct (destroy_handler_frame sub1
                  (NFDi_SetError ERR_REPLY_MISSING
                     (log (EvSend (OpenFile_query filterList st)) st2))) as (He & Hd & _).
      repeat split; [exact He | | apply Htrace; reflexivity].
      apply GetError_literal. exact He.
    + destruct v; try discriminate Hfail; injection Hfail as <-; unfold leave; cbn [fst snd];
        destruct (destroy_handler_frame sub1
                    (NFDi_SetError ERR_REPLY_NOT_PATH
                       (log (EvSend (OpenFile_query filterList st)) st2))) as (He & Hd & _);
        (repeat split; [exact He | | apply Htrace; reflexivity]);
        apply GetError_literal; exact He.
Qed.

(* ------------------------------------------------------------------ *)
(** ** Request encoder: what is written *)

Lemma MakeUniqueObjectPath_token (st : State) :
  snd (fst (MakeUniqueObjectPath st)) = fst (Generate64RandomChars st) ++ [NUL]
  /\ guessed_path st
     = (FIXED_PREFIX ++ "/"%char :: sanitized_identity (c_chars (dbus_unique_name st))
        ++ "/"%char :: fst (Generate64RandomChars st)) ++ [NUL].
Proof.
  unfold guessed_path, MakeUniqueObjectPath, sanitized_identity. cbv zeta.
  rewrite transform_map, !copy_strlen, skip_colon_chars.
  destruct (Generate64RandomChars st) as [tok st']. cbn [fst snd].
  set (idn := map dot_to_underscore (strip_leading_colon (c_chars (dbus_unique_name st)))).
  change (c_chars STR_RESPONSE_HANDLE_PREFIX) with (FIXED_PREFIX ++ ["/"%char]).
  split.
  - unfold ptr_add.
    replace ((((FIXED_PREFIX ++ ["/"%char]) ++ idn) ++ ["/"%char]) ++ tok ++ [NUL])
      with ((((FIXED_PREFIX ++ ["/"%char]) ++ idn) ++ ["/"%char]) ++ (tok ++ [NUL]))
      by reflexivity.
    rewrite skipn_app, skipn_all, Nat.sub_diag. reflexivity.
  - rewrite <- !app_assoc. cbn [app]. rewrite <- !app_assoc. reflexivity.
Qed.

Lemma token_c_string (st : State) :
  c_string (fst (Generate64RandomChars st) ++ [NUL])
  = string_of_list_ascii (fst (Generate64RandomChars st)).
Proof.
  unfold c_string. f_equal.
  replace (fst (Generate64RandomChars st) ++ [NUL])
    with (fst (Generate64RandomChars st) ++ NUL :: []) by reflexivity.
  apply c_chars_app_NUL, A_to_P_no_NUL.
  rewrite Generate64RandomChars_out. apply encode_bytes_range.
Qed.

(** X17: the token sent is the token subscribed to: the [handle_token]
    entry, first in the options of the query that [NFD_OpenDialogN] builds,
    is the very token that ends the guessed callback address. *)
Theorem OpenFile_query_token (filterList : list nfdnfilteritem_t) (st : State) :
  let token := fst (Generate64RandomChars st) in
  exists options,
    msg_body (OpenFile_query filterList st)
    = [DString ""; DString "Open File";
       DArray (dict_entry ("handle_token"%string, DString (string_of_list_ascii token))
               :: options)]
    /\ match filterList with [] => options = [] | _ :: _ => True end
    /\ guessed_path st
       = (FIXED_PREFIX ++ "/"%char :: sanitized_identity (c_chars (dbus_unique_name st))
          ++ "/"%char :: token) ++ [NUL].
Proof.
  intro token. destruct (MakeUniqueObjectPath_token st) as [Htok Hpath].
  unfold OpenFile_query, AppendOpenFileQueryParams. rewrite Htok, Hpath.
  unfold AppendOpenFileQueryDictEntryHandleToken, AppendOpenFileQueryDictEntryMultiple.
  cbn [dbus_message_iter_open_container dbus_message_iter_append_basic
       dbus_message_iter_close_container iter_items iter_container container_value app
       msg_body set_body dbus_message_new_method_call].
  rewrite token_c_string. fold token.
  destruct filterList as [|item filterList]; cbn [length Nat.eqb].
  - exists []. repeat split.
  - eexists. repeat split.
Qed.

(** X18: the query of a dialog without filters.  [NFD_OpenDialogN]
    encodes with [Multiple] unset; with an empty filter list the encoder
    then adds three arguments to the query and changes nothing else: the
    empty parent-window string, the title, and an options dictionary whose
    only entry is [handle_token], a well-formed entry that the generic
    decoder reads back. *)
Theorem AppendOpenFileQueryParams_no_filters (garbage : cptr) (query : DBusMessage)
    (handle_token : cptr) :
  let entries := [("handle_token"%string, DString (c_string handle_token))] in
  AppendOpenFileQueryParams false garbage query handle_token []
  = set_body (msg_body query
              ++ [DString ""; DString "Open File"; DArray (map dict_entry entries)]) query
  /\ (forall (E : Type) (handlers : list (cptr * Callback E)) env st,
        ReadDict (skipn (length (msg_body query) + 2)
                        (msg_body (AppendOpenFileQueryParams false garbage query
                                     handle_token [])))
                 handlers env st
        = decode_entries entries handlers env st).
Proof.
  intro entries.
  assert (H : AppendOpenFileQueryParams false garbage query handle_token []
              = set_body (msg_body query
                          ++ [DString ""; DString "Open File"; DArray (map dict_entry entries)])
                         query).
  { unfold entries, AppendOpenFileQueryParams. f_equal.
    cbn. rewrite <- !app_assoc. reflexivity. }
  split; [exact H|].
  intros E handlers env st. rewrite H. cbn [msg_body set_body].
  rewrite skipn_app, skipn_all2 by lia.
  replace (length (msg_body query) + 2 - length (msg_body query)) with 2 by lia.
  cbn [app skipn]. apply ReadDict_well_formed.
Qed.

(* ------------------------------------------------------------------ *)
(** ** Dialog orchestrator: traffic without a Response *)

Lemma drain_queue_only_others (msgs : list DBusMessage) (file : option cptr) (st : State) :
  exists st',
    drain_queue (other_messages msgs) file st = DrainBreak file st'
    /\ hangup st' = hangup st /\ err_ptr st' = err_ptr st /\ dbus_err st' = dbus_err st
    /\ (queue st = other_messages msgs -> queue st' = []).
Proof.
  pose proof (drain_queue_others msgs [] file st) as H. rewrite app_nil_r in H.
  rewrite H. cbn [drain_queue]. eexists. split; [reflexivity|].
  destruct (length (other_messages msgs)) eqn:Hk; cbn [popped log hangup err_ptr dbus_err queue].
  - repeat split. intros ->. now apply length_zero_iff_nil.
  - repeat split.
Qed.

Lemma wait_loop_no_Response (batches : list (list DBusMessage)) (msgs : list DBusMessage)
    (st : State) :
  queue st = other_messages msgs ->
  exists st',
    wait_loop (map other_messages batches) None st
    = (if hangup st then inr (None, st') else inl (BlocksForever, None, st'))
    /\ err_ptr st' = err_ptr st /\ dbus_err st' = dbus_err st.
Proof.
  revert msgs st. induction batches as [|batch batches IH]; intros msgs st Hq;
    rewrite wait_loop_unfold, Hq;
    destruct (drain_queue_only_others msgs None st) as (s & Hd & Hh & He & Hde & Hqs);
    rewrite Hd.
  - cbn [map hangup log]. rewrite Hh. exists (log EvReadWrite s).
    split; [reflexivity|]. split; assumption.
  - cbn [map]. rewrite (Hqs Hq). cbn [app].
    destruct (IH batch (set_incoming (map other_messages batches)
                          (set_queue (other_messages batch) (log EvReadWrite s))) eq_refl)
      as (s' & Hw & He' & Hde').
    exists s'. rewrite Hw. cbn [hangup set_incoming set_queue log] in *. rewrite Hh.
    split; [reflexivity|]. split; [now rewrite He' | now rewrite Hde'].
Qed.

(** X20: without a Response signal the operation never succeeds: when
    neither the queue nor anything that comes in later holds one, every
    message is popped and dropped, and the call stays blocked as long as
    the connection is open; once the connection is closed it returns
    NFD_ERROR with the message that the portal gave no reply.  The output
    path is untouched either way. *)
Theorem NFD_OpenDialogN_no_Response (outPath : option cptr)
    (filterList : list nfdnfilteritem_t) (defaultPath : option cptr) (st : State)
    (replies : list (option string)) (p : string) (more : list dval)
    (msgs : list DBusMessage) (batches : list (list DBusMessage)) :
  let st1 := set_add_match_replies (None :: replies)
               (set_call_reply (CallReply (path_reply p more))
                  (set_incoming (map other_messages batches)
                     (set_queue (other_messages msgs) st))) in
  let run := NFD_OpenDialogN outPath filterList defaultPath st1 in
  snd (fst run) = outPath
  /\ if hangup st
     then fst (fst run) = Returns NFD_ERROR /\ NFD_GetError (snd run) = Some ERR_NO_REPLY
     else fst (fst run) = BlocksForever.
Proof.
  intros st1 run. unfold run. rewrite NFD_OpenDialogN_stages.
  pose proof (subscribed_facts st1) as Hs.
  destruct (subscribed st1) as [[res sub1] st2] eqn:Hsub. cbn [fst snd].
  destruct Hs as (_ & _ & _ & _ & _ & _ & _ & _ & Hres & _).
  change (first_add_match_ok st1) with true in Hres. subst res.
  change (call_reply st1) with (CallReply (path_reply p more)).
  cbn [msg_body path_reply].
  destruct (resubscribed_facts filterList st1 p) as (_ & _ & Hq & Hin & Hh).
  set (sw := snd (resubscribed filterList st1 p)) in *.
  set (sub2 := fst (resubscribed filterList st1 p)).
  change (queue st1) with (other_messages msgs) in Hq.
  change (incoming st1) with (map other_messages batches) in Hin.
  change (hangup st1) with (hangup st) in Hh.
  unfold wait_and_read_response. rewrite Hin.
  destruct (wait_loop_no_Response batches msgs sw Hq) as (s' & Hw & He & Hde).
  rewrite Hw, Hh. unfold leave.
  destruct (hangup st); cbn [fst snd].
  - destruct (destroy_handler_frame sub2 (NFDi_SetError ERR_NO_REPLY s')) as (H1 & H2 & _).
    repeat split. apply GetError_literal. exact H1.
  - split; reflexivity.
Qed.
